(** * Order lifecycle and fund-splitting ledger of the DS shop back end

    A shallow embedding of
      - [api/order/order.py]   (OrderManager, the order routes),
      - [order/refund.py]      (RefundManager),
      - [order/fasteners.py]   (the auto-receive loop),
      - [core/database.py]     (the [get_conn] context manager),
    over the tables declared in [database_setup.py] and [product/models.py].

    Conventions of the embedding.
      - A table is the list of its rows in storage order: [fetchone] and
        [LIMIT 1] take the first matching row, and several rows may share
        a [product_id] or an [order_number].
      - A money column ([DECIMAL(12,2)], [DECIMAL(10,2)]) holds an integer
        number of minor currency units.  A Python [Decimal] is an exact
        number; MySQL rounds it half away from zero to the minor unit when
        a money column stores it.  Quantities and ids are integers.
      - A nullable column is an [option].
      - The code runs on a pymysql connection with [autocommit=False]:
        statements act on a working copy, [conn.commit()] publishes it,
        an exception leaving [get_conn] rolls it back.
      - The clock and the random part of the order number are inputs.
      - Of the constraints of the schema only [UNIQUE(order_number)] on
        [orders] is modelled; the foreign keys, which [database_setup.py]
        adds on a best-effort basis, are not. *)

From Stdlib Require Import ZArith QArith Qround List String Bool Lia.
Import ListNotations.
Open Scope string_scope.
Open Scope list_scope.
Open Scope Z_scope.

Set Implicit Arguments.

(** ** Rows *)

Record Product := mkProduct {
  p_id : Z;
  p_name : string;
  p_is_member_product : bool }.

Record ProductSku := mkSku {
  s_id : Z;
  s_product_id : Z;
  s_price : Z;
  s_stock : option Z }.

Record CartEntry := mkCart {
  c_user_id : Z;
  c_product_id : Z;
  c_sku_id : Z;
  c_quantity : Z;
  c_selected : Z;
  c_specifications : option string }.

Record Order := mkOrder {
  o_id : Z;
  o_order_no : option string;
  o_order_number : option string;
  o_user_id : Z;
  o_total_amount : Z;
  o_status : string;
  o_is_vip_item : bool;
  o_consignee_name : option string;
  o_consignee_phone : option string;
  o_province : option string;
  o_city : option string;
  o_district : option string;
  o_shipping_address : option string;
  o_delivery_way : string;
  o_pay_way : string;
  o_auto_recv_time : Z;
  o_refund_reason : option string;
  o_created_at : Z }.

Record OrderItem := mkOrderItem {
  oi_order_id : Z;
  oi_product_id : Z;
  oi_sku_id : Z;
  oi_quantity : Z;
  oi_unit_price : Z;
  oi_total_price : Z }.

Record Refund := mkRefund {
  r_order_number : string;
  r_refund_type : string;
  r_reason : string;
  r_status : string;
  r_reject_reason : option string }.

(** [order_split.item_type] is [ENUM('merchant','pool')]; a pool row names
    its pool in [pool_type]. *)
Inductive Destination :=
| Merchant
| Pool (pool_type : string).

Record OrderSplit := mkSplit {
  os_order_number : string;
  os_destination : Destination;
  os_amount : Z }.

Record FinanceAccount := mkAccount {
  fa_account : Destination;
  fa_balance : Z }.

Record AccountFlow := mkFlow {
  af_account : Destination;
  af_change_amount : Z;
  af_balance_after : Z;
  af_flow_type : string;
  af_remark : string }.

(** The database: the tables the order subsystem reads and writes, and
    whether [SHOW COLUMNS FROM product_skus] lists a [stock] column. *)
Record DB := mkDB {
  users : list Z;
  products : list Product;
  product_skus : list ProductSku;
  skus_have_stock : bool;
  cart : list CartEntry;
  orders : list Order;
  order_items : list OrderItem;
  order_split : list OrderSplit;
  finance_accounts : list FinanceAccount;
  account_flow : list AccountFlow;
  refunds : list Refund }.

(** ** Exceptions *)

Inductive Detail :=
| BuyNowItemsEmpty
| ProductNotFound (product_id : Z)
| CustomAddressRequired
| InsufficientStock (product_id stock quantity : Z)
| CartEmptyOrAddressMissing
| IllegalPayWay
| OrderNotFound
| RefundAlreadyApplied.

Inductive Exception :=
| HTTPException (status_code : Z) (detail : Detail)
| IntegrityError
| OtherError (what : string).

(** ** Connections and transactions ([core/database.py]) *)

Record Conn := mkConn {
  committed : DB;
  working : DB }.

Definition Tx (A : Type) : Type := Conn -> (Exception + A) * Conn.

Definition ret {A} (a : A) : Tx A := fun c => (inr a, c).

Definition raise {A} (e : Exception) : Tx A := fun c => (inl e, c).

Definition bind {A B} (m : Tx A) (k : A -> Tx B) : Tx B :=
  fun c => match m c with
           | (inl e, c') => (inl e, c')
           | (inr a, c') => k a c'
           end.

Declare Scope tx_scope.
Delimit Scope tx_scope with tx.
Notation "x <- m ;; k" := (bind m (fun x => k))
  (at level 61, m at next level, right associativity) : tx_scope.
Notation "m ;;; k" := (bind m (fun _ => k))
  (at level 61, right associativity) : tx_scope.

(** A [SELECT]: reads the working copy. *)
Definition query {A} (f : DB -> A) : Tx A :=
  fun c => (inr (f (working c)), c).

(** An [INSERT], [UPDATE] or [DELETE]: changes the working copy. *)
Definition execute (f : DB -> DB) : Tx unit :=
  fun c => (inr tt, {| committed := committed c; working := f (working c) |}).

(** [conn.commit()] *)
Definition commit : Tx unit :=
  fun c => (inr tt, {| committed := working c; working := working c |}).

(** [with get_conn() as conn: body].  The connection opens on the stored
    database; when the body raises, [conn.rollback()] discards the working
    copy, and [conn.close()] discards whatever was not committed.  What is
    left in the database is the last committed state. *)
Definition get_conn {A} (body : Tx A) (db : DB) : (Exception + A) * DB :=
  let '(r, c) := body {| committed := db; working := db |} in
  (r, committed c).

(** [for x in l: f x] *)
Fixpoint for_each {A} (f : A -> Tx unit) (l : list A) : Tx unit :=
  match l with
  | [] => ret tt
  | x :: l' => bind (f x) (fun _ => for_each f l')
  end.

(** [[g(x) for x in l]] where [g] may raise *)
Fixpoint map_tx {A B} (f : A -> Tx B) (l : list A) : Tx (list B) :=
  match l with
  | [] => ret []
  | x :: l' => bind (f x) (fun y => bind (map_tx f l') (fun ys => ret (y :: ys)))
  end.

(** ** Small helpers *)

Definition opt_is (o : option string) (s : string) : bool :=
  match o with
  | Some t => String.eqb t s
  | None => false
  end.

Definition opt_string_eqb (a b : option string) : bool :=
  match a, b with
  | Some x, Some y => String.eqb x y
  | None, None => true
  | _, _ => false
  end.

Definition sum_Z (l : list Z) : Z := fold_right Z.add 0 l.

Definition Destination_eqb (a b : Destination) : bool :=
  match a, b with
  | Merchant, Merchant => true
  | Pool x, Pool y => String.eqb x y
  | _, _ => false
  end.

(** ** Decimal amounts *)

(** A Python [Decimal]: an exact number.  The code adds and multiplies
    decimals, which is exact at the sizes the money columns admit. *)
Definition Decimal : Type := Q.

(** The decimal [mantissa * 10^-places]: [decimal 4 3] is 0.004. *)
Definition decimal (mantissa : Z) (places : nat) : Decimal :=
  Qmake mantissa (Z.to_pos (10 ^ Z.of_nat places)).

(** A money column read back: so many minor units. *)
Definition of_minor (units : Z) : Decimal := Qmake units 100.

(** MySQL rounds an exact value half away from zero. *)
Definition round_half_away (x : Q) : Z :=
  if Qle_bool 0 x
  then Qfloor (x + (1 # 2))
  else - Qfloor (- x + (1 # 2)).

(** What a money column stores of a decimal, in minor units. *)
Definition to_minor (d : Decimal) : Z :=
  round_half_away (d * inject_Z 100).


(** Python truthiness of an optional string: [None] and [''] are false. *)
Definition truthy (o : option string) : bool :=
  match o with
  | Some s => negb (String.eqb s "")
  | None => false
  end.

(** [d.get(k)] and [d.get(k, default)] on a dict given as its items. *)
Fixpoint dict_get (d : list (string * string)) (k : string) : option string :=
  match d with
  | [] => None
  | (k', v) :: d' => if String.eqb k' k then Some v else dict_get d' k
  end.

Definition dict_get_default (d : list (string * string)) (k dflt : string) : string :=
  match dict_get d k with
  | Some v => v
  | None => dflt
  end.

(** ** Fund Split Engine *)

(** The routing table of one kind of order: the destinations that take a
    fixed share, each with its rate in basis points (1/10000 of the
    total), and the pool that takes what is left. *)
Record SplitTable := mkTable {
  shares : list (Destination * Z);
  remainder_pool : string }.

Record SplitConfig := mkConfig {
  ordinary_table : SplitTable;
  premium_table : SplitTable }.



Definition table_for (cfg : SplitConfig) (has_vip : bool) : SplitTable :=
  if has_vip then premium_table cfg else ordinary_table cfg.

(** The share of a destination, rounded down to the minor unit. *)
Definition share_of (total rate : Z) : Z := total * rate / 10000.

Definition fixed_parts (t : SplitTable) (total : Z) : list (Destination * Z) :=
  map (fun dr => (fst dr, share_of total (snd dr))) (shares t).

(** The partition of [total]: the fixed shares, then the remainder pool
    with everything the fixed shares leave, rounding remainder included. *)
Definition split_parts (t : SplitTable) (total : Z) : list (Destination * Z) :=
  fixed_parts t total ++
  [(Pool (remainder_pool t), total - sum_Z (map snd (fixed_parts t total)))].

Definition balance_of (accts : list FinanceAccount) (d : Destination) : Z :=
  match find (fun a => Destination_eqb (fa_account a) d) accts with
  | Some a => fa_balance a
  | None => 0
  end.

Definition add_balance (d : Destination) (amount : Z) (a : FinanceAccount)
  : FinanceAccount :=
  if Destination_eqb (fa_account a) d
  then {| fa_account := fa_account a; fa_balance := fa_balance a + amount |}
  else a.

(** One ledger movement: the balance of the account changes by [amount]
    and an AccountFlow row records the change and the resulting balance. *)
Definition post_flow (d : Destination) (amount : Z) (flow_type remark : string)
  (db : DB) : DB :=
  let accts := map (add_balance d amount) (finance_accounts db) in
  {| users := users db; products := products db;
     product_skus := product_skus db; skus_have_stock := skus_have_stock db;
     cart := cart db; orders := orders db; order_items := order_items db;
     order_split := order_split db;
     finance_accounts := accts;
     account_flow := account_flow db ++
       [ {| af_account := d; af_change_amount := amount;
            af_balance_after := balance_of accts d;
            af_flow_type := flow_type; af_remark := remark |} ];
     refunds := refunds db |}.

Definition insert_split (row : OrderSplit) (db : DB) : DB :=
  {| users := users db; products := products db;
     product_skus := product_skus db; skus_have_stock := skus_have_stock db;
     cart := cart db; orders := orders db; order_items := order_items db;
     order_split := order_split db ++ [row];
     finance_accounts := finance_accounts db;
     account_flow := account_flow db;
     refunds := refunds db |}.

Definition record_part (order_number : string) (db : DB) (part : Destination * Z)
  : DB :=
  insert_split
    {| os_order_number := order_number; os_destination := fst part;
       os_amount := snd part |}
    (post_flow (fst part) (snd part) "order_split" order_number db).

(** Modelled from the spec: [services.finance_service.split_order_funds]
    is imported by [api/order/order.py] but its module is not part of the
    sources.  Section 4.3: a deterministic partition of [total_amount]
    across the merchant and a fixed set of pools chosen by the premium
    flag; one AccountFlow row (incrementing the account's balance) and one
    OrderSplit row per destination; amounts rounded to the minor unit, the
    rounding remainder assigned to a designated pool.  The caller hands
    it the decimal it computed, unrounded; the engine's amounts are minor
    units ([order_split.amount] is [DECIMAL(10,2)]), so it partitions the
    total as a money column stores it.  It runs on the caller's cursor
    and does not commit. *)
Definition split_order_funds (cfg : SplitConfig) (order_number : string)
  (total : Decimal) (has_vip : bool) (db : DB) : DB :=
  fold_left (record_part order_number)
            (split_parts (table_for cfg has_vip) (to_minor total)) db.

Definition splits_of (db : DB) (order_number : string) : list OrderSplit :=
  filter (fun s => String.eqb (os_order_number s) order_number) (order_split db).

Definition reverse_part (order_number : string) (db : DB) (s : OrderSplit) : DB :=
  post_flow (os_destination s) (- os_amount s) "refund_reversal" order_number db.

(** Modelled from the spec: [finance.finance_logic.reverse_split_on_refund]
    is imported by [order/refund.py] but its module is not part of the
    sources.  Section 4.4: for each recorded OrderSplit row of the order,
    one AccountFlow row of the negated amount, taking that amount back out
    of the account's balance; the recorded rows are used, nothing is
    re-derived from the routing table. *)
Definition reverse_split_on_refund (order_number : string) (db : DB) : DB :=
  fold_left (reverse_part order_number) (splits_of db order_number) db.

(** What the ledger holds for one order and one account: the sum of the
    AccountFlow rows that carry the order number. *)
Definition flows_of (db : DB) (order_number : string) (d : Destination)
  : list AccountFlow :=
  filter (fun f => String.eqb (af_remark f) order_number &&
                   Destination_eqb (af_account f) d) (account_flow db).

Definition net_flow (db : DB) (order_number : string) (d : Destination) : Z :=
  sum_Z (map af_change_amount (flows_of db order_number d)).

Definition split_total (db : DB) (order_number : string) (d : Destination) : Z :=
  sum_Z (map os_amount
    (filter (fun s => Destination_eqb (os_destination s) d)
            (splits_of db order_number))).

(** ** Table updates *)

Definition set_orders (f : list Order -> list Order) (db : DB) : DB :=
  {| users := users db; products := products db;
     product_skus := product_skus db; skus_have_stock := skus_have_stock db;
     cart := cart db; orders := f (orders db); order_items := order_items db;
     order_split := order_split db; finance_accounts := finance_accounts db;
     account_flow := account_flow db; refunds := refunds db |}.

Definition set_order_items (f : list OrderItem -> list OrderItem) (db : DB) : DB :=
  {| users := users db; products := products db;
     product_skus := product_skus db; skus_have_stock := skus_have_stock db;
     cart := cart db; orders := orders db; order_items := f (order_items db);
     order_split := order_split db; finance_accounts := finance_accounts db;
     account_flow := account_flow db; refunds := refunds db |}.

Definition set_product_skus (f : list ProductSku -> list ProductSku) (db : DB) : DB :=
  {| users := users db; products := products db;
     product_skus := f (product_skus db); skus_have_stock := skus_have_stock db;
     cart := cart db; orders := orders db; order_items := order_items db;
     order_split := order_split db; finance_accounts := finance_accounts db;
     account_flow := account_flow db; refunds := refunds db |}.

Definition set_cart (f : list CartEntry -> list CartEntry) (db : DB) : DB :=
  {| users := users db; products := products db;
     product_skus := product_skus db; skus_have_stock := skus_have_stock db;
     cart := f (cart db); orders := orders db; order_items := order_items db;
     order_split := order_split db; finance_accounts := finance_accounts db;
     account_flow := account_flow db; refunds := refunds db |}.

Definition set_refunds (f : list Refund -> list Refund) (db : DB) : DB :=
  {| users := users db; products := products db;
     product_skus := product_skus db; skus_have_stock := skus_have_stock db;
     cart := cart db; orders := orders db; order_items := order_items db;
     order_split := order_split db; finance_accounts := finance_accounts db;
     account_flow := account_flow db; refunds := f (refunds db) |}.

(** ** Order Repository ([api/order/order.py]) *)

(** One entry of [buy_now_items]: a dict with these four keys.  The ids
    and the quantity are integers; the price is any number the request
    carries, which the code turns into [Decimal(str(price))]. *)
Record BuyNowItem := mkBuyNow {
  bn_product_id : Z;
  bn_sku_id : Z;
  bn_quantity : Z;
  bn_price : Decimal }.

(** One element of [items], from either branch of step 1. *)
Record Item := mkItem {
  i_product_id : Z;
  i_sku_id : Z;
  i_quantity : Z;
  i_price : Decimal;
  i_is_vip : bool }.

Record Shipping := mkShipping {
  consignee_name : option string;
  consignee_phone : option string;
  province : option string;
  city : option string;
  district : option string;
  shipping_address : option string }.

(** What [create] takes from outside the request: [datetime.now()] and the
    order number built from the time stamp, the user id and six digits of
    a fresh uuid. *)
Record Env := mkEnv {
  now : Z;
  order_number : string }.

Definition seven_days : Z := 7 * 86400.

Definition select_product (product_id : Z) (db : DB) : option Product :=
  find (fun p => p_id p =? product_id) (products db).

(** The cart checkout query: cart rows of the user with [selected = 1],
    joined with their SKU (by [sku_id]) and their product. *)
Definition select_cart_items (user_id : Z) (db : DB) : list Item :=
  flat_map (fun c =>
    if (c_user_id c =? user_id) && (c_selected c =? 1) then
      flat_map (fun s =>
        if s_id s =? c_sku_id c then
          flat_map (fun p =>
            if p_id p =? c_product_id c then
              [ {| i_product_id := c_product_id c; i_sku_id := c_sku_id c;
                   i_quantity := c_quantity c;
                   i_price := of_minor (s_price s);
                   i_is_vip := p_is_member_product p |} ]
            else []) (products db)
        else []) (product_skus db)
    else []) (cart db).

(** [SELECT stock FROM product_skus WHERE product_id = %s] then [fetchone]:
    the first SKU row of the product.  A NULL stock reads as 0 (the column
    is numeric, so it is wrapped in COALESCE); without a stock column the
    query selects the literal 0; without any row the code takes 0. *)
Definition read_stock (product_id : Z) (db : DB) : Z :=
  match find (fun s => s_product_id s =? product_id) (product_skus db) with
  | Some s =>
      if skus_have_stock db
      then match s_stock s with Some v => v | None => 0 end
      else 0
  | None => 0
  end.

(** [UPDATE product_skus SET stock = stock - %s WHERE product_id = %s] *)
Definition decrement_stock (i : Item) (db : DB) : DB :=
  set_product_skus
    (map (fun s =>
       if s_product_id s =? i_product_id i
       then {| s_id := s_id s; s_product_id := s_product_id s;
               s_price := s_price s;
               s_stock := option_map (fun v => v - i_quantity i) (s_stock s) |}
       else s)) db.

(** [Decimal(str(i["quantity"])) * Decimal(str(i["price"]))] *)
Definition line_total (i : Item) : Decimal :=
  (inject_Z (i_quantity i) * i_price i)%Q.

(** The [order_items] row of an item: the money columns store the price
    and the line total rounded, each on its own. *)
Definition line_of (oid : Z) (i : Item) : OrderItem :=
  {| oi_order_id := oid; oi_product_id := i_product_id i;
     oi_sku_id := i_sku_id i; oi_quantity := i_quantity i;
     oi_unit_price := to_minor (i_price i);
     oi_total_price := to_minor (line_total i) |}.

Definition next_order_id (db : DB) : Z :=
  1 + fold_right Z.max 0 (map o_id (orders db)).

Definition order_number_taken (n : string) (db : DB) : bool :=
  existsb (fun o => opt_is (o_order_number o) n) (orders db).

(** [INSERT INTO orders(...)] followed by [cur.lastrowid].  The insert
    fails on the unique key when the order number is already stored. *)
Definition insert_order (n : string) (row : Z -> Order) : Tx Z :=
  fun c =>
    let db := working c in
    if order_number_taken n db then (inl IntegrityError, c)
    else
      let oid := next_order_id db in
      (inr oid, {| committed := committed c;
                   working := set_orders (fun l => l ++ [row oid]) db |}).

(** [sum(Decimal(str(i["quantity"])) * Decimal(str(i["price"])) for i in
    items)]: exact, nothing is rounded. *)
Definition total_of (items : list Item) : Decimal :=
  fold_left (fun acc i => (acc + line_total i)%Q) items 0%Q.

Definition no_shipping : Shipping :=
  {| consignee_name := None; consignee_phone := None; province := None;
     city := None; district := None; shipping_address := None |}.

Definition shipping_of (custom_addr : list (string * string)) : Shipping :=
  {| consignee_name := dict_get custom_addr "consignee_name";
     consignee_phone := dict_get custom_addr "consignee_phone";
     province := Some (dict_get_default custom_addr "province" "");
     city := Some (dict_get_default custom_addr "city" "");
     district := Some (dict_get_default custom_addr "district" "");
     shipping_address := Some (dict_get_default custom_addr "detail" "") |}.

Module OrderManager.

Section Create.

Variable cfg : SplitConfig.

Local Open Scope tx_scope.

(** Step 1, buy-now branch: one product lookup per requested item. *)
Definition buy_now_line (it : BuyNowItem) : Tx Item :=
  prod <- query (select_product (bn_product_id it)) ;;
  match prod with
  | None => raise (HTTPException 404 (ProductNotFound (bn_product_id it)))
  | Some p =>
      ret {| i_product_id := bn_product_id it; i_sku_id := bn_sku_id it;
             i_quantity := bn_quantity it; i_price := bn_price it;
             i_is_vip := p_is_member_product p |}
  end.

(** Step 1: the order's items and its shipping snapshot; [None] is the
    early [return None] of an empty cart. *)
Definition assemble (user_id : Z) (custom_addr : option (list (string * string)))
  (buy_now : bool) (buy_now_items : option (list BuyNowItem))
  : Tx (option (list Item * Shipping)) :=
  if buy_now then
    match buy_now_items with
    | None | Some [] => raise (HTTPException 422 BuyNowItemsEmpty)
    | Some its =>
        items <- map_tx buy_now_line its ;;
        match custom_addr with
        | None | Some [] => raise (HTTPException 422 CustomAddressRequired)
        | Some d => ret (Some (items, shipping_of d))
        end
    end
  else
    items <- query (select_cart_items user_id) ;;
    match items with
    | [] => ret None
    | _ => ret (Some (items, no_shipping))
    end.

(** Step 3: the stock check of one item. *)
Definition check_stock (i : Item) : Tx unit :=
  product_stock <- query (read_stock (i_product_id i)) ;;
  if product_stock <? i_quantity i
  then raise (HTTPException 400
                (InsufficientStock (i_product_id i) product_stock (i_quantity i)))
  else ret tt.

(** The row of [INSERT INTO orders]: [total_amount] stores the total
    rounded to the minor unit. *)
Definition new_order (env : Env) (user_id : Z) (total : Decimal)
  (has_vip : bool) (sh : Shipping) (delivery_way : string)
  (specifications : option string) (oid : Z) : Order :=
  {| o_id := oid; o_order_no := None;
     o_order_number := Some (order_number env);
     o_user_id := user_id; o_total_amount := to_minor total;
     o_status := "pending_pay"; o_is_vip_item := has_vip;
     o_consignee_name := consignee_name sh;
     o_consignee_phone := consignee_phone sh;
     o_province := province sh; o_city := city sh;
     o_district := district sh;
     o_shipping_address := shipping_address sh;
     o_delivery_way := delivery_way; o_pay_way := "wechat";
     o_auto_recv_time := now env + seven_days;
     o_refund_reason := specifications;
     o_created_at := now env |}.

(** Steps 2 to 7 and the commit, for the items of step 1. *)
Definition place (env : Env) (user_id : Z) (specifications : option string)
  (buy_now : bool) (delivery_way : string) (items : list Item) (sh : Shipping)
  : Tx (option string) :=
  let total := total_of items in
  let has_vip := existsb i_is_vip items in
  oid <- insert_order (order_number env)
           (new_order env user_id total has_vip sh delivery_way specifications) ;;
  has_stock_field <- query skus_have_stock ;;
  for_each check_stock items ;;;
  for_each (fun i => execute (set_order_items (fun l => l ++ [line_of oid i])))
           items ;;;
  (if has_stock_field
   then for_each (fun i => execute (decrement_stock i)) items
   else ret tt) ;;;
  (if buy_now then ret tt
   else execute (set_cart (filter (fun c =>
          negb ((c_user_id c =? user_id) && (c_selected c =? 1)))))) ;;;
  execute (split_order_funds cfg (order_number env) total has_vip) ;;;
  commit ;;;
  ret (Some (order_number env)).

Definition create_body (env : Env) (user_id : Z) (address_id : option Z)
  (custom_addr : option (list (string * string)))
  (specifications : option string) (buy_now : bool)
  (buy_now_items : option (list BuyNowItem)) (delivery_way : string)
  : Tx (option string) :=
  assembled <- assemble user_id custom_addr buy_now buy_now_items ;;
  match assembled with
  | None => ret None
  | Some (items, sh) =>
      place env user_id specifications buy_now delivery_way items sh
  end.

Definition create (env : Env) (user_id : Z) (address_id : option Z)
  (custom_addr : option (list (string * string)))
  (specifications : option string) (buy_now : bool)
  (buy_now_items : option (list BuyNowItem)) (delivery_way : string)
  (db : DB) : (Exception + option string) * DB :=
  get_conn (create_body env user_id address_id custom_addr specifications
              buy_now buy_now_items delivery_way) db.

End Create.

(** [UPDATE orders SET status = %s, refund_reason = %s WHERE order_number = %s] *)
Definition set_status_and_reason (n new_status : string) (reason : option string)
  (o : Order) : Order :=
  if opt_is (o_order_number o) n then
    {| o_id := o_id o; o_order_no := o_order_no o;
       o_order_number := o_order_number o; o_user_id := o_user_id o;
       o_total_amount := o_total_amount o;
       o_status := new_status; o_is_vip_item := o_is_vip_item o;
       o_consignee_name := o_consignee_name o;
       o_consignee_phone := o_consignee_phone o;
       o_province := o_province o; o_city := o_city o;
       o_district := o_district o;
       o_shipping_address := o_shipping_address o;
       o_delivery_way := o_delivery_way o; o_pay_way := o_pay_way o;
       o_auto_recv_time := o_auto_recv_time o;
       o_refund_reason := reason;
       o_created_at := o_created_at o |}
  else o.

(** [cur.rowcount] of that update: MySQL reports the rows it changed, so a
    matching row that already holds both values does not count. *)
Definition changed_rows (n new_status : string) (reason : option string)
  (db : DB) : Z :=
  Z.of_nat (List.length (filter (fun o =>
    opt_is (o_order_number o) n &&
    negb (String.eqb (o_status o) new_status &&
          opt_string_eqb (o_refund_reason o) reason)) (orders db))).

Definition update_status (n new_status : string) (reason : option string)
  (db : DB) : (Exception + bool) * DB :=
  get_conn
    (rowcount <- query (changed_rows n new_status reason) ;;
     execute (set_orders (map (set_status_and_reason n new_status reason))) ;;;
     commit ;;;
     ret (0 <? rowcount))%tx db.

(** The rows of [order_items oi JOIN products p ON oi.product_id = p.id
    WHERE oi.order_id = %s], each with the product's name. *)
Definition select_lines (oid : Z) (db : DB) : list (OrderItem * string) :=
  flat_map (fun oi =>
    if oi_order_id oi =? oid then
      flat_map (fun p =>
        if p_id p =? oi_product_id oi then [(oi, p_name p)] else [])
        (products db)
    else []) (order_items db).

Record OrderDetail := mkDetail {
  order_info : Order;
  address : option Shipping;
  items : list (OrderItem * string);
  specifications : option string }.

Definition address_of (o : Order) : option Shipping :=
  if existsb truthy
       [o_consignee_name o; o_consignee_phone o; o_province o; o_city o;
        o_district o; o_shipping_address o]
  then Some {| consignee_name := o_consignee_name o;
               consignee_phone := o_consignee_phone o;
               province := o_province o; city := o_city o;
               district := o_district o;
               shipping_address := o_shipping_address o |}
  else None.

Definition detail (n : string) (db : DB) : (Exception + option OrderDetail) * DB :=
  get_conn
    (found <- query (fun d => find (fun o => opt_is (o_order_number o) n) (orders d)) ;;
     match found with
     | None => ret None
     | Some o =>
         lines <- query (select_lines (o_id o)) ;;
         ret (Some {| order_info := o; address := address_of o;
                      items := lines;
                      specifications := o_refund_reason o |})
     end)%tx db.

(** [ORDER BY created_at DESC], as a stable insertion sort. *)
Fixpoint insert_desc (o : Order) (l : list Order) : list Order :=
  match l with
  | [] => [o]
  | x :: l' =>
      if o_created_at x <? o_created_at o then o :: l
      else x :: insert_desc o l'
  end.

Definition newest_first (l : list Order) : list Order :=
  fold_right insert_desc [] l.

Record OrderSummary := mkSummary {
  summary_order : Order;
  first_product : option (OrderItem * string);
  summary_specifications : option string }.

Definition list_by_user (user_id : Z) (status : option string) (db : DB)
  : (Exception + list OrderSummary) * DB :=
  get_conn
    (rows <- query (fun d =>
       newest_first (filter (fun o =>
         (o_user_id o =? user_id) &&
         (if truthy status then opt_string_eqb (Some (o_status o)) status
          else true)) (orders d))) ;;
     map_tx (fun o =>
       lines <- query (select_lines (o_id o)) ;;
       ret {| summary_order := o; first_product := hd_error lines;
              summary_specifications := o_refund_reason o |}) rows)%tx db.

End OrderManager.

(** ** The order routes *)

(** [POST /create] *)
Definition create_order (cfg : SplitConfig) (env : Env) (user_id : Z)
  (address_id : option Z) (custom_address : option (list (string * string)))
  (specifications : option string) (buy_now : bool)
  (buy_now_items : option (list BuyNowItem)) (delivery_way : string)
  (db : DB) : (Exception + string) * DB :=
  match OrderManager.create cfg env user_id address_id custom_address
          specifications buy_now buy_now_items delivery_way db with
  | (inl e, db') => (inl e, db')
  | (inr no, db') =>
      if truthy no
      then (inr (match no with Some n => n | None => "" end), db')
      else (inl (HTTPException 422 CartEmptyOrAddressMissing), db')
  end.

Section Pay.

(** [core.config.VALID_PAY_WAYS]: the configured allow-list. *)
Variable VALID_PAY_WAYS : list string.

(** [POST /pay] *)
Definition order_pay (n pay_way : string) (db : DB) : (Exception + bool) * DB :=
  if existsb (String.eqb pay_way) VALID_PAY_WAYS
  then OrderManager.update_status n "pending_ship" None db
  else (inl (HTTPException 422 IllegalPayWay), db).

End Pay.

(** [GET /detail/{order_number}] *)
Definition order_detail (n : string) (db : DB)
  : (Exception + OrderManager.OrderDetail) * DB :=
  match OrderManager.detail n db with
  | (inl e, db') => (inl e, db')
  | (inr (Some d), db') => (inr d, db')
  | (inr None, db') => (inl (HTTPException 404 OrderNotFound), db')
  end.

(** ** Refund workflow ([order/refund.py]) *)

Module RefundManager.

Local Open Scope tx_scope.

Definition select_refund (n : string) (db : DB) : option Refund :=
  find (fun r => String.eqb (r_order_number r) n) (refunds db).

Definition apply (n refund_type reason_code : string) (db : DB)
  : (Exception + bool) * DB :=
  get_conn
    (existing <- query (select_refund n) ;;
     match existing with
     | Some _ => ret false
     | None =>
         execute (set_refunds (fun l => l ++
           [ {| r_order_number := n; r_refund_type := refund_type;
                r_reason := reason_code; r_status := "applied";
                r_reject_reason := None |} ])) ;;;
         commit ;;;
         ret true
     end) db.

(** [UPDATE refunds SET status=%s, reject_reason=%s WHERE order_number=%s] *)
Definition set_refund_status (n new_status : string) (reject_reason : option string)
  (r : Refund) : Refund :=
  if String.eqb (r_order_number r) n then
    {| r_order_number := r_order_number r; r_refund_type := r_refund_type r;
       r_reason := r_reason r; r_status := new_status;
       r_reject_reason := reject_reason |}
  else r.

(** [UPDATE orders SET status='refund' WHERE order_number=%s OR order_no=%s] *)
Definition mark_refunded (n : string) (o : Order) : Order :=
  if opt_is (o_order_number o) n || opt_is (o_order_no o) n then
    {| o_id := o_id o; o_order_no := o_order_no o;
       o_order_number := o_order_number o; o_user_id := o_user_id o;
       o_total_amount := o_total_amount o;
       o_status := "refund"; o_is_vip_item := o_is_vip_item o;
       o_consignee_name := o_consignee_name o;
       o_consignee_phone := o_consignee_phone o;
       o_province := o_province o; o_city := o_city o;
       o_district := o_district o;
       o_shipping_address := o_shipping_address o;
       o_delivery_way := o_delivery_way o; o_pay_way := o_pay_way o;
       o_auto_recv_time := o_auto_recv_time o;
       o_refund_reason := o_refund_reason o;
       o_created_at := o_created_at o |}
  else o.

Definition audit (n : string) (approve : bool) (reject_reason : option string)
  (db : DB) : (Exception + bool) * DB :=
  get_conn
    (let new_status := if approve then "success" else "rejected" in
     execute (set_refunds (map (set_refund_status n new_status reject_reason))) ;;;
     (if approve then
        execute (set_orders (map (mark_refunded n))) ;;;
        execute (reverse_split_on_refund n)
      else ret tt) ;;;
     commit ;;;
     ret true) db.

Definition progress (n : string) (db : DB) : (Exception + option Refund) * DB :=
  get_conn (query (select_refund n)) db.

End RefundManager.

(** [POST /apply] of the refund router *)
Definition refund_apply (n refund_type reason_code : string) (db : DB)
  : (Exception + bool) * DB :=
  match RefundManager.apply n refund_type reason_code db with
  | (inr false, db') => (inl (HTTPException 400 RefundAlreadyApplied), db')
  | (inr true, db') => (inr true, db')
  | (inl e, db') => (inl e, db')
  end.

(** ** Auto-settlement scheduler ([order/fasteners.py]) *)

Section AutoReceive.

(** [finance.finance_logic.settle_to_merchant] is imported by
    [order/fasteners.py] but its module is not part of the sources: it is
    a parameter.  It gets the order's total, runs inside the order's
    transaction, and either raises or returns with the database changed. *)
Variable settle_to_merchant : Z -> DB -> Exception + DB.

Local Open Scope tx_scope.

Definition call_settle (amount : Z) : Tx unit :=
  fun c =>
    match settle_to_merchant amount (working c) with
    | inl e => (inl e, c)
    | inr db' => (inr tt, {| committed := committed c; working := db' |})
    end.

(** [SELECT id, order_number, total_amount FROM orders
     WHERE status='pending_recv' AND auto_recv_time <= now] *)
Definition due_orders (now : Z) (db : DB) : list Order :=
  filter (fun o => String.eqb (o_status o) "pending_recv" &&
                   (o_auto_recv_time o <=? now)) (orders db).

(** [UPDATE orders SET status='completed' WHERE id=%s] *)
Definition mark_completed (id : Z) (o : Order) : Order :=
  if o_id o =? id then
    {| o_id := o_id o; o_order_no := o_order_no o;
       o_order_number := o_order_number o; o_user_id := o_user_id o;
       o_total_amount := o_total_amount o;
       o_status := "completed"; o_is_vip_item := o_is_vip_item o;
       o_consignee_name := o_consignee_name o;
       o_consignee_phone := o_consignee_phone o;
       o_province := o_province o; o_city := o_city o;
       o_district := o_district o;
       o_shipping_address := o_shipping_address o;
       o_delivery_way := o_delivery_way o; o_pay_way := o_pay_way o;
       o_auto_recv_time := o_auto_recv_time o;
       o_refund_reason := o_refund_reason o;
       o_created_at := o_created_at o |}
  else o.

(** The body of the [for row in cur.fetchall()] loop. *)
Definition receive_one (row : Order) : Tx unit :=
  execute (set_orders (map (mark_completed (o_id row)))) ;;;
  call_settle (o_total_amount row) ;;;
  commit.

(** One pass of the [while True] loop of [auto_receive_task], up to the
    [time.sleep(3600)]: the [try] block around the connection.  The
    [except] clause prints the exception and the pass ends; the result is
    the exception it printed, if any, and the database it leaves. *)
Definition auto_receive_tick (now : Z) (db : DB) : option Exception * DB :=
  match get_conn (rows <- query (due_orders now) ;;
                  for_each receive_one rows) db with
  | (inl e, db') => (Some e, db')
  | (inr _, db') => (None, db')
  end.

End AutoReceive.

(** ** Vocabulary of the properties *)

Definition item_of (db : DB) (it : BuyNowItem) : Item :=
  {| i_product_id := bn_product_id it; i_sku_id := bn_sku_id it;
     i_quantity := bn_quantity it; i_price := bn_price it;
     i_is_vip := match select_product (bn_product_id it) db with
                 | Some p => p_is_member_product p
                 | None => false
                 end |}.

Definition product_exists (db : DB) (it : BuyNowItem) : bool :=
  match select_product (bn_product_id it) db with
  | Some _ => true
  | None => false
  end.

(** The stock check of step 3 rejects this item. *)
Definition short (db : DB) (i : Item) : bool :=
  read_stock (i_product_id i) db <? i_quantity i.

Section Placed.

Variables (cfg : SplitConfig) (env : Env) (user_id : Z)
  (specifications : option string) (buy_now : bool) (delivery_way : string)
  (items : list Item) (sh : Shipping).

Definition the_order (db : DB) : Order :=
  OrderManager.new_order env user_id (total_of items) (existsb i_is_vip items)
    sh delivery_way specifications (next_order_id db).

Definition with_order (db : DB) : DB :=
  set_orders (fun l => l ++ [the_order db]) db.

Definition with_lines (db : DB) : DB :=
  fold_left (fun d i =>
      set_order_items (fun l => l ++ [line_of (next_order_id db) i]) d)
    items (with_order db).

Definition with_stock_taken (db : DB) : DB :=
  if skus_have_stock db
  then fold_left (fun d i => decrement_stock i d) items (with_lines db)
  else with_lines db.

Definition with_cart_cleared (db : DB) : DB :=
  if buy_now then with_stock_taken db
  else set_cart (filter (fun c =>
         negb ((c_user_id c =? user_id) && (c_selected c =? 1))))
       (with_stock_taken db).

(** The database a successful [create] commits. *)
Definition placed (db : DB) : DB :=
  split_order_funds cfg (order_number env) (total_of items)
    (existsb i_is_vip items) (with_cart_cleared db).

End Placed.

Definition split_row (n : string) (part : Destination * Z) : OrderSplit :=
  {| os_order_number := n; os_destination := fst part; os_amount := snd part |}.

Definition find_order (n : string) (db : DB) : option Order :=
  find (fun o => opt_is (o_order_number o) n) (orders db).

Definition lines_of (oid : Z) (db : DB) : list OrderItem :=
  filter (fun l => oi_order_id l =? oid) (order_items db).

(** Referential integrity of the stored rows: an order line belongs to a
    stored order, a split row carries the number of a stored order. *)
Definition lines_reference_orders (db : DB) : Prop :=
  forall l, In l (order_items db) ->
  exists o, In o (orders db) /\ o_id o = oi_order_id l.

Definition splits_reference_orders (db : DB) : Prop :=
  forall s, In s (order_split db) ->
  order_number_taken (os_order_number s) db = true.


(** The lines an order-creation request asks for: the buy-now items as
    given, or the user's selected cart entries. *)
Definition requested_items (user_id : Z) (buy_now : bool)
  (buy_now_items : option (list BuyNowItem)) (db : DB) : list Item :=
  if buy_now
  then map (item_of db) (match buy_now_items with Some l => l | None => [] end)
  else select_cart_items user_id db.

(** The request gets past step 1: on buy-now every product is stored and a
    custom address is supplied; a cart checkout has nothing to validate. *)
Definition passes_validation (custom_addr : option (list (string * string)))
  (buy_now : bool) (buy_now_items : option (list BuyNowItem)) (db : DB) : bool :=
  if buy_now
  then match custom_addr with Some (_ :: _) => true | _ => false end &&
       forallb (product_exists db)
               (match buy_now_items with Some l => l | None => [] end)
  else true.

(** The refund rows stored for one order number. *)
Definition refunds_of (n : string) (db : DB) : list Refund :=
  filter (fun r => String.eqb (r_order_number r) n) (refunds db).

(** The operations of the refund workflow that write, and the database
    each leaves. *)
Inductive RefundOp :=
| DoApply (n refund_type reason_code : string)
| DoAudit (n : string) (approve : bool) (reject_reason : option string).

Definition run_refund_op (db : DB) (op : RefundOp) : DB :=
  match op with
  | DoApply n t r => snd (RefundManager.apply n t r db)
  | DoAudit n a rr => snd (RefundManager.audit n a rr db)
  end.

(** The database an audit commits. *)
Definition audited (n : string) (approve : bool) (reject_reason : option string)
  (db : DB) : DB :=
  let db1 := set_refunds (map (RefundManager.set_refund_status n
               (if approve then "success" else "rejected") reject_reason)) db in
  if approve
  then reverse_split_on_refund n
         (set_orders (map (RefundManager.mark_refunded n)) db1)
  else db1.

(** What identifies a ledger movement: account, signed amount, order. *)
Definition flow_key (f : AccountFlow) : Destination * Z * string :=
  (af_account f, af_change_amount f, af_remark f).

(** The ledger holds an order's split: for every account, the flows that
    carry the order number add up to what the recorded split rows route
    to that account. *)
Definition ledger_holds_split (db : DB) (n : string) : Prop :=
  forall d, net_flow db n d = split_total db n d.

(** The orders table after the orders of [done] were marked completed one
    after the other. *)
Definition completed_all (done : list Order) (l : list Order) : list Order :=
  fold_left (fun l r => map (mark_completed (o_id r)) l) done l.

(** The orders of [done] were completed and settled one after the other,
    each on the database the one before it committed; [db'] is what the
    last of them committed. *)
Inductive settled_through (settle : Z -> DB -> Exception + DB)
  : DB -> list Order -> DB -> Prop :=
| settled_none (db : DB) : settled_through settle db [] db
| settled_next (db db1 db' : DB) (row : Order) (done : list Order) :
    settle (o_total_amount row)
           (set_orders (map (mark_completed (o_id row))) db) = inr db1 ->
    settled_through settle db1 done db' ->
    settled_through settle db (row :: done) db'.

(** A ledger movement made for an order carries the number of a stored
    order. *)
Definition flows_reference_orders (db : DB) : Prop :=
  forall f, In f (account_flow db) ->
  order_number_taken (af_remark f) db = true.

(** ** Sample data *)

(** A routing table: the merchant takes 80%, platform maintenance 3.33%,
    the subsidy pool whatever is left; premium orders go to the platform
    revenue pool except for the merchant's 70%. *)
Definition sample_config : SplitConfig :=
  {| ordinary_table :=
       {| shares := [(Merchant, 8000); (Pool "platform", 333)];
          remainder_pool := "subsidy_pool" |};
     premium_table :=
       {| shares := [(Merchant, 7000)];
          remainder_pool := "platform_revenue_pool" |} |}.

(** One user with two selected cart entries: 1 x 100.00 and 2 x 50.00. *)
Definition sample_db : DB :=
  {| users := [1];
     products := [ mkProduct 10 "tea" false; mkProduct 11 "cup" false ];
     product_skus := [ mkSku 100 10 10000 (Some 5); mkSku 101 11 5000 (Some 2) ];
     skus_have_stock := true;
     cart := [ mkCart 1 10 100 1 1 None; mkCart 1 11 101 2 1 None ];
     orders := []; order_items := []; order_split := [];
     finance_accounts :=
       [ mkAccount Merchant 0; mkAccount (Pool "platform") 0;
         mkAccount (Pool "subsidy_pool") 0 ];
     account_flow := []; refunds := [] |}.

Definition sample_env : Env :=
  {| now := 1700000000; order_number := "202311142213201482913" |}.

(** The sample cart checked out. *)
Definition sample_checkout : (Exception + option string) * DB :=
  OrderManager.create sample_config sample_env 1 None None (Some "{}")
    false None "platform" sample_db.

Definition sample_address : option (list (string * string)) :=
  Some [("consignee_name", "Li"); ("detail", "1 Main Road")].

(** The same user buying three cups at once; two are in stock. *)
Definition sample_buy_now : (Exception + option string) * DB :=
  OrderManager.create sample_config sample_env 1 None sample_address None
    true (Some [mkBuyNow 11 101 3 (decimal 5000 2)]) "platform" sample_db.

(** Two buy-now lines for the same product, two cups each, with two cups
    in stock. *)
Definition buy_same_product_twice : (Exception + option string) * DB :=
  OrderManager.create sample_config sample_env 1 None sample_address None
    true (Some [mkBuyNow 11 101 2 (decimal 5000 2);
                mkBuyNow 11 101 2 (decimal 5000 2)]) "platform"
    sample_db.

(** The tea has a second SKU row, sold out. *)
Definition sample_db_two_skus : DB :=
  {| users := users sample_db; products := products sample_db;
     product_skus :=
       [ mkSku 100 10 10000 (Some 5); mkSku 102 10 12000 (Some 0);
         mkSku 101 11 5000 (Some 2) ];
     skus_have_stock := true;
     cart := cart sample_db; orders := []; order_items := [];
     order_split := []; finance_accounts := finance_accounts sample_db;
     account_flow := []; refunds := [] |}.

(** One unit of the first tea SKU. *)
Definition buy_first_sku : (Exception + option string) * DB :=
  OrderManager.create sample_config sample_env 1 None sample_address None
    true (Some [mkBuyNow 10 100 1 (decimal 10000 2)]) "platform"
    sample_db_two_skus.

(** Two units of the sold-out tea SKU. *)
Definition buy_sold_out_sku : (Exception + option string) * DB :=
  OrderManager.create sample_config sample_env 1 None sample_address None
    true (Some [mkBuyNow 10 102 2 (decimal 12000 2)]) "platform"
    sample_db_two_skus.

(** A buy-now request of user 99, who is not stored, for SKU 999, which is
    not stored either, of the stored product 10. *)
Definition buy_with_unknown_user_and_sku : (Exception + option string) * DB :=
  OrderManager.create sample_config sample_env 99 None sample_address None
    true (Some [mkBuyNow 10 999 1 (decimal 10000 2)]) "platform" sample_db.






Definition sample_pay_ways : list string := ["wechat"; "alipay"; "card"].

(** The sample order, completed. *)
Definition sample_completed : DB :=
  snd (OrderManager.update_status "202311142213201482913" "completed" None
         (snd sample_checkout)).

Definition shipped_order (id : Z) (n : string) (total : Z) (deadline : Z) : Order :=
  {| o_id := id; o_order_no := None; o_order_number := Some n;
     o_user_id := 1; o_total_amount := total; o_status := "pending_recv";
     o_is_vip_item := false; o_consignee_name := None;
     o_consignee_phone := None; o_province := None; o_city := None;
     o_district := None; o_shipping_address := None;
     o_delivery_way := "platform"; o_pay_way := "wechat";
     o_auto_recv_time := deadline; o_refund_reason := None;
     o_created_at := deadline - seven_days |}.

(** Three shipped orders whose deadline has passed at time 1000. *)
Definition sample_shipped : DB :=
  {| users := users sample_db; products := products sample_db;
     product_skus := product_skus sample_db; skus_have_stock := true;
     cart := [];
     orders := [ shipped_order 1 "A1" 500 900;
                 shipped_order 2 "A2" 1300 950;
                 shipped_order 3 "A3" 20000 990 ];
     order_items := []; order_split := [];
     finance_accounts := finance_accounts sample_db;
     account_flow := []; refunds := [] |}.

(** A settlement that credits the merchant account and fails for one
    particular amount. *)
Definition sample_settle (amount : Z) (db : DB) : Exception + DB :=
  if amount =? 1300 then inl (OtherError "settlement failed")
  else inr (post_flow Merchant amount "settlement" "auto_receive" db).

(** * Further code of the cited files *)

From Stdlib Require Import Permutation Sorted.

(** ** [core/database.py]: the helpers built on [get_conn] *)

(** One [cur.execute(sql, params)] of a writing statement: it changes the
    working copy or raises. *)
Definition Statement : Type := DB -> Exception + DB.

Definition cur_execute (s : Statement) : Tx unit :=
  fun c =>
    match s (working c) with
    | inl e => (inl e, c)
    | inr db' => (inr tt, {| committed := committed c; working := db' |})
    end.

(** [execute_transaction(operations)]: every operation on one connection,
    one commit at the end; any exception is caught and turned into
    [False]. *)
Definition execute_transaction (operations : list Statement) (db : DB)
  : bool * DB :=
  match get_conn (bind (for_each cur_execute operations)
                    (fun _ => bind commit (fun _ => ret true))) db with
  | (inr ok, db') => (ok, db')
  | (inl _, db') => (false, db')
  end.

(** What the operations do when run one after the other on a database. *)
Fixpoint run_statements (operations : list Statement) (db : DB)
  : Exception + DB :=
  match operations with
  | [] => inr db
  | s :: rest =>
      match s db with
      | inl e => inl e
      | inr db' => run_statements rest db'
      end
  end.

(** ** Vocabulary for the effects of [create] *)




(** The sample database when the SKU table has no stock column. *)
Definition sample_db_no_stock_column : DB :=
  {| users := users sample_db; products := products sample_db;
     product_skus := product_skus sample_db; skus_have_stock := false;
     cart := cart sample_db; orders := []; order_items := [];
     order_split := []; finance_accounts := finance_accounts sample_db;
     account_flow := []; refunds := [] |}.

(** The sample database with the cart entries deselected. *)
Definition sample_db_nothing_selected : DB :=
  {| users := users sample_db; products := products sample_db;
     product_skus := product_skus sample_db; skus_have_stock := true;
     cart := [ mkCart 1 10 100 1 0 None; mkCart 2 11 101 2 1 None ];
     orders := []; order_items := []; order_split := [];
     finance_accounts := finance_accounts sample_db;
     account_flow := []; refunds := [] |}.

(** ** Vocabulary for the order list *)

(** The WHERE clause of [list_by_user]: the user's orders, restricted to
    one status when a non-empty status is given. *)
Definition listed (user_id : Z) (status : option string) (o : Order) : bool :=
  (o_user_id o =? user_id) &&
  (if truthy status then opt_string_eqb (Some (o_status o)) status else true).

(** [a] is not older than [b]. *)
Definition not_older (a b : Order) : Prop := o_created_at b <= o_created_at a.

(** ** [database_setup.py]: its own copy of the auto-receive loop *)

Module DatabaseSetup.

Local Open Scope tx_scope.

(** The body of the [for] loop of [database_setup.auto_receive_task]: the
    status update and the commit; the settlement call is not there. *)
Definition receive_one (row : Order) : Tx unit :=
  execute (set_orders (map (mark_completed (o_id row)))) ;;;
  commit.

(** One pass of its [while True] loop. *)
Definition auto_receive_tick (now : Z) (db : DB) : option Exception * DB :=
  match get_conn (rows <- query (due_orders now) ;;
                  for_each receive_one rows) db with
  | (inl e, db') => (Some e, db')
  | (inr _, db') => (None, db')
  end.

End DatabaseSetup.

(** ** Vocabulary for the scheduler *)

(** One order after the orders of [done] were marked completed by id. *)
Definition mark_all (done : list Order) (o : Order) : Order :=
  fold_left (fun o r => mark_completed (o_id r) o) done o.

(** Some order of [done] has the id of [o]. *)
Definition id_among (done : list Order) (o : Order) : bool :=
  existsb (fun r => o_id r =? o_id o) done.

(** ** [api/order/cart.py]: the cart behind the cart checkout *)

(** The 404 exceptions of [CartManager.add], by the table whose row is
    missing. *)
Inductive CartDetail :=
| UsersRowMissing (user_id : Z)
| ProductsRowMissing (product_id : Z)
| SkuRowMissing (product_id : Z).

Inductive CartException :=
| CartHTTPException (status_code : Z) (detail : CartDetail).

(** Transactions that raise exceptions of another type: the operations of
    [Tx] and [get_conn] again, for any type of exception. *)
Module Raising.

Section WithException.

Variable E : Type.

Definition tx (A : Type) : Type := Conn -> (E + A) * Conn.

Definition ret {A} (a : A) : tx A := fun c => (inr a, c).

Definition raise {A} (e : E) : tx A := fun c => (inl e, c).

Definition bind {A B} (m : tx A) (k : A -> tx B) : tx B :=
  fun c => match m c with
           | (inl e, c') => (inl e, c')
           | (inr a, c') => k a c'
           end.

Definition query {A} (f : DB -> A) : tx A :=
  fun c => (inr (f (working c)), c).

Definition execute (f : DB -> DB) : tx unit :=
  fun c => (inr tt, {| committed := committed c; working := f (working c) |}).

Definition commit : tx unit :=
  fun c => (inr tt, {| committed := working c; working := working c |}).

Definition get_conn {A} (body : tx A) (db : DB) : (E + A) * DB :=
  let '(r, c) := body {| committed := db; working := db |} in
  (r, committed c).

End WithException.

Arguments ret {E A} a.
Arguments raise {E A} e.
Arguments bind {E A B} m k.
Arguments query {E A} f.
Arguments execute {E} f.
Arguments commit {E}.
Arguments get_conn {E A} body db.

End Raising.

Declare Scope raising_scope.
Delimit Scope raising_scope with raising.
Notation "x <- m ;; k" := (Raising.bind m (fun x => k))
  (at level 61, m at next level, right associativity) : raising_scope.
Notation "m ;;; k" := (Raising.bind m (fun _ => k))
  (at level 61, right associativity) : raising_scope.

Module CartManager.

(** [WHERE user_id = %s AND product_id = %s] *)
Definition entry_of (user_id product_id : Z) (c : CartEntry) : bool :=
  (c_user_id c =? user_id) && (c_product_id c =? product_id).

(** [UPDATE cart SET quantity = quantity + %s, specifications = %s
     WHERE user_id = %s AND product_id = %s] *)
Definition add_quantity (user_id product_id quantity : Z)
  (spec_str : option string) (c : CartEntry) : CartEntry :=
  if entry_of user_id product_id c then
    {| c_user_id := c_user_id c; c_product_id := c_product_id c;
       c_sku_id := c_sku_id c; c_quantity := c_quantity c + quantity;
       c_selected := c_selected c; c_specifications := spec_str |}
  else c.

Section Add.

(** [json.dumps(specifications, ensure_ascii=False)] *)
Variable json_dumps : list (string * string) -> string.

Definition add (user_id product_id quantity : Z)
  (specifications : option (list (string * string))) (db : DB)
  : (CartException + bool) * DB :=
  Raising.get_conn
    (user_row <- Raising.query (fun d => existsb (Z.eqb user_id) (users d)) ;;
     if negb user_row
     then Raising.raise (CartHTTPException 404 (UsersRowMissing user_id))
     else
       product_row <- Raising.query (select_product product_id) ;;
       match product_row with
       | None =>
           Raising.raise
             (CartHTTPException 404 (ProductsRowMissing product_id))
       | Some _ =>
           sku_row <- Raising.query (fun d =>
             find (fun s => s_product_id s =? product_id) (product_skus d)) ;;
           match sku_row with
           | None =>
               Raising.raise
                 (CartHTTPException 404 (SkuRowMissing product_id))
           | Some sku =>
               let sku_id := s_id sku in
               let spec_str :=
                 match specifications with
                 | Some (kv :: rest) => Some (json_dumps (kv :: rest))
                 | _ => None
                 end in
               row <- Raising.query (fun d =>
                 find (entry_of user_id product_id) (cart d)) ;;
               match row with
               | Some _ =>
                   Raising.execute
                     (set_cart (map (add_quantity user_id product_id
                                       quantity spec_str)))
               | None =>
                   Raising.execute
                     (set_cart (fun l => l ++
                        [ {| c_user_id := user_id;
                             c_product_id := product_id;
                             c_sku_id := sku_id; c_quantity := quantity;
                             c_selected := 1;
                             c_specifications := spec_str |} ]))
               end ;;;
               Raising.commit ;;;
               Raising.ret true
           end
       end)%raising db.

End Add.

(** [DELETE FROM cart WHERE user_id = %s AND product_id = %s] *)
Definition remove (user_id product_id : Z) (db : DB) : (Exception + bool) * DB :=
  get_conn
    (bind (execute (set_cart (filter (fun c =>
             negb (entry_of user_id product_id c)))))
       (fun _ => bind commit (fun _ => ret true))) db.

End CartManager.

(** ** Vocabulary for the cart *)

(** The cart entries of one user for one product. *)
Definition entries_of (user_id product_id : Z) (db : DB) : list CartEntry :=
  filter (CartManager.entry_of user_id product_id) (cart db).

Definition quantity_in_cart (user_id product_id : Z) (db : DB) : Z :=
  sum_Z (map c_quantity (entries_of user_id product_id db)).

(** The key of the unique index [uk_user_product]. *)
Definition cart_key (c : CartEntry) : Z * Z := (c_user_id c, c_product_id c).

(** What [add] stores as specifications. *)
Definition stored_spec (json_dumps : list (string * string) -> string)
  (specifications : option (list (string * string))) : option string :=
  match specifications with
  | Some (kv :: rest) => Some (json_dumps (kv :: rest))
  | _ => None
  end.

(** A stand-in for [json.dumps] in the examples. *)
Definition sample_dumps (d : list (string * string)) : string :=
  concat "," (map (fun kv => fst kv ++ ":" ++ snd kv)%string d).

(** ** [core/table_access.py]: table structures and their cache *)

Module TableAccess.

(** A row of [SHOW COLUMNS FROM table]: the keys the code reads. *)
Record Column := mkColumn {
  Field : string;
  Type_ : string }.

(** The dict that [get_table_structure] returns. *)
Record Structure := mkStructure {
  fields : list string;
  asset_fields : list string;
  field_types : list (string * string) }.

(** [needle in hay] on strings. *)
Fixpoint contains (needle hay : string) : bool :=
  String.prefix needle hay ||
  match hay with
  | EmptyString => false
  | String _ t => contains needle t
  end.

Definition numeric_types : list string :=
  ["DECIMAL"; "NUMERIC"; "FLOAT"; "DOUBLE"; "INT"; "BIGINT"; "TINYINT";
   "SMALLINT"; "MEDIUMINT"].

(** [any(num_type in field_type for num_type in [...])] *)
Definition is_numeric (field_type : string) : bool :=
  existsb (fun num_type => contains num_type field_type) numeric_types.

(** [d[k] = v] on a dict given as its items in insertion order. *)
Fixpoint dict_set {V} (d : list (string * V)) (k : string) (v : V)
  : list (string * V) :=
  match d with
  | [] => [(k, v)]
  | (k', v') :: d' =>
      if String.eqb k' k then (k, v) :: d' else (k', v') :: dict_set d' k v
  end.

Fixpoint dict_lookup {V} (d : list (string * V)) (k : string) : option V :=
  match d with
  | [] => None
  | (k', v) :: d' => if String.eqb k' k then Some v else dict_lookup d' k
  end.

(** [d.pop(k, None)] *)
Definition dict_pop {V} (d : list (string * V)) (k : string)
  : list (string * V) :=
  filter (fun kv => negb (String.eqb (fst kv) k)) d.

Section Structures.

(** [str.upper], the built-in of Python. *)
Variable upper : string -> string.

(** The body of the [for col in columns] loop. *)
Definition add_column (acc : Structure) (col : Column) : Structure :=
  let field_name := Field col in
  let field_type := upper (Type_ col) in
  {| fields := fields acc ++ [field_name];
     field_types := dict_set (field_types acc) field_name field_type;
     asset_fields :=
       if is_numeric field_type
       then asset_fields acc ++ [field_name]
       else asset_fields acc |}.

Definition structure_of (columns : list Column) : Structure :=
  fold_left add_column columns
    {| fields := []; asset_fields := []; field_types := [] |}.

(** The module-level [_table_structure_cache]. *)
Definition Cache : Type := list (string * Structure).

(** [get_table_structure(cursor, table_name, use_cache)].  The cursor is
    what [SHOW COLUMNS] answers for each table at that moment: the
    columns, or nothing when the statement raises (the exception leaves
    the function before the cache is written); the result is the returned
    structure and the cache afterwards. *)
Definition get_table_structure (show_columns : string -> option (list Column))
  (table_name : string) (use_cache : bool) (cache : Cache)
  : option Structure * Cache :=
  let cache_key := table_name in
  match (if use_cache then dict_lookup cache cache_key else None) with
  | Some cached => (Some cached, cache)
  | None =>
      match show_columns table_name with
      | None => (None, cache)
      | Some columns =>
          let result := structure_of columns in
          (Some result,
           if use_cache then dict_set cache cache_key result else cache)
      end
  end.

End Structures.

(** [clear_table_cache(table_name)]: a name that is [None] or empty
    clears the whole cache. *)
Definition clear_table_cache (table_name : option string) (cache : Cache)
  : Cache :=
  if truthy table_name
  then dict_pop cache (match table_name with Some t => t | None => "" end)
  else [].

(** [x in l] on a list of strings. *)
Definition mem (x : string) (l : list string) : bool :=
  existsb (String.eqb x) l.

(** [sep.join(parts)] *)
Fixpoint join (sep : string) (parts : list string) : string :=
  match parts with
  | [] => ""
  | [p] => p
  | p :: rest => (p ++ sep ++ join sep rest)%string
  end.

Section BuildSelect.

(** [str.isdigit], [str.lower] and [str.upper], the built-ins of
    Python. *)
Variable isdigit : string -> bool.
Variable lower : string -> string.
Variable upper : string -> string.

(** The body of the [for field in fields] loop of [build_select_sql]:
    what one requested field contributes to the select list. *)
Definition select_part (structure : Structure) (field : string) : string :=
  let asset_fields := asset_fields structure in
  let existing_fields := fields structure in
  if isdigit field then field
  else if negb (mem field existing_fields) then
    if mem field asset_fields
       || existsb (fun num_type => contains num_type (lower field))
                  ["points"; "balance"; "amount"]
    then ("0 AS " ++ field)%string
    else ("NULL AS " ++ field)%string
  else if mem field asset_fields then
    ("COALESCE(" ++ field ++ ", 0) AS " ++ field)%string
  else field.

Definition build_select_sql (table_name : string) (structure : Structure)
  (where_clause order_by limit : option string)
  (select_fields : option (list string)) : string :=
  let fields :=
    match select_fields with
    | Some (f :: fs) => f :: fs
    | _ => fields structure
    end in
  let select_parts := map (select_part structure) fields in
  let sql :=
    ("SELECT " ++ join ", " select_parts ++ " FROM " ++ table_name)%string in
  let sql :=
    match where_clause with
    | Some w =>
        if truthy where_clause then (sql ++ " WHERE " ++ w)%string else sql
    | None => sql
    end in
  let sql :=
    match order_by with
    | Some o =>
        if truthy order_by then (sql ++ " ORDER BY " ++ o)%string else sql
    | None => sql
    end in
  match limit with
  | Some l => if truthy limit then (sql ++ " LIMIT " ++ l)%string else sql
  | None => sql
  end.

(** [build_dynamic_select]: the structure is read through the cache. *)
Definition build_dynamic_select
  (show_columns : string -> option (list Column)) (table_name : string)
  (where_clause order_by limit : option string)
  (select_fields : option (list string)) (cache : Cache)
  : option string * Cache :=
  match get_table_structure upper show_columns table_name true cache with
  | (Some structure, cache') =>
      (Some (build_select_sql table_name structure where_clause order_by
               limit select_fields), cache')
  | (None, cache') => (None, cache')
  end.

End BuildSelect.

(** [str.isdigit], [str.lower] and [str.upper] on ASCII text, for the
    examples. *)
Definition ascii_isdigit (s : string) : bool :=
  negb (String.eqb s "") &&
  forallb (fun c => let n := Ascii.nat_of_ascii c in
                    Nat.leb 48 n && Nat.leb n 57)
          (list_ascii_of_string s).

Definition lower_char (c : Ascii.ascii) : Ascii.ascii :=
  let n := Ascii.nat_of_ascii c in
  if (Nat.leb 65 n && Nat.leb n 90)%bool
  then Ascii.ascii_of_nat (n + 32)
  else c.

Fixpoint ascii_lower (s : string) : string :=
  match s with
  | EmptyString => EmptyString
  | String c t => String (lower_char c) (ascii_lower t)
  end.

Definition upper_char (c : Ascii.ascii) : Ascii.ascii :=
  let n := Ascii.nat_of_ascii c in
  if (Nat.leb 97 n && Nat.leb n 122)%bool
  then Ascii.ascii_of_nat (n - 32)
  else c.

Fixpoint ascii_upper (s : string) : string :=
  match s with
  | EmptyString => EmptyString
  | String c t => String (upper_char c) (ascii_upper t)
  end.

End TableAccess.


(** ** [core/db_adapter.py] *)

Module ResultProxy.

Section Rows.

Variable Row : Type.

(** The pymysql cursor of the adapter: the rows of the statement executed
    last that have not been fetched yet.  Every proxy the adapter hands
    out refers to this one cursor. *)
Definition Cursor : Type := list Row.

(** [cursor.fetchall()] of pymysql hands out the rows that are left and
    leaves none. *)
Definition cursor_fetchall (cur : Cursor) : list Row * Cursor := (cur, []).

(** [self._rows] of a proxy; [None] until the first fetch. *)
Definition Proxy : Type := option (list Row).

(** [if self._rows is None: self._rows = self._cursor.fetchall()] *)
Definition load (p : Proxy) (cur : Cursor) : list Row * Cursor :=
  match p with
  | None => cursor_fetchall cur
  | Some rows => (rows, cur)
  end.

(** [fetchone] and [fetchall]: the value returned, [self._rows] and the
    cursor afterwards.  [RowProxy] only wraps the row it is given, so the
    rows are returned as they are. *)
Definition fetchone (p : Proxy) (cur : Cursor)
  : option Row * Proxy * Cursor :=
  let '(rows, cur) := load p cur in
  match rows with
  | row :: rest => (Some row, Some rest, cur)
  | [] => (None, Some [], cur)
  end.

Definition fetchall (p : Proxy) (cur : Cursor) : list Row * Proxy * Cursor :=
  let '(rows, cur) := load p cur in
  (rows, Some rows, cur).

(** [k] calls of [fetchone], one after the other. *)
Fixpoint fetchone_times (k : nat) (p : Proxy) (cur : Cursor)
  : list (option Row) * Proxy * Cursor :=
  match k with
  | O => ([], p, cur)
  | S k' =>
      let '(r, p, cur) := fetchone p cur in
      let '(rs, p, cur) := fetchone_times k' p cur in
      (r :: rs, p, cur)
  end.

End Rows.

End ResultProxy.

Module PyMySQLAdapter.

(** The character [:] that starts a placeholder. *)
Definition colon : Ascii.ascii := Ascii.ascii_of_nat 58.

(** [s[n:]] *)
Fixpoint drop (n : nat) (s : string) : string :=
  match n, s with
  | O, _ => s
  | S n', String _ t => drop n' t
  | S _, EmptyString => EmptyString
  end.

(** [s.replace(old, new, 1)]: the leftmost occurrence only. *)
Fixpoint replace_first (old new s : string) : string :=
  if String.prefix old s
  then (new ++ drop (String.length old) s)%string
  else match s with
       | EmptyString => EmptyString
       | String c t => String c (replace_first old new t)
       end.

Section Values.

Variable Value : Type.
Variable Row : Type.

(** The body of [for key, value in params.items()]. *)
Definition convert_step (acc : string * list Value) (item : string * Value)
  : string * list Value :=
  let '(result_sql, param_list) := acc in
  let '(key, value) := item in
  (replace_first (String colon key) "%s" result_sql,
   param_list ++ [value]).

(** The dict [params] is given as its items in insertion order. *)
Definition _convert_sql_params (sql : string) (params : list (string * Value))
  : string * list Value :=
  fold_left convert_step params (sql, []).

(** What [execute] passes to the cursor: an empty or missing dict passes
    the statement as it is, with no values. *)
Definition execute_arguments (sql : string)
  (params : option (list (string * Value))) : string * option (list Value) :=
  match params with
  | Some (item :: items) =>
      let '(sql, values) := _convert_sql_params sql (item :: items) in
      (sql, Some values)
  | _ => (sql, None)
  end.

(** [execute]: the cursor then holds the result set of the statement,
    here [result], and the proxy returned has fetched nothing yet. *)
Definition execute (result : list Row) (cur : ResultProxy.Cursor Row)
  : ResultProxy.Proxy Row * ResultProxy.Cursor Row :=
  (None, result).

End Values.

(** No character of the text is a colon. *)
Fixpoint colon_free (s : string) : bool :=
  match s with
  | EmptyString => true
  | String c t => negb (Ascii.eqb c colon) && colon_free t
  end.

End PyMySQLAdapter.

(** ** [product/fix_pinyin.py] and [_fix_pinyin] of [database_setup.py] *)

Module FixPinyin.

(** The columns of [products] that the script reads and writes. *)
Record ProductRow := mkProductRow {
  id : Z;
  name : string;
  pinyin : option string }.

Section Fix.

(** [' '.join(lazy_pinyin(name, style=Style.NORMAL)).upper()], from the
    pypinyin package. *)
Variable to_pinyin : string -> string.

(** [UPDATE products SET pinyin = %s WHERE id = %s] *)
Definition update_pinyin (py : string) (i : Z) (table : list ProductRow)
  : list ProductRow :=
  map (fun r => if id r =? i
                then {| id := id r; name := name r; pinyin := Some py |}
                else r) table.

(** The body of [for product in products]: the counter and the table. *)
Definition fix_step (acc : nat * list ProductRow) (product : ProductRow)
  : nat * list ProductRow :=
  if negb (truthy (pinyin product))
  then (S (fst acc),
        update_pinyin (to_pinyin (name product)) (id product) (snd acc))
  else acc.

(** [fix_all]: the rows are read once, then the loop updates the table;
    the result is [updated_count] and the table committed. *)
Definition fix_all (table : list ProductRow) : nat * list ProductRow :=
  let products := table in
  fold_left fix_step products (O, table).

(** The rows the loop updates: pinyin NULL or empty. *)
Definition unfilled (r : ProductRow) : bool := negb (truthy (pinyin r)).

(** What the script means to do with one row. *)
Definition filled (r : ProductRow) : ProductRow :=
  if truthy (pinyin r) then r
  else {| id := id r; name := name r; pinyin := Some (to_pinyin (name r)) |}.

End Fix.

End FixPinyin.

(** ** [api/wechat_pay/routes.py] *)

Module WechatPay.

Definition nl : string := String (Ascii.ascii_of_nat 10) EmptyString.

Definition _xml_response (code message : string) : string :=
  ("<xml>" ++ nl ++
   "<return_code><![CDATA[" ++ code ++ "]]></return_code>" ++ nl ++
   "<return_msg><![CDATA[" ++ message ++ "]]></return_msg>" ++ nl ++
   "</xml>")%string.

(** [bytes.strip()]: ASCII white space is removed at both ends. *)
Definition is_space (c : Ascii.ascii) : bool :=
  let n := Ascii.nat_of_ascii c in
  (Nat.leb 9 n && Nat.leb n 13) || Nat.eqb n 32.

Fixpoint lstrip (l : list Ascii.ascii) : list Ascii.ascii :=
  match l with
  | c :: t => if is_space c then lstrip t else l
  | [] => []
  end.

Definition strip (body : string) : string :=
  string_of_list_ascii (rev (lstrip (rev (lstrip (list_ascii_of_string body))))).

(** [a or b] on optional strings. *)
Definition por (a b : option string) : option string :=
  if truthy a then a else b.

(** How far the handler gets before it parses the body. *)
Inductive Checked :=
  | Answer (response : string)
  | Continue.

Section Notify.

(** [core.config.ENVIRONMENT] and [os.getenv("TEST_NOTIFY_TOKEN")]. *)
Variable ENVIRONMENT : string.
Variable TEST_NOTIFY_TOKEN : option string.

(** [pay_client.verify_signature(signature, timestamp, nonce, body)]: the
    text of the exception it raises, or its verdict. *)
Variable verify_signature : string -> string -> string -> string -> string + bool.

(** The first part of [wechat_pay_notify], up to and including the
    signature check: the response it returns there, or [Continue] when
    the handler goes on to parse the body. *)
Definition wechat_pay_notify_checks (body : string)
  (headers : string -> option string) : Checked :=
  if String.eqb body "" || Nat.eqb (String.length (strip body)) 0
  then Answer (_xml_response "FAIL" "Empty request body")
  else
    let signature := headers "Wechatpay-Signature" in
    let timestamp := headers "Wechatpay-Timestamp" in
    let nonce := headers "Wechatpay-Nonce" in
    let serial := headers "Wechatpay-Serial" in
    let bypass_header :=
      por (headers "X-DEV-BYPASS-VERIFY") (headers "X-DEV-BYPASS") in
    let test_token_header := headers "X-DEV-TEST-TOKEN" in
    let test_token_env := TEST_NOTIFY_TOKEN in
    if (truthy bypass_header && negb (String.eqb ENVIRONMENT "production"))
       || (truthy test_token_header && truthy test_token_env
           && opt_string_eqb test_token_header test_token_env)
    then Continue
    else
      if negb (forallb truthy [signature; timestamp; nonce; serial])
      then Answer (_xml_response "FAIL" "Missing callback headers")
      else
        match signature, timestamp, nonce with
        | Some sg, Some ts, Some nc =>
            match verify_signature sg ts nc body with
            | inl e => Answer (_xml_response "FAIL" ("Signature error: " ++ e))
            | inr false =>
                Answer (_xml_response "FAIL" "Signature verification failed")
            | inr true => Continue
            end
        | _, _, _ => Answer (_xml_response "FAIL" "Missing callback headers")
        end.

End Notify.

End WechatPay.

(** ** [app.py] *)

Module OpenApi.

(** The names of [tags_metadata]. *)
Definition defined_tag_names : list string :=
  ["财务系统"; "用户中心"; "订单系统"; "商品管理"].

(** What one tag of an operation contributes to [filtered_tags]. *)
Definition replace_tag (tag : string) : list string :=
  if TableAccess.mem tag defined_tag_names then [tag]
  else if TableAccess.contains "订单系统" tag then ["订单系统"]
  else if TableAccess.contains "商品" tag
          || TableAccess.contains "商品管理" tag
          || TableAccess.contains "商品扩展" tag
  then ["商品管理"]
  else [].

Definition filter_operation_tags (tags : list string) : list string :=
  match flat_map replace_tag tags with
  | [] => ["商品管理"]
  | filtered_tags => filtered_tags
  end.

Section Schema.

(** The keys of an operation, of a tag entry and of the schema that the
    function does not look at. *)
Variable Other : Type.

Record Operation := mkOperation {
  op_tags : option (list string);
  op_other : Other }.

Record Tag := mkTag {
  tag_name : string;
  tag_other : Other }.

Record Schema := mkSchema {
  schema_tags : option (list Tag);
  paths : option (list (string * list (string * Operation)));
  schema_other : Other }.

(** [if "tags" in operation and operation["tags"]: ...] *)
Definition retag (operation : Operation) : Operation :=
  match op_tags operation with
  | Some (t :: ts) =>
      {| op_tags := Some (filter_operation_tags (t :: ts));
         op_other := op_other operation |}
  | _ => operation
  end.

Definition retag_path_item (path_item : list (string * Operation))
  : list (string * Operation) :=
  map (fun kv => (fst kv, retag (snd kv))) path_item.

(** [custom_openapi]: [app.openapi_schema] before, and what [get_openapi]
    would generate from the routes; the result is the schema returned and
    [app.openapi_schema] afterwards. *)
Definition custom_openapi (openapi_schema : option Schema)
  (get_openapi : Schema) : Schema * option Schema :=
  match openapi_schema with
  | Some cached => (cached, Some cached)
  | None =>
      let schema :=
        {| schema_tags :=
             option_map
               (filter (fun tag => TableAccess.mem (tag_name tag)
                                     defined_tag_names))
               (schema_tags get_openapi);
           paths :=
             option_map
               (map (fun kv => (fst kv, retag_path_item (snd kv))))
               (paths get_openapi);
           schema_other := schema_other get_openapi |} in
      (schema, Some schema)
  end.

(** The operations of a schema. *)
Definition operations (schema : Schema) : list Operation :=
  match paths schema with
  | Some ps => flat_map (fun kv => map snd (snd kv)) ps
  | None => []
  end.

End Schema.

End OpenApi.
(** * Properties *)

(** ** The transaction monad *)

Lemma for_each_execute {A} (f : A -> DB -> DB) (l : list A) (c : Conn) :
  for_each (fun x => execute (f x)) l c =
  (inr tt, {| committed := committed c;
              working := fold_left (fun d x => f x d) l (working c) |}).
Proof.
  revert c. induction l as [|x l IH]; intros c; simpl.
  - destruct c; reflexivity.
  - unfold bind at 1. unfold execute at 1. rewrite IH. reflexivity.
Qed.

Lemma get_conn_raise {A} (body : Tx A) (db : DB) (e : Exception) (c : Conn) :
  body {| committed := db; working := db |} = (inl e, c) ->
  committed c = db ->
  get_conn body db = (inl e, db).
Proof. intros H Hc. unfold get_conn. rewrite H, Hc. reflexivity. Qed.

(** ** Sums *)

Lemma sum_Z_app (l1 l2 : list Z) : sum_Z (l1 ++ l2) = sum_Z l1 + sum_Z l2.
Proof. induction l1 as [|x l1 IH]; simpl; [reflexivity | rewrite IH; lia]. Qed.

(** ** Decimal amounts *)













(** ** Step 1 of [create] reads and never writes *)

Lemma map_tx_buy_now_line (its : list BuyNowItem) (c : Conn) :
  map_tx OrderManager.buy_now_line its c =
  match find (fun it => negb (product_exists (working c) it)) its with
  | Some it => (inl (HTTPException 404 (ProductNotFound (bn_product_id it))), c)
  | None => (inr (map (item_of (working c)) its), c)
  end.
Proof.
  induction its as [|it its IH]; simpl; [reflexivity|].
  unfold bind at 1. unfold OrderManager.buy_now_line at 1.
  unfold bind at 1, query at 1, product_exists at 1, item_of at 1.
  destruct (select_product (bn_product_id it) (working c)) as [p|]; simpl.
  - unfold ret at 1. unfold bind at 1. rewrite IH.
    destruct (find _ its); reflexivity.
  - reflexivity.
Qed.

Lemma assemble_reads (user_id : Z) custom_addr buy_now buy_now_items
  (c c' : Conn) r :
  OrderManager.assemble user_id custom_addr buy_now buy_now_items c = (r, c') ->
  c' = c.
Proof.
  unfold OrderManager.assemble.
  destruct buy_now.
  - destruct buy_now_items as [[|it its]|]; try (unfold raise; congruence).
    unfold bind. rewrite map_tx_buy_now_line.
    destruct (find _ (it :: its)); [congruence|].
    destruct custom_addr as [[|kv d]|]; unfold raise, ret; congruence.
  - unfold bind, query.
    destruct (select_cart_items user_id (working c)); unfold ret; congruence.
Qed.

(** ** Steps 2 to 7 of [create], in closed form *)

Lemma for_each_check_stock (l : list Item) (c : Conn) :
  for_each OrderManager.check_stock l c =
  match find (short (working c)) l with
  | Some i => (inl (HTTPException 400
                 (InsufficientStock (i_product_id i)
                    (read_stock (i_product_id i) (working c)) (i_quantity i))), c)
  | None => (inr tt, c)
  end.
Proof.
  induction l as [|i l IH]; simpl; [reflexivity|].
  unfold bind at 1. unfold OrderManager.check_stock at 1.
  unfold bind at 1, query at 1, short at 1.
  destruct (read_stock (i_product_id i) (working c) <? i_quantity i); simpl.
  - reflexivity.
  - exact IH.
Qed.

Section PlaceSpec.

Variables (cfg : SplitConfig) (env : Env) (user_id : Z)
  (specifications : option string) (buy_now : bool) (delivery_way : string)
  (items : list Item) (sh : Shipping).

Lemma place_spec (db0 db : DB) :
  OrderManager.place cfg env user_id specifications buy_now delivery_way
    items sh {| committed := db0; working := db |} =
  if order_number_taken (order_number env) db
  then (inl IntegrityError, {| committed := db0; working := db |})
  else match find (short db) items with
       | Some i =>
           (inl (HTTPException 400
                  (InsufficientStock (i_product_id i)
                     (read_stock (i_product_id i) db) (i_quantity i))),
            {| committed := db0; working := with_order env user_id specifications delivery_way
                          items sh db |})
       | None =>
           (inr (Some (order_number env)),
            let db' := placed cfg env user_id specifications buy_now
                          delivery_way items sh db in
            {| committed := db'; working := db' |})
       end.
Proof.
  unfold OrderManager.place.
  unfold bind at 1. unfold insert_order at 1. cbn [working committed].
  destruct (order_number_taken (order_number env) db); [reflexivity|].
  unfold bind at 1. unfold query at 1. cbn [working committed].
  unfold bind at 1. rewrite for_each_check_stock. cbn [working committed].
  change (short (set_orders _ db)) with (short db).
  change (read_stock ?p (set_orders _ db)) with (read_stock p db).
  destruct (find (short db) items) as [i|]; [reflexivity|].
  unfold bind at 1. rewrite for_each_execute. cbn [working committed].
  unfold bind at 1.
  change (skus_have_stock (set_orders _ db)) with (skus_have_stock db).
  unfold placed, with_cart_cleared, with_stock_taken, with_lines, with_order,
    the_order.
  destruct (skus_have_stock db).
  - rewrite for_each_execute. cbn [working committed].
    unfold bind at 1. destruct buy_now; reflexivity.
  - unfold ret at 1. unfold bind at 1. destruct buy_now; reflexivity.
Qed.

End PlaceSpec.

Lemma create_cases cfg env user_id address_id custom_addr specifications
  buy_now buy_now_items delivery_way (db : DB) :
  OrderManager.create cfg env user_id address_id custom_addr specifications
    buy_now buy_now_items delivery_way db =
  match OrderManager.assemble user_id custom_addr buy_now buy_now_items
          {| committed := db; working := db |} with
  | (inl e, _) => (inl e, db)
  | (inr None, _) => (inr None, db)
  | (inr (Some (items, sh)), _) =>
      if order_number_taken (order_number env) db then (inl IntegrityError, db)
      else match find (short db) items with
           | Some i =>
               (inl (HTTPException 400
                      (InsufficientStock (i_product_id i)
                         (read_stock (i_product_id i) db) (i_quantity i))), db)
           | None =>
               (inr (Some (order_number env)),
                placed cfg env user_id specifications buy_now delivery_way
                  items sh db)
           end
  end.
Proof.
  unfold OrderManager.create, get_conn, OrderManager.create_body.
  unfold bind at 1.
  destruct (OrderManager.assemble user_id custom_addr buy_now buy_now_items
              {| committed := db; working := db |}) as [r c] eqn:Ha.
  pose proof (assemble_reads _ _ _ _ _ Ha) as ->.
  destruct r as [e|[[items sh]|]]; try reflexivity.
  rewrite place_spec.
  destruct (order_number_taken (order_number env) db); [reflexivity|].
  destruct (find (short db) items); reflexivity.
Qed.

(** A [create] that raises, or returns [None], leaves the database as it
    found it. *)
Lemma create_raises_unchanged cfg env user_id address_id custom_addr
  specifications buy_now buy_now_items delivery_way (db db' : DB) e :
  OrderManager.create cfg env user_id address_id custom_addr specifications
    buy_now buy_now_items delivery_way db = (inl e, db') ->
  db' = db.
Proof.
  rewrite create_cases.
  destruct (OrderManager.assemble _ _ _ _ _) as [[e0|[[items sh]|]] c];
    try congruence.
  destruct (order_number_taken _ db); [congruence|].
  destruct (find (short db) items); congruence.
Qed.

Lemma create_succeeds cfg env user_id address_id custom_addr
  specifications buy_now buy_now_items delivery_way (db db' : DB) n :
  OrderManager.create cfg env user_id address_id custom_addr specifications
    buy_now buy_now_items delivery_way db = (inr (Some n), db') ->
  exists items sh,
    OrderManager.assemble user_id custom_addr buy_now buy_now_items
      {| committed := db; working := db |}
      = (inr (Some (items, sh)), {| committed := db; working := db |}) /\
    n = order_number env /\
    order_number_taken (order_number env) db = false /\
    find (short db) items = None /\
    db' = placed cfg env user_id specifications buy_now delivery_way
            items sh db.
Proof.
  rewrite create_cases.
  destruct (OrderManager.assemble _ _ _ _ _) as [[e0|[[items sh]|]] c] eqn:Ha;
    try congruence.
  pose proof (assemble_reads _ _ _ _ _ Ha) as ->.
  destruct (order_number_taken _ db) eqn:Ht; [congruence|].
  destruct (find (short db) items) eqn:Hf; [congruence|].
  intros H. inversion H; subst. exists items, sh. auto.
Qed.

Lemma assemble_gives_requested (user_id : Z) custom_addr buy_now buy_now_items
  (c c' : Conn) its sh :
  OrderManager.assemble user_id custom_addr buy_now buy_now_items c
    = (inr (Some (its, sh)), c') ->
  its = requested_items user_id buy_now buy_now_items (working c) /\
  sh = if buy_now
       then shipping_of (match custom_addr with Some d => d | None => [] end)
       else no_shipping.
Proof.
  unfold OrderManager.assemble, requested_items. destruct buy_now.
  - destruct buy_now_items as [[|it l]|]; try (unfold raise; congruence).
    unfold bind. rewrite map_tx_buy_now_line.
    destruct (find _ (it :: l)); [congruence|].
    destruct custom_addr as [[|kv d]|]; unfold raise, ret; try congruence.
    intros H. inversion H. split; reflexivity.
  - unfold bind, query.
    destruct (select_cart_items user_id (working c)) eqn:E; unfold ret;
      [congruence|].
    intros H. inversion H. split; reflexivity.
Qed.

(** A successful [create], with the items named. *)
Lemma create_succeeds_requested
  cfg env user_id address_id custom_addr specifications buy_now buy_now_items
  delivery_way (db db' : DB) (n : string) :
  OrderManager.create cfg env user_id address_id custom_addr specifications
    buy_now buy_now_items delivery_way db = (inr (Some n), db') ->
  let items := requested_items user_id buy_now buy_now_items db in
  let sh := if buy_now
            then shipping_of (match custom_addr with Some d => d | None => [] end)
            else no_shipping in
  n = order_number env /\
  order_number_taken (order_number env) db = false /\
  find (short db) items = None /\
  db' = placed cfg env user_id specifications buy_now delivery_way items sh db.
Proof.
  intros Hc.
  destruct (create_succeeds _ _ _ _ _ _ _ _ _ _ Hc)
    as (items & sh & Ha & Hn & Ht & Hs & Hdb).
  destruct (assemble_gives_requested _ _ _ _ _ Ha) as [Hi Hsh].
  cbn [working] in Hi. subst items sh. cbv zeta. auto.
Qed.

(** ** What a successful [create] leaves in each table *)

Lemma fold_left_frame {A X} (g : DB -> X) (f : DB -> A -> DB) (l : list A) :
  (forall d a, g (f d a) = g d) ->
  forall d, g (fold_left f l d) = g d.
Proof.
  intros Hf. induction l as [|a l IH]; intros d; simpl; [reflexivity|].
  rewrite IH. apply Hf.
Qed.

Lemma fold_left_append {A X} (g : DB -> list X) (h : A -> X)
  (f : DB -> A -> DB) (l : list A) :
  (forall d a, g (f d a) = g d ++ [h a]) ->
  forall d, g (fold_left f l d) = g d ++ map h l.
Proof.
  intros Hf. induction l as [|a l IH]; intros d; simpl.
  - symmetry. apply app_nil_r.
  - rewrite IH, Hf, <- app_assoc. reflexivity.
Qed.

Lemma split_order_funds_rows cfg n total has_vip (db : DB) :
  order_split (split_order_funds cfg n total has_vip db) =
  order_split db ++
  map (split_row n) (split_parts (table_for cfg has_vip) (to_minor total)).
Proof.
  unfold split_order_funds.
  apply (fold_left_append order_split (split_row n)). reflexivity.
Qed.

Lemma split_order_funds_orders cfg n total has_vip (db : DB) :
  orders (split_order_funds cfg n total has_vip db) = orders db.
Proof. unfold split_order_funds. apply fold_left_frame. reflexivity. Qed.

Lemma split_order_funds_lines cfg n total has_vip (db : DB) :
  order_items (split_order_funds cfg n total has_vip db) = order_items db.
Proof. unfold split_order_funds. apply fold_left_frame. reflexivity. Qed.


Section PlacedTables.

Variables (cfg : SplitConfig) (env : Env) (user_id : Z)
  (specifications : option string) (buy_now : bool) (delivery_way : string)
  (items : list Item) (sh : Shipping) (db : DB).

Let db' := placed cfg env user_id specifications buy_now delivery_way items sh db.

Lemma placed_orders :
  orders db' =
  orders db ++ [the_order env user_id specifications delivery_way items sh db].
Proof.
  unfold db', placed. rewrite split_order_funds_orders.
  unfold with_cart_cleared, with_stock_taken, with_lines.
  destruct buy_now, (skus_have_stock db); cbn [orders set_cart];
    repeat (rewrite (fold_left_frame orders) by reflexivity); reflexivity.
Qed.

Lemma placed_lines :
  order_items db' = order_items db ++ map (line_of (next_order_id db)) items.
Proof.
  unfold db', placed. rewrite split_order_funds_lines.
  unfold with_cart_cleared, with_stock_taken, with_lines.
  destruct buy_now, (skus_have_stock db); cbn [order_items set_cart];
    try (rewrite (fold_left_frame order_items
                    (fun d i => decrement_stock i d)) by reflexivity);
    (rewrite (fold_left_append order_items (line_of (next_order_id db)))
       by reflexivity);
    reflexivity.
Qed.

Lemma placed_splits :
  order_split db' =
  order_split db ++
  map (split_row (order_number env))
      (split_parts (table_for cfg (existsb i_is_vip items))
         (to_minor (total_of items))).
Proof.
  unfold db', placed. rewrite split_order_funds_rows. f_equal.
  unfold with_cart_cleared, with_stock_taken, with_lines.
  destruct buy_now, (skus_have_stock db); cbn [order_split set_cart];
    repeat (rewrite (fold_left_frame order_split) by reflexivity); reflexivity.
Qed.

End PlacedTables.

(** ** Looking rows up after a successful [create] *)

Lemma find_snoc {A} (f : A -> bool) (l : list A) (x : A) :
  existsb f l = false -> f x = true -> find f (l ++ [x]) = Some x.
Proof.
  induction l as [|y l IH]; simpl; intros Hl Hx.
  - rewrite Hx. reflexivity.
  - apply orb_false_iff in Hl. destruct Hl as [Hy Hl]. rewrite Hy. auto.
Qed.

Lemma filter_none {A} (f : A -> bool) (l : list A) :
  (forall x, In x l -> f x = false) -> filter f l = [].
Proof.
  induction l as [|y l IH]; simpl; intros H; [reflexivity|].
  rewrite (H y) by auto. apply IH. intros x Hx. apply H. auto.
Qed.

Lemma filter_all {A} (f : A -> bool) (l : list A) :
  (forall x, In x l -> f x = true) -> filter f l = l.
Proof.
  induction l as [|y l IH]; simpl; intros H; [reflexivity|].
  rewrite (H y) by auto. f_equal. apply IH. intros x Hx. apply H. auto.
Qed.

Lemma max_id_bound (l : list Order) (o : Order) :
  In o l -> o_id o <= fold_right Z.max 0 (map o_id l).
Proof.
  induction l as [|y l IH]; simpl; intros H; [contradiction|].
  destruct H as [->|H]; [lia|]. specialize (IH H). lia.
Qed.

Lemma next_order_id_fresh (db : DB) (o : Order) :
  In o (orders db) -> o_id o < next_order_id db.
Proof. intros H. unfold next_order_id. pose proof (max_id_bound _ _ H). lia. Qed.


Section AfterCreate.

Variables (cfg : SplitConfig) (env : Env) (user_id : Z)
  (specifications : option string) (buy_now : bool) (delivery_way : string)
  (items : list Item) (sh : Shipping) (db : DB).

Let db' := placed cfg env user_id specifications buy_now delivery_way items sh db.
Let o := the_order env user_id specifications delivery_way items sh db.

Lemma placed_find_order :
  order_number_taken (order_number env) db = false ->
  find_order (order_number env) db' = Some o.
Proof.
  intros Ht. unfold find_order, db'. rewrite placed_orders.
  apply find_snoc; [exact Ht|]. simpl. apply String.eqb_refl.
Qed.

Lemma placed_lines_of :
  lines_reference_orders db ->
  lines_of (o_id o) db' = map (line_of (next_order_id db)) items.
Proof.
  intros Href. unfold lines_of, db'. rewrite placed_lines, filter_app.
  rewrite filter_none, filter_all; [reflexivity| |].
  - intros l Hl. apply in_map_iff in Hl. destruct Hl as [i [<- _]].
    simpl. apply Z.eqb_refl.
  - intros l Hl. destruct (Href l Hl) as [o' [Ho' <-]].
    apply Z.eqb_neq. pose proof (next_order_id_fresh _ _ Ho'). simpl. lia.
Qed.

Lemma placed_splits_of :
  splits_reference_orders db ->
  order_number_taken (order_number env) db = false ->
  splits_of db' (order_number env) =
  map (split_row (order_number env))
      (split_parts (table_for cfg (existsb i_is_vip items))
         (to_minor (total_of items))).
Proof.
  intros Href Ht. unfold splits_of, db'. rewrite placed_splits, filter_app.
  rewrite filter_none, filter_all; [reflexivity| |].
  - intros s Hs. apply in_map_iff in Hs. destruct Hs as [p [<- _]].
    simpl. apply String.eqb_refl.
  - intros s Hs. destruct (String.eqb (os_order_number s) (order_number env)) eqn:E;
      [|reflexivity].
    apply String.eqb_eq in E. rewrite <- E in Ht.
    rewrite (Href s Hs) in Ht. discriminate.
Qed.

End AfterCreate.

(** ** The partition computed by the split engine *)






(** ** Order creation: totals and fund split *)









(** The sample checkout splits 200.00 into 160.00, 6.66 and 33.34. *)
Example sample_checkout_split :
  map os_amount (splits_of (snd sample_checkout) "202311142213201482913")
  = [16000; 666; 3334].
Proof. vm_compute. reflexivity. Qed.

(** ** Order creation: insufficient stock *)

Lemma find_of_Exists {A} (f : A -> bool) (l : list A) :
  Exists (fun x => f x = true) l -> exists x, find f l = Some x /\ f x = true.
Proof.
  intros H. destruct (find f l) as [x|] eqn:E.
  - exists x. split; [reflexivity|]. exact (proj2 (find_some _ _ E)).
  - apply Exists_exists in H. destruct H as [x [Hin Hx]].
    rewrite (find_none _ _ E x Hin) in Hx. discriminate.
Qed.

Lemma find_negb_forallb {A} (f : A -> bool) (l : list A) :
  forallb f l = true -> find (fun x => negb (f x)) l = None.
Proof.
  induction l as [|x l IH]; simpl; [reflexivity|].
  intros H. apply andb_true_iff in H. destruct H as [Hx Hl].
  rewrite Hx. simpl. auto.
Qed.

Lemma assemble_validated (user_id : Z) custom_addr buy_now buy_now_items
  (c : Conn) :
  passes_validation custom_addr buy_now buy_now_items (working c) = true ->
  requested_items user_id buy_now buy_now_items (working c) <> [] ->
  exists sh,
    OrderManager.assemble user_id custom_addr buy_now buy_now_items c =
    (inr (Some (requested_items user_id buy_now buy_now_items (working c), sh)), c).
Proof.
  unfold passes_validation, requested_items, OrderManager.assemble.
  destruct buy_now.
  - intros Hv Hne. apply andb_true_iff in Hv. destruct Hv as [Ha Hp].
    destruct buy_now_items as [[|it its]|]; try (simpl in Hne; congruence).
    unfold bind. rewrite map_tx_buy_now_line.
    rewrite (find_negb_forallb _ _ Hp).
    destruct custom_addr as [[|kv d]|]; try discriminate.
    eexists. reflexivity.
  - intros _ Hne. unfold bind, query.
    destruct (select_cart_items user_id (working c)); [congruence|].
    eexists. reflexivity.
Qed.

(** Step 1 hands on the requested items or raises. *)
Lemma assemble_requested (user_id : Z) custom_addr buy_now buy_now_items
  (c : Conn) :
  requested_items user_id buy_now buy_now_items (working c) <> [] ->
  (exists e, OrderManager.assemble user_id custom_addr buy_now buy_now_items c
             = (inl e, c) /\
             passes_validation custom_addr buy_now buy_now_items (working c)
             = false) \/
  (exists sh, OrderManager.assemble user_id custom_addr buy_now buy_now_items c
     = (inr (Some (requested_items user_id buy_now buy_now_items (working c),
                   sh)), c)).
Proof.
  intros Hne.
  destruct (passes_validation custom_addr buy_now buy_now_items (working c))
    eqn:Hv.
  - right. apply assemble_validated; assumption.
  - left. revert Hne Hv.
    unfold passes_validation, requested_items, OrderManager.assemble.
    destruct buy_now; [|discriminate].
    destruct buy_now_items as [[|it its]|]; try (simpl; congruence).
    intros _ Hv. unfold bind. rewrite map_tx_buy_now_line.
    destruct (find _ (it :: its)) as [missing|] eqn:Hf.
    + eexists. split; reflexivity.
    + destruct custom_addr as [[|kv d]|];
        try (eexists; split; reflexivity).
      exfalso. cbn [andb] in Hv.
      assert (Hall : forallb (product_exists (working c)) (it :: its) = true).
      { apply forallb_forall. intros x Hx.
        pose proof (find_none _ _ Hf x Hx) as Hn.
        apply negb_false_iff in Hn. exact Hn. }
      congruence.
Qed.

(** What the stock check does reject.  Step 3 reads, for each line, the
    stock of the first SKU row of the line's product.  An attempt in
    which some line asks for more than that fails and leaves the
    database as it found it; the exception is the 400 InsufficientStock
    one whenever the request gets as far as the stock check, that is,
    passes step 1 and draws a free order number. *)
Lemma create_short_of_first_row_rolls_back
  cfg env user_id address_id custom_addr specifications buy_now buy_now_items
  delivery_way (db : DB) :
  Exists (fun i => read_stock (i_product_id i) db < i_quantity i)
         (requested_items user_id buy_now buy_now_items db) ->
  exists e,
    OrderManager.create cfg env user_id address_id custom_addr specifications
      buy_now buy_now_items delivery_way db = (inl e, db) /\
    (passes_validation custom_addr buy_now buy_now_items db = true ->
     order_number_taken (order_number env) db = false ->
     exists p q,
       e = HTTPException 400 (InsufficientStock p (read_stock p db) q) /\
       read_stock p db < q).
Proof.
  intros Hex.
  assert (Hne : requested_items user_id buy_now buy_now_items db <> []).
  { intros E. rewrite E in Hex. inversion Hex. }
  rewrite create_cases.
  destruct (@assemble_requested user_id custom_addr buy_now buy_now_items
              {| committed := db; working := db |} Hne)
    as [[e [Ha Hv]] | [sh Ha]]; rewrite Ha; cbn [working] in *.
  - exists e. split; [reflexivity|]. congruence.
  - destruct (order_number_taken (order_number env) db).
    + exists IntegrityError. split; [reflexivity|]. discriminate.
    + assert (Hex' : Exists (fun i => short db i = true)
                       (requested_items user_id buy_now buy_now_items db)).
      { eapply Exists_impl; [|exact Hex]. intros i Hi. apply Z.ltb_lt. exact Hi. }
      destruct (find_of_Exists _ Hex') as [i [Hf Hi]].
      rewrite Hf. eexists. split; [reflexivity|].
      intros _ _. exists (i_product_id i), (i_quantity i).
      split; [reflexivity|]. apply Z.ltb_lt. exact Hi.
Qed.

(** C2, evaluated.  The claim asks that an attempt in which a line asks
    for more than the available stock fails with InsufficientStock and
    modifies nothing.  Step 3 compares each line with the first SKU row
    of the line's product, not with the SKU the line names.  The tea has
    SKU 100 with five in stock and SKU 102 with none; a request for two
    units of SKU 102 exceeds the stock of that SKU and is accepted all
    the same: the order row, its line and its split rows are committed
    and the stock of both SKU rows is changed. *)
Theorem create_accepts_line_beyond_sku_stock :
  map (fun s => (s_id s, s_product_id s, s_stock s))
      (product_skus sample_db_two_skus)
    = [(100, 10, Some 5); (102, 10, Some 0); (101, 11, Some 2)] /\
  orders sample_db_two_skus = [] /\
  order_items sample_db_two_skus = [] /\
  order_split sample_db_two_skus = [] /\
  fst buy_sold_out_sku = inr (Some "202311142213201482913") /\
  map o_order_number (orders (snd buy_sold_out_sku))
    = [Some "202311142213201482913"] /\
  map (fun l => (oi_sku_id l, oi_quantity l))
      (order_items (snd buy_sold_out_sku)) = [(102, 2)] /\
  map os_amount (order_split (snd buy_sold_out_sku)) = [19200; 799; 4001] /\
  map (fun s => (s_id s, s_stock s)) (product_skus (snd buy_sold_out_sku))
    = [(100, Some 3); (102, Some (-2)); (101, Some 2)].
Proof. vm_compute. repeat split; reflexivity. Qed.

(** ** Order creation: stock after the order *)

(** C4, evaluated.  The claim asks that a successful creation leaves each
    SKU with its stock less the quantity reserved for it, never below
    zero.  Step 3 checks every line against the stock as stored, line by
    line, and step 5 subtracts every line's quantity from every SKU row of
    the line's product:
      - two lines of two cups each pass the check against a stock of two,
        and the stock ends at -2;
      - one unit of the first tea SKU is also subtracted from the second
        tea SKU, which was sold out and ends at -1;
      - two units of the sold-out SKU are accepted, because the check
        reads the first SKU row of the product. *)
Theorem create_drives_stock_negative :
  (fst buy_same_product_twice = inr (Some "202311142213201482913") /\
   map s_stock (product_skus sample_db) = [Some 5; Some 2] /\
   map s_stock (product_skus (snd buy_same_product_twice))
     = [Some 5; Some (-2)]) /\
  (fst buy_first_sku = inr (Some "202311142213201482913") /\
   map s_stock (product_skus sample_db_two_skus) = [Some 5; Some 0; Some 2] /\
   map s_stock (product_skus (snd buy_first_sku))
     = [Some 4; Some (-1); Some 2]) /\
  (fst buy_sold_out_sku = inr (Some "202311142213201482913") /\
   map s_stock (product_skus (snd buy_sold_out_sku))
     = [Some 3; Some (-2); Some 2]).
Proof. vm_compute. repeat split; reflexivity. Qed.

(** ** Order creation: validation of references *)

(** C8, evaluated.  The claim asks that a request naming a user or a SKU
    that does not exist fails with NotFound and creates nothing.  Step 1
    looks up the product of each buy-now item and nothing else: the
    request of the unknown user 99 for the unknown SKU 999 is accepted,
    and the order and its line are stored. *)
Theorem create_accepts_unknown_user_and_sku :
  existsb (Z.eqb 99) (users sample_db) = false /\
  existsb (fun s => s_id s =? 999) (product_skus sample_db) = false /\
  fst buy_with_unknown_user_and_sku = inr (Some "202311142213201482913") /\
  map o_user_id (orders (snd buy_with_unknown_user_and_sku)) = [99] /\
  map oi_sku_id (order_items (snd buy_with_unknown_user_and_sku)) = [999].
Proof. vm_compute. repeat split; reflexivity. Qed.

(** What step 1 does validate: a buy-now item whose product is not stored
    fails the request with 404 and nothing is created. *)
Lemma create_unknown_product_not_found
  cfg env user_id address_id custom_addr specifications its delivery_way
  (db : DB) (it : BuyNowItem) :
  find (fun x => negb (product_exists db x)) its = Some it ->
  OrderManager.create cfg env user_id address_id custom_addr specifications
    true (Some its) delivery_way db
  = (inl (HTTPException 404 (ProductNotFound (bn_product_id it))), db).
Proof.
  intros Hf. rewrite create_cases. unfold OrderManager.assemble.
  destruct its as [|x l]; [discriminate|].
  unfold bind. rewrite map_tx_buy_now_line. cbn [working].
  rewrite Hf. reflexivity.
Qed.

(** ** Refund workflow *)

Lemma apply_cases (n t r : string) (db : DB) :
  RefundManager.apply n t r db =
  match RefundManager.select_refund n db with
  | Some _ => (inr false, db)
  | None =>
      (inr true,
       set_refunds (fun l => l ++
         [ {| r_order_number := n; r_refund_type := t; r_reason := r;
              r_status := "applied"; r_reject_reason := None |} ]) db)
  end.
Proof.
  unfold RefundManager.apply, get_conn, bind, query. cbn [working].
  destruct (RefundManager.select_refund n db); reflexivity.
Qed.

Lemma audit_cases (n : string) (approve : bool) (rr : option string) (db : DB) :
  RefundManager.audit n approve rr db = (inr true, audited n approve rr db).
Proof.
  unfold RefundManager.audit, audited, get_conn, bind, execute.
  destruct approve; reflexivity.
Qed.

Lemma reverse_split_refunds (n : string) (db : DB) :
  refunds (reverse_split_on_refund n db) = refunds db.
Proof.
  unfold reverse_split_on_refund.
  apply (fold_left_frame refunds). reflexivity.
Qed.

Lemma audited_refunds (n : string) (approve : bool) (rr : option string) (db : DB) :
  refunds (audited n approve rr db) =
  map (RefundManager.set_refund_status n
         (if approve then "success" else "rejected") rr) (refunds db).
Proof.
  unfold audited. destruct approve; [|reflexivity].
  rewrite reverse_split_refunds. reflexivity.
Qed.

Lemma set_refund_status_number (m s : string) (rr : option string) (r : Refund) :
  r_order_number (RefundManager.set_refund_status m s rr r) = r_order_number r.
Proof.
  unfold RefundManager.set_refund_status.
  destruct (String.eqb (r_order_number r) m); reflexivity.
Qed.

Lemma filter_map_commute {A} (f : A -> bool) (g : A -> A) (l : list A) :
  (forall x, f (g x) = f x) -> filter f (map g l) = map g (filter f l).
Proof.
  intros H. induction l as [|x l IH]; simpl; [reflexivity|].
  rewrite H. destruct (f x); simpl; rewrite IH; reflexivity.
Qed.

Lemma find_none_filter {A} (f : A -> bool) (l : list A) :
  find f l = None <-> filter f l = [].
Proof.
  induction l as [|x l IH]; simpl; [tauto|].
  destruct (f x); [split; discriminate | exact IH].
Qed.

(** No operation of the workflow changes how many refund rows an order
    number has, once it has one. *)
Lemma run_refund_op_keeps_count (n : string) (op : RefundOp) (db : DB) :
  refunds_of n db <> [] ->
  List.length (refunds_of n (run_refund_op db op)) = List.length (refunds_of n db).
Proof.
  intros Hne. destruct op as [m t r | m a rr]; simpl.
  - rewrite apply_cases.
    destruct (RefundManager.select_refund m db) eqn:E; [reflexivity|].
    unfold refunds_of. cbn [snd refunds set_refunds].
    rewrite filter_app. cbn [filter r_order_number].
    destruct (String.eqb m n) eqn:Emn.
    + apply String.eqb_eq in Emn. subst m.
      apply find_none_filter in E. unfold refunds_of in Hne. congruence.
    + rewrite app_nil_r. reflexivity.
  - rewrite audit_cases. unfold refunds_of. cbn [snd].
    rewrite audited_refunds, filter_map_commute, length_map; [reflexivity|].
    intros x. rewrite set_refund_status_number. reflexivity.
Qed.

Lemma run_refund_ops_keep_count (n : string) (ops : list RefundOp) (db : DB) :
  List.length (refunds_of n db) = 1%nat ->
  List.length (refunds_of n (fold_left run_refund_op ops db)) = 1%nat.
Proof.
  revert db. induction ops as [|op ops IH]; intros db H; simpl; [exact H|].
  apply IH. rewrite run_refund_op_keeps_count; [exact H|].
  intros E. rewrite E in H. discriminate.
Qed.

(** C5. Applying a refund for an order number that has none returns true
    and stores one row in status 'applied'; every later apply for that
    number, whatever refund operations ran in between, returns false and
    leaves the database as it is, so the number keeps exactly one row.
    Applying twice in a row is the case of no operation in between. *)
Theorem apply_twice_keeps_one_row (n t r : string) (db : DB) :
  RefundManager.select_refund n db = None ->
  fst (RefundManager.apply n t r db) = inr true /\
  refunds_of n (snd (RefundManager.apply n t r db)) =
    [ {| r_order_number := n; r_refund_type := t; r_reason := r;
         r_status := "applied"; r_reject_reason := None |} ] /\
  forall (ops : list RefundOp) (t' r' : string),
    let db_later :=
      fold_left run_refund_op ops (snd (RefundManager.apply n t r db)) in
    RefundManager.apply n t' r' db_later = (inr false, db_later) /\
    List.length (refunds_of n db_later) = 1%nat.
Proof.
  intros Hnone. rewrite apply_cases, Hnone. cbn [fst snd].
  assert (Hrows : refunds_of n
            (set_refunds (fun l => l ++
               [ {| r_order_number := n; r_refund_type := t; r_reason := r;
                    r_status := "applied"; r_reject_reason := None |} ]) db)
          = [ {| r_order_number := n; r_refund_type := t; r_reason := r;
                 r_status := "applied"; r_reject_reason := None |} ]).
  { unfold refunds_of. cbn [refunds set_refunds]. rewrite filter_app.
    apply find_none_filter in Hnone. rewrite Hnone.
    cbn [filter r_order_number]. rewrite String.eqb_refl. reflexivity. }
  split; [reflexivity|]. split; [exact Hrows|].
  intros ops t' r'. cbv zeta.
  set (db_later := fold_left run_refund_op ops _).
  assert (Hone : List.length (refunds_of n db_later) = 1%nat).
  { apply run_refund_ops_keep_count. rewrite Hrows. reflexivity. }
  split; [|exact Hone].
  rewrite apply_cases.
  destruct (RefundManager.select_refund n db_later) eqn:E; [reflexivity|].
  apply find_none_filter in E. unfold refunds_of in Hone.
  rewrite E in Hone. discriminate.
Qed.

Lemma apply_twice_keeps_one_row_witness :
  RefundManager.select_refund "202311142213201482913" sample_db = None /\
  fst (RefundManager.apply "202311142213201482913" "return" "damaged" sample_db)
    = inr true /\
  RefundManager.apply "202311142213201482913" "refund_only" "late"
    (snd (RefundManager.apply "202311142213201482913" "return" "damaged" sample_db))
  = (inr false,
     snd (RefundManager.apply "202311142213201482913" "return" "damaged" sample_db)).
Proof.
  split; [reflexivity|].
  destruct (@apply_twice_keeps_one_row "202311142213201482913" "return"
              "damaged" sample_db eq_refl) as (H1 & _ & H3).
  split; [exact H1|].
  exact (proj1 (H3 [] "refund_only" "late")).
Defined.

(** ** The ledger after a successful [create] *)

Lemma split_rows_flows (n : string) (parts : list (Destination * Z)) (db : DB) :
  exists new,
    account_flow (fold_left (record_part n) parts db) = account_flow db ++ new /\
    map flow_key new = map (fun p => (fst p, snd p, n)) parts.
Proof.
  revert db. induction parts as [|p parts IH]; intros db; simpl.
  - exists []. split; [symmetry; apply app_nil_r | reflexivity].
  - destruct (IH (record_part n db p)) as [new [Hf Hk]].
    eexists (_ :: new). split.
    + rewrite Hf. cbn [record_part insert_split post_flow account_flow].
      rewrite <- app_assoc. reflexivity.
    + simpl. rewrite Hk. reflexivity.
Qed.

Lemma recorded_net (n : string) (d : Destination)
  (parts : list (Destination * Z)) (new : list AccountFlow) :
  map flow_key new = map (fun p => (fst p, snd p, n)) parts ->
  sum_Z (map af_change_amount
           (filter (fun f => String.eqb (af_remark f) n &&
                             Destination_eqb (af_account f) d) new))
  = sum_Z (map os_amount
             (filter (fun s => Destination_eqb (os_destination s) d)
                     (map (split_row n) parts))).
Proof.
  revert new. induction parts as [|p parts IH]; intros [|f new] H;
    try discriminate; [reflexivity|].
  simpl in H. injection H as Ha Hc Hr Hrest.
  specialize (IH new Hrest). simpl.
  rewrite Hr, String.eqb_refl, Ha. simpl.
  destruct (Destination_eqb (fst p) d); simpl; lia.
Qed.

(** After a successful [create] the ledger holds the new order's split,
    which is what the reversal of an approved refund relies on. *)
Lemma create_ledger_holds_split
  cfg env user_id address_id custom_addr specifications buy_now buy_now_items
  delivery_way (db db' : DB) (n : string) :
  splits_reference_orders db ->
  flows_reference_orders db ->
  OrderManager.create cfg env user_id address_id custom_addr specifications
    buy_now buy_now_items delivery_way db = (inr (Some n), db') ->
  ledger_holds_split db' n.
Proof.
  intros Hs Hf Hc.
  destruct (create_succeeds _ _ _ _ _ _ _ _ _ _ Hc)
    as (items & sh & _ & -> & Ht & _ & ->).
  intros d. unfold split_total. rewrite placed_splits_of by assumption.
  unfold net_flow, flows_of, placed, split_order_funds.
  set (parts := split_parts (table_for cfg (existsb i_is_vip items))
                  (to_minor (total_of items))).
  set (db4 := with_cart_cleared env user_id specifications buy_now
                delivery_way items sh db).
  destruct (split_rows_flows (order_number env) parts db4) as [new [Hnew Hk]].
  assert (Hold : account_flow db4 = account_flow db).
  { unfold db4, with_cart_cleared, with_stock_taken, with_lines.
    destruct buy_now, (skus_have_stock db); cbn [account_flow set_cart];
      repeat (rewrite (fold_left_frame account_flow) by reflexivity);
      reflexivity. }
  rewrite Hnew, Hold, filter_app, map_app, sum_Z_app.
  rewrite filter_none.
  - simpl. apply recorded_net. exact Hk.
  - intros f Hin.
    destruct (String.eqb (af_remark f) (order_number env)) eqn:E;
      [|reflexivity].
    apply String.eqb_eq in E. rewrite <- E in Ht.
    rewrite (Hf f Hin) in Ht. discriminate.
Qed.

(** ** Refund audit and ledger reversal *)



Lemma mark_refunded_status (n : string) (o : Order) :
  o_order_number (RefundManager.mark_refunded n o) = Some n ->
  o_status (RefundManager.mark_refunded n o) = "refund".
Proof.
  unfold RefundManager.mark_refunded.
  destruct (opt_is (o_order_number o) n || opt_is (o_order_no o) n) eqn:E;
    [reflexivity|].
  intros H. rewrite H in E. simpl in E. rewrite String.eqb_refl in E.
  discriminate.
Qed.





(** ** Status updates and payment *)

Lemma update_status_cases (n s : string) (reason : option string) (db : DB) :
  OrderManager.update_status n s reason db =
  (inr (0 <? OrderManager.changed_rows n s reason db),
   set_orders (map (OrderManager.set_status_and_reason n s reason)) db).
Proof. reflexivity. Qed.

Lemma opt_is_true (o : option string) (n : string) :
  opt_is o n = true <-> o = Some n.
Proof.
  destruct o as [t|]; simpl.
  - rewrite String.eqb_eq. split; congruence.
  - split; discriminate.
Qed.

Lemma set_status_and_reason_number (n s : string) (reason : option string)
  (o : Order) :
  o_order_number (OrderManager.set_status_and_reason n s reason o)
  = o_order_number o.
Proof.
  unfold OrderManager.set_status_and_reason.
  destruct (opt_is (o_order_number o) n); reflexivity.
Qed.

Lemma set_status_and_reason_hit (n s : string) (reason : option string)
  (o : Order) :
  o_order_number o = Some n ->
  o_status (OrderManager.set_status_and_reason n s reason o) = s /\
  o_refund_reason (OrderManager.set_status_and_reason n s reason o) = reason /\
  o_id (OrderManager.set_status_and_reason n s reason o) = o_id o.
Proof.
  intros H. unfold OrderManager.set_status_and_reason.
  rewrite (proj2 (opt_is_true _ _) H). auto.
Qed.

Lemma set_status_and_reason_miss (n s : string) (reason : option string)
  (o : Order) :
  o_order_number o <> Some n ->
  OrderManager.set_status_and_reason n s reason o = o.
Proof.
  intros H. unfold OrderManager.set_status_and_reason.
  destruct (opt_is (o_order_number o) n) eqn:E; [|reflexivity].
  apply opt_is_true in E. contradiction.
Qed.

(** C7, as the code has it.  The pay operation checks the payment method
    against the allow-list and rejects a method outside it with the 422
    exception, changing nothing.  With an allowed method it sets the order
    with the given number to 'pending_ship' whatever status the order was
    in, and leaves the orders with another number as they were. *)
Theorem order_pay_sets_pending_ship
  (VALID_PAY_WAYS : list string) (n pay_way : string) (db : DB) :
  (existsb (String.eqb pay_way) VALID_PAY_WAYS = false ->
   order_pay VALID_PAY_WAYS n pay_way db
   = (inl (HTTPException 422 IllegalPayWay), db)) /\
  (existsb (String.eqb pay_way) VALID_PAY_WAYS = true ->
   exists ok db',
     order_pay VALID_PAY_WAYS n pay_way db = (inr ok, db') /\
     (forall o, In o (orders db) -> o_order_number o = Some n ->
        exists o', In o' (orders db') /\ o_id o' = o_id o /\
                   o_status o' = "pending_ship") /\
     (forall o, In o (orders db) -> o_order_number o <> Some n ->
        In o (orders db')) /\
     (forall o', In o' (orders db') -> o_order_number o' = Some n ->
        o_status o' = "pending_ship")).
Proof.
  unfold order_pay. split; intros Hv; rewrite Hv; [reflexivity|].
  rewrite update_status_cases. eexists. eexists. split; [reflexivity|].
  cbn [orders set_orders]. split; [|split].
  - intros o Hin Hn.
    exists (OrderManager.set_status_and_reason n "pending_ship" None o).
    destruct (@set_status_and_reason_hit n "pending_ship" None o Hn)
      as (Hs & _ & Hi).
    split; [apply in_map; exact Hin | split; assumption].
  - intros o Hin Hn.
    rewrite <- (@set_status_and_reason_miss n "pending_ship" None o Hn).
    apply in_map. exact Hin.
  - intros o' Hin Hn. apply in_map_iff in Hin. destruct Hin as [o [<- _]].
    rewrite set_status_and_reason_number in Hn.
    exact (proj1 (@set_status_and_reason_hit n "pending_ship" None o Hn)).
Qed.

Lemma order_pay_sets_pending_ship_witness :
  existsb (String.eqb "wechat") sample_pay_ways = true /\
  existsb (String.eqb "cash") sample_pay_ways = false /\
  order_pay sample_pay_ways "202311142213201482913" "cash" (snd sample_checkout)
   = (inl (HTTPException 422 IllegalPayWay), snd sample_checkout) /\
  exists ok db',
     order_pay sample_pay_ways "202311142213201482913" "wechat"
       (snd sample_checkout) = (inr ok, db') /\
     (forall o', In o' (orders db') ->
        o_order_number o' = Some "202311142213201482913" ->
        o_status o' = "pending_ship").
Proof.
  split; [reflexivity|]. split; [reflexivity|]. split.
  - exact (proj1 (order_pay_sets_pending_ship sample_pay_ways
                    "202311142213201482913" "cash" (snd sample_checkout))
                 eq_refl).
  - destruct (proj2 (order_pay_sets_pending_ship sample_pay_ways
                       "202311142213201482913" "wechat" (snd sample_checkout))
                    eq_refl) as (ok & db' & Hp & _ & _ & Hs).
    exists ok, db'. split; [exact Hp | exact Hs].
Defined.

(** C7, the claim as stated fails: an order that is 'completed', not
    'pending_pay', is moved to 'pending_ship' by a payment with an allowed
    method. *)
Lemma order_pay_moves_completed_order :
  map o_status (orders sample_completed) = ["completed"] /\
  map o_order_number (orders sample_completed)
    = [Some "202311142213201482913"] /\
  fst (order_pay sample_pay_ways "202311142213201482913" "wechat"
         sample_completed) = inr true /\
  map o_status
      (orders (snd (order_pay sample_pay_ways "202311142213201482913"
                      "wechat" sample_completed)))
    = ["pending_ship"].
Proof. vm_compute. repeat split; reflexivity. Qed.

(** ** The specification blob and the status update *)

Lemma detail_cases (n : string) (db : DB) :
  OrderManager.detail n db =
  (inr match find_order n db with
       | None => None
       | Some o =>
           Some {| OrderManager.order_info := o;
                   OrderManager.address := OrderManager.address_of o;
                   OrderManager.items := OrderManager.select_lines (o_id o) db;
                   OrderManager.specifications := o_refund_reason o |}
       end, db).
Proof.
  unfold OrderManager.detail, get_conn, bind, query, find_order. cbn [working].
  destruct (find _ (orders db)); reflexivity.
Qed.

Lemma map_tx_summaries (rows : list Order) (c : Conn) :
  map_tx (fun o =>
     bind (query (OrderManager.select_lines (o_id o)))
          (fun lines =>
             ret {| OrderManager.summary_order := o;
                    OrderManager.first_product := hd_error lines;
                    OrderManager.summary_specifications := o_refund_reason o |}))
    rows c
  = (inr (map (fun o =>
        {| OrderManager.summary_order := o;
           OrderManager.first_product :=
             hd_error (OrderManager.select_lines (o_id o) (working c));
           OrderManager.summary_specifications := o_refund_reason o |}) rows), c).
Proof.
  induction rows as [|o rows IH]; simpl; [reflexivity|].
  unfold bind at 1. unfold bind at 1. unfold query at 1. unfold ret at 1.
  unfold bind at 1. rewrite IH. reflexivity.
Qed.

Lemma insert_desc_In (o x : Order) (l : list Order) :
  In x (OrderManager.insert_desc o l) -> x = o \/ In x l.
Proof.
  induction l as [|y l IH]; simpl.
  - intros [<-|[]]. auto.
  - destruct (o_created_at y <? o_created_at o); simpl.
    + intros [<-|[<-|H]]; auto.
    + intros [<-|H]; auto. destruct (IH H); auto.
Qed.

Lemma newest_first_In (x : Order) (l : list Order) :
  In x (OrderManager.newest_first l) -> In x l.
Proof.
  induction l as [|y l IH]; simpl; [auto|].
  intros H. apply insert_desc_In in H. destruct H as [->|H]; auto.
Qed.

Lemma list_by_user_rows (user_id : Z) (status : option string) (db : DB)
  (l : list OrderManager.OrderSummary) :
  fst (OrderManager.list_by_user user_id status db) = inr l ->
  forall s, In s l ->
    In (OrderManager.summary_order s) (orders db) /\
    OrderManager.summary_specifications s
      = o_refund_reason (OrderManager.summary_order s).
Proof.
  unfold OrderManager.list_by_user, get_conn.
  unfold bind at 1. unfold query at 1. cbn [working].
  rewrite map_tx_summaries. cbn [fst]. intros H. inversion H; subst l. clear H.
  intros s Hs. apply in_map_iff in Hs. destruct Hs as [o [<- Ho]].
  cbn [OrderManager.summary_order OrderManager.summary_specifications].
  split; [|reflexivity].
  apply newest_first_In in Ho. apply filter_In in Ho. tauto.
Qed.

Lemma find_map_same_key {A} (p : A -> bool) (f : A -> A) (l : list A) :
  (forall x, p (f x) = p x) ->
  find p (map f l) = option_map f (find p l).
Proof.
  intros H. induction l as [|x l IH]; simpl; [reflexivity|].
  rewrite H. destruct (p x); [reflexivity | exact IH].
Qed.

(** C10. Every call of the generic status update stores the supplied
    reason, or NULL when none is given, in the refund_reason column of the
    order it updates.  In particular an order created with a
    specification blob shows that blob in its detail, and after the order
    is paid the detail and the order list show no specification any
    more. *)
Theorem status_update_erases_specifications
  cfg env user_id address_id custom_addr (spec : string) buy_now buy_now_items
  delivery_way (VALID_PAY_WAYS : list string) (pay_way : string)
  (db db1 : DB) (n : string) :
  OrderManager.create cfg env user_id address_id custom_addr (Some spec)
    buy_now buy_now_items delivery_way db = (inr (Some n), db1) ->
  existsb (String.eqb pay_way) VALID_PAY_WAYS = true ->
  (forall (m s : string) (reason : option string) (d : DB),
     exists ok d',
       OrderManager.update_status m s reason d = (inr ok, d') /\
       forall o, In o (orders d') -> o_order_number o = Some m ->
         o_refund_reason o = reason) /\
  (exists d, OrderManager.detail n db1 = (inr (Some d), db1) /\
             OrderManager.specifications d = Some spec) /\
  (exists ok db2,
     order_pay VALID_PAY_WAYS n pay_way db1 = (inr ok, db2) /\
     (exists d, OrderManager.detail n db2 = (inr (Some d), db2) /\
                OrderManager.specifications d = None) /\
     (forall status l,
        fst (OrderManager.list_by_user user_id status db2) = inr l ->
        forall s, In s l ->
          o_order_number (OrderManager.summary_order s) = Some n ->
          OrderManager.summary_specifications s = None)).
Proof.
  intros Hc Hv.
  assert (Hgen : forall (m s : string) (reason : option string) (d : DB),
     exists ok d',
       OrderManager.update_status m s reason d = (inr ok, d') /\
       forall o, In o (orders d') -> o_order_number o = Some m ->
         o_refund_reason o = reason).
  { intros m s reason d. rewrite update_status_cases.
    eexists. eexists. split; [reflexivity|].
    cbn [orders set_orders]. intros o Hin Hm.
    apply in_map_iff in Hin. destruct Hin as [o0 [<- _]].
    rewrite set_status_and_reason_number in Hm.
    exact (proj1 (proj2 (@set_status_and_reason_hit m s reason o0 Hm))). }
  split; [exact Hgen|].
  destruct (create_succeeds _ _ _ _ _ _ _ _ _ _ Hc)
    as (items & sh & _ & -> & Ht & _ & ->).
  set (db1 := placed cfg env user_id (Some spec) buy_now delivery_way items sh db).
  assert (Hfind : find_order (order_number env) db1
                  = Some (the_order env user_id (Some spec) delivery_way items sh db))
    by (apply placed_find_order; exact Ht).
  split.
  - rewrite detail_cases, Hfind. eexists. split; reflexivity.
  - unfold order_pay. rewrite Hv, update_status_cases.
    eexists. eexists. split; [reflexivity|].
    set (db2 := set_orders _ db1). split.
    + rewrite detail_cases.
      assert (Hfind2 : find_order (order_number env) db2
                = Some (OrderManager.set_status_and_reason (order_number env)
                          "pending_ship" None
                          (the_order env user_id (Some spec) delivery_way
                             items sh db))).
      { unfold find_order, db2. cbn [orders set_orders].
        rewrite find_map_same_key
          by (intros x; rewrite set_status_and_reason_number; reflexivity).
        fold (find_order (order_number env) db1). rewrite Hfind. reflexivity. }
      rewrite Hfind2. eexists. split; [reflexivity|].
      cbn [OrderManager.specifications].
      apply (@set_status_and_reason_hit (order_number env) "pending_ship" None).
      reflexivity.
    + intros status l Hl s Hs Hn.
      destruct (list_by_user_rows _ _ _ Hl s Hs) as [Hin ->].
      unfold db2 in Hin. cbn [orders set_orders] in Hin.
      apply in_map_iff in Hin. destruct Hin as [o0 [Ho0 _]].
      rewrite <- Ho0 in Hn |- *.
      rewrite set_status_and_reason_number in Hn.
      exact (proj1 (proj2 (@set_status_and_reason_hit (order_number env)
                             "pending_ship" None o0 Hn))).
Qed.

Lemma status_update_erases_specifications_witness :
  sample_checkout = (inr (Some "202311142213201482913"), snd sample_checkout) /\
  existsb (String.eqb "wechat") sample_pay_ways = true /\
  (exists d, OrderManager.detail "202311142213201482913" (snd sample_checkout)
               = (inr (Some d), snd sample_checkout) /\
             OrderManager.specifications d = Some "{}") /\
  (exists ok db2,
     order_pay sample_pay_ways "202311142213201482913" "wechat"
       (snd sample_checkout) = (inr ok, db2) /\
     exists d, OrderManager.detail "202311142213201482913" db2
                 = (inr (Some d), db2) /\
               OrderManager.specifications d = None).
Proof.
  assert (Hc : sample_checkout
               = (inr (Some "202311142213201482913"), snd sample_checkout))
    by (vm_compute; reflexivity).
  split; [exact Hc|]. split; [reflexivity|].
  destruct (@status_update_erases_specifications sample_config sample_env 1
              None None "{}" false None "platform" sample_pay_ways "wechat"
              sample_db (snd sample_checkout) "202311142213201482913"
              Hc eq_refl) as (_ & Hd & ok & db2 & Hp & Hd2 & _).
  split; [exact Hd|]. exists ok, db2. split; [exact Hp | exact Hd2].
Defined.

(** ** Auto-settlement scheduler *)

(** Selecting orders keeps their ids distinct. *)
Lemma selected_ids_distinct (keep : Order -> bool) (table : list Order) :
  NoDup (map o_id table) -> NoDup (map o_id (filter keep table)).
Proof.
  induction table as [|o table IH]; simpl; intros Hnd; [constructor|].
  apply NoDup_cons_iff in Hnd. destruct Hnd as [Hfresh Hnd].
  destruct (keep o); simpl; [|exact (IH Hnd)].
  apply NoDup_cons; [|exact (IH Hnd)].
  intros Hin. apply Hfresh. apply in_map_iff in Hin.
  destruct Hin as [o2 [Hid Hsel]]. apply filter_In in Hsel.
  rewrite <- Hid. apply in_map. exact (proj1 Hsel).
Qed.

Lemma NoDup_app_disjoint {A} (l1 l2 : list A) (x : A) :
  NoDup (l1 ++ l2) -> In x l1 -> In x l2 -> False.
Proof.
  induction l1 as [|y l1 IH]; simpl; intros H H1 H2; [contradiction|].
  inversion H as [|z zs Hnot Hrest]; subst.
  destruct H1 as [->|H1].
  - apply Hnot. apply in_or_app. right. exact H2.
  - exact (IH Hrest H1 H2).
Qed.

Section Tick.

Variable settle_to_merchant : Z -> DB -> Exception + DB.

(** Settlement works on the ledger and leaves the orders table alone. *)
Hypothesis settle_keeps_orders :
  forall amount db db',
    settle_to_merchant amount db = inr db' -> orders db' = orders db.

Lemma receive_loop (rows : list Order) :
  forall db : DB,
  exists done rest r c,
    rows = done ++ rest /\
    for_each (receive_one settle_to_merchant) rows
      {| committed := db; working := db |} = (r, c) /\
    orders (committed c) = completed_all done (orders db) /\
    (forall u, r = inr u -> rest = []) /\
    (forall e, r = inl e -> rest <> []).
Proof.
  induction rows as [|row rows IH]; intros db.
  - exists [], [], (inr tt), {| committed := db; working := db |}.
    simpl. repeat split; auto. discriminate.
  - simpl. unfold bind at 1. unfold receive_one at 1.
    unfold bind at 1. unfold execute at 1. cbn [working committed].
    unfold bind at 1. unfold call_settle at 1. cbn [working committed].
    destruct (settle_to_merchant (o_total_amount row)
                (set_orders (map (mark_completed (o_id row))) db))
      as [e|db1] eqn:Es.
    + exists [], (row :: rows). eexists. eexists.
      split; [reflexivity|]. split; [reflexivity|].
      cbn [committed]. repeat split; discriminate.
    + unfold commit at 1. cbn [working committed].
      destruct (IH db1) as (done & rest & r & c & Hrows & Hrun & Ho & Hok & Hko).
      exists (row :: done), rest, r, c. rewrite Hrun.
      split; [simpl; rewrite Hrows; reflexivity|].
      split; [reflexivity|]. split; [|split; assumption].
      rewrite Ho, (settle_keeps_orders Es). reflexivity.
Qed.

Lemma completed_all_keeps (done : list Order) (o : Order) :
  (forall r, In r done -> o_id r <> o_id o) ->
  forall l, In o l -> In o (completed_all done l).
Proof.
  induction done as [|r done IH]; intros Hids l Hin; simpl; [exact Hin|].
  apply IH; [intros r' Hr'; apply Hids; right; exact Hr'|].
  replace o with (mark_completed (o_id r) o); [apply in_map; exact Hin|].
  unfold mark_completed.
  destruct (o_id o =? o_id r) eqn:E; [|reflexivity].
  apply Z.eqb_eq in E. exfalso. apply (Hids r); [left; reflexivity|]. lia.
Qed.

Lemma mark_completed_keeps_completed (i : Z) (o : Order) :
  o_status o = "completed" ->
  o_status (mark_completed i o) = "completed" /\ o_id (mark_completed i o) = o_id o.
Proof.
  intros H. unfold mark_completed. destruct (o_id o =? i); auto.
Qed.

Lemma completed_all_stays (done : list Order) :
  forall (l : list Order) (o : Order),
  In o l -> o_status o = "completed" ->
  exists o', In o' (completed_all done l) /\ o_id o' = o_id o /\
             o_status o' = "completed".
Proof.
  induction done as [|r done IH]; intros l o Hin Hst; simpl.
  - exists o. auto.
  - destruct (mark_completed_keeps_completed (o_id r) o Hst) as [Hs Hi].
    destruct (IH (map (mark_completed (o_id r)) l) (mark_completed (o_id r) o)
                 (in_map _ _ _ Hin) Hs) as (o' & Hin' & Hid' & Hst').
    exists o'. split; [exact Hin'|]. split; [congruence | exact Hst'].
Qed.

Lemma completed_all_marks (done : list Order) :
  forall (l : list Order) (o : Order),
  (exists r, In r done /\ o_id r = o_id o) -> In o l ->
  exists o', In o' (completed_all done l) /\ o_id o' = o_id o /\
             o_status o' = "completed".
Proof.
  induction done as [|r done IH]; intros l o [r0 [Hd Hid]] Hin;
    [contradiction|].
  simpl.
  assert (Hi : o_id (mark_completed (o_id r) o) = o_id o)
    by (unfold mark_completed; destruct (o_id o =? o_id r); reflexivity).
  destruct (Z.eq_dec (o_id r) (o_id o)) as [E|E].
  - assert (Hs : o_status (mark_completed (o_id r) o) = "completed")
      by (unfold mark_completed; rewrite <- E, Z.eqb_refl; reflexivity).
    destruct (completed_all_stays done _ _
                (in_map (mark_completed (o_id r)) _ _ Hin) Hs)
      as (o' & Hin' & Hid' & Hst').
    exists o'. split; [exact Hin'|]. split; [congruence | exact Hst'].
  - destruct Hd as [->|Hd]; [contradiction|].
    destruct (IH (map (mark_completed (o_id r)) l) (mark_completed (o_id r) o))
      as (o' & Hin' & Hid' & Hst').
    + exists r0. split; [exact Hd | congruence].
    + apply in_map. exact Hin.
    + exists o'. split; [exact Hin'|]. split; [congruence | exact Hst'].
Qed.

Lemma receive_loop_settled (rows : list Order) :
  forall db : DB,
  exists done rest r c,
    rows = done ++ rest /\
    for_each (receive_one settle_to_merchant) rows
      {| committed := db; working := db |} = (r, c) /\
    orders (committed c) = completed_all done (orders db) /\
    settled_through settle_to_merchant db done (committed c) /\
    match rest with
    | [] => r = inr tt
    | row :: _ =>
        exists e,
          r = inl e /\
          settle_to_merchant (o_total_amount row)
            (set_orders (map (mark_completed (o_id row))) (committed c))
          = inl e
    end.
Proof.
  induction rows as [|row rows IH]; intros db.
  - exists [], [], (inr tt), {| committed := db; working := db |}.
    simpl. repeat split; auto. constructor.
  - simpl. unfold bind at 1. unfold receive_one at 1.
    unfold bind at 1. unfold execute at 1. cbn [working committed].
    unfold bind at 1. unfold call_settle at 1. cbn [working committed].
    destruct (settle_to_merchant (o_total_amount row)
                (set_orders (map (mark_completed (o_id row))) db))
      as [e|db1] eqn:Es.
    + exists [], (row :: rows). eexists. eexists.
      split; [reflexivity|]. split; [reflexivity|].
      cbn [committed]. split; [reflexivity|]. split; [constructor|].
      exists e. split; [reflexivity | exact Es].
    + unfold commit at 1. cbn [working committed].
      destruct (IH db1) as (done & rest & r & c & Hrows & Hrun & Ho & Hs & Hr).
      exists (row :: done), rest, r, c. rewrite Hrun.
      split; [simpl; rewrite Hrows; reflexivity|].
      split; [reflexivity|]. split; [|split; [|exact Hr]].
      * rewrite Ho, (settle_keeps_orders Es). reflexivity.
      * eapply settled_next; [exact Es | exact Hs].
Qed.

(** C9, as the code has it.  One tick takes the due orders in the order
    of the query; for each it marks the order completed, settles its
    total and commits, each on the database the one before committed.
    The first settlement that raises ends the tick with that exception
    and the order rolled back: the orders before it are completed and
    settled, the order itself and all due orders after it are left
    exactly as they were, and they are due again at the next tick.  When
    no settlement raises, the tick reports no exception and every due
    order is completed. *)
Theorem tick_ends_at_first_failure (now : Z) (db : DB) :
  exists done rest res db',
    due_orders now db = done ++ rest /\
    auto_receive_tick settle_to_merchant now db = (res, db') /\
    settled_through settle_to_merchant db done db' /\
    match rest with
    | [] => res = None
    | row :: _ =>
        exists e,
          res = Some e /\
          settle_to_merchant (o_total_amount row)
            (set_orders (map (mark_completed (o_id row))) db') = inl e
    end /\
    (forall o, In o done ->
       exists o', In o' (orders db') /\ o_id o' = o_id o /\
                  o_status o' = "completed") /\
    (NoDup (map o_id (orders db)) ->
     forall o, In o rest ->
       In o (orders db') /\
       forall later, now <= later -> In o (due_orders later db')) /\
    ((forall row d, In row (due_orders now db) ->
        exists d', settle_to_merchant (o_total_amount row) d = inr d') ->
     res = None /\ rest = [] /\ done = due_orders now db).
Proof.
  destruct (receive_loop_settled (due_orders now db) db)
    as (done & rest & r & c & Hrows & Hrun & Ho & Hs & Hr).
  exists done, rest, (match r with inl e => Some e | inr _ => None end),
    (committed c).
  split; [exact Hrows|]. split.
  { unfold auto_receive_tick, get_conn. unfold bind at 1. unfold query at 1.
    cbn [working]. rewrite Hrun. destruct r; reflexivity. }
  split; [exact Hs|].
  assert (Hdue : forall o, In o (done ++ rest) ->
            In o (orders db) /\ o_status o = "pending_recv" /\
            o_auto_recv_time o <= now).
  { intros o Hin. rewrite <- Hrows in Hin. unfold due_orders in Hin.
    apply filter_In in Hin. destruct Hin as [Hin Hc].
    apply andb_true_iff in Hc. destruct Hc as [Hst Ht].
    apply String.eqb_eq in Hst. apply Z.leb_le in Ht. auto. }
  split; [|split; [|split]].
  - destruct rest as [|row rest]; [rewrite Hr; reflexivity|].
    destruct Hr as [e [-> He]]. exists e. split; [reflexivity | exact He].
  - intros o Hin. rewrite Ho. apply completed_all_marks.
    + exists o. auto.
    + apply Hdue. apply in_or_app. left. exact Hin.
  - intros Hnd o Hin.
    assert (Hids : NoDup (map o_id done ++ map o_id rest)).
    { rewrite <- map_app, <- Hrows. apply selected_ids_distinct. exact Hnd. }
    destruct (Hdue o (in_or_app _ _ _ (or_intror Hin))) as (Hdb & Hst & Ht).
    assert (Hkept : In o (orders (committed c))).
    { rewrite Ho. apply completed_all_keeps; [|exact Hdb].
      intros r0 Hr0 E.
      apply (NoDup_app_disjoint _ _ (o_id o) Hids).
      - rewrite <- E. apply in_map. exact Hr0.
      - apply in_map. exact Hin. }
    split; [exact Hkept|].
    intros later Hl. unfold due_orders. apply filter_In.
    split; [exact Hkept|]. rewrite Hst. simpl. apply Z.leb_le. lia.
  - intros Hall. destruct rest as [|row rest].
    + rewrite Hr. split; [reflexivity|]. split; [reflexivity|].
      rewrite Hrows. symmetry. apply app_nil_r.
    + exfalso. destruct Hr as [e [_ He]].
      destruct (Hall row
                  (set_orders (map (mark_completed (o_id row))) (committed c)))
        as [d' Hd'].
      * rewrite Hrows. apply in_or_app. right. left. reflexivity.
      * congruence.
Qed.

End Tick.

Lemma sample_settle_keeps_orders (amount : Z) (db db' : DB) :
  sample_settle amount db = inr db' -> orders db' = orders db.
Proof.
  unfold sample_settle. destruct (amount =? 1300); [discriminate|].
  intros H. injection H as <-. reflexivity.
Defined.

Lemma tick_ends_at_first_failure_witness :
  NoDup (map o_id (orders sample_shipped)) /\
  exists done rest res db',
    due_orders 1000 sample_shipped = done ++ rest /\
    auto_receive_tick sample_settle 1000 sample_shipped = (res, db') /\
    settled_through sample_settle sample_shipped done db' /\
    match rest with
    | [] => res = None
    | row :: _ =>
        exists e,
          res = Some e /\
          sample_settle (o_total_amount row)
            (set_orders (map (mark_completed (o_id row))) db') = inl e
    end /\
    (forall o, In o done ->
       exists o', In o' (orders db') /\ o_id o' = o_id o /\
                  o_status o' = "completed") /\
    (forall o, In o rest ->
       In o (orders db') /\
       forall later, 1000 <= later -> In o (due_orders later db')).
Proof.
  assert (Hnd : NoDup (map o_id (orders sample_shipped))).
  { simpl. repeat constructor; simpl; intuition discriminate. }
  split; [exact Hnd|].
  destruct (@tick_ends_at_first_failure sample_settle
              sample_settle_keeps_orders 1000 sample_shipped)
    as (done & rest & res & db' & H1 & H2 & H3 & H4 & H5 & H6 & _).
  exists done, rest, res, db'.
  split; [exact H1|]. split; [exact H2|]. split; [exact H3|].
  split; [exact H4|]. split; [exact H5 | exact (H6 Hnd)].
Defined.

(** C9, the claim as stated fails: of three due orders the second cannot
    be settled.  The first is completed and stays so; the third, whose
    settlement would go through, is not processed in this tick. *)
Lemma tick_failure_skips_remaining_orders :
  map o_id (due_orders 1000 sample_shipped) = [1; 2; 3] /\
  (exists db', sample_settle 20000 sample_shipped = inr db') /\
  fst (auto_receive_tick sample_settle 1000 sample_shipped)
    = Some (OtherError "settlement failed") /\
  map o_status
      (orders (snd (auto_receive_tick sample_settle 1000 sample_shipped)))
    = ["completed"; "pending_recv"; "pending_recv"].
Proof.
  split; [reflexivity|]. split; [eexists; reflexivity|].
  split; vm_compute; reflexivity.
Qed.

(** * Properties of the further code *)

(** ** [execute_transaction] *)

Lemma for_each_cur_execute (operations : list Statement) (db0 db : DB) :
  match run_statements operations db with
  | inr db' =>
      for_each cur_execute operations {| committed := db0; working := db |}
      = (inr tt, {| committed := db0; working := db' |})
  | inl e =>
      exists w, for_each cur_execute operations
                  {| committed := db0; working := db |}
                = (inl e, {| committed := db0; working := w |})
  end.
Proof.
  revert db. induction operations as [|s rest IH]; intros db; simpl.
  - reflexivity.
  - assert (Hstep : forall k : unit -> Tx unit,
              bind (cur_execute s) k {| committed := db0; working := db |}
              = match s db with
                | inl e => (inl e, {| committed := db0; working := db |})
                | inr db1 => k tt {| committed := db0; working := db1 |}
                end).
    { intros k. unfold bind, cur_execute. cbn [working committed].
      destruct (s db); reflexivity. }
    rewrite Hstep. destruct (s db) as [e|db1].
    + exists db. reflexivity.
    + exact (IH db1).
Qed.

(** X1. [execute_transaction] is all or nothing: when every operation
    goes through it returns True and leaves the database the operations
    produce in sequence; when one raises it returns False and leaves the
    database as it was, the operations before the failing one undone. *)
Theorem execute_transaction_all_or_nothing
  (operations : list Statement) (db : DB) :
  match run_statements operations db with
  | inr db' => execute_transaction operations db = (true, db')
  | inl _ => execute_transaction operations db = (false, db)
  end.
Proof.
  pose proof (for_each_cur_execute operations db db) as H.
  destruct (run_statements operations db) as [e|db'];
    unfold execute_transaction, get_conn; unfold bind at 1.
  - destruct H as [w Hw]. rewrite Hw. reflexivity.
  - rewrite H. reflexivity.
Qed.

(** ** Further effects of [create] *)

Lemma split_order_funds_cart cfg n total has_vip (db : DB) :
  cart (split_order_funds cfg n total has_vip db) = cart db.
Proof. unfold split_order_funds. apply fold_left_frame. reflexivity. Qed.

Lemma placed_cart cfg env user_id specifications buy_now delivery_way
  items sh (db : DB) :
  cart (placed cfg env user_id specifications buy_now delivery_way items sh db)
  = if buy_now then cart db
    else filter (fun c => negb ((c_user_id c =? user_id) && (c_selected c =? 1)))
                (cart db).
Proof.
  unfold placed. rewrite split_order_funds_cart.
  unfold with_cart_cleared, with_stock_taken, with_lines.
  destruct buy_now, (skus_have_stock db); cbn [cart set_cart];
    repeat (rewrite (fold_left_frame cart) by reflexivity); reflexivity.
Qed.

(** X2. A successful cart checkout deletes the user's selected cart
    entries and nothing else: an entry is in the cart afterwards exactly
    when it was there before and is another user's or is not selected.  A
    successful buy-now order leaves the cart as it was. *)
Theorem create_clears_only_selected_entries
  cfg env user_id address_id custom_addr specifications buy_now buy_now_items
  delivery_way (db db' : DB) (n : string) :
  OrderManager.create cfg env user_id address_id custom_addr specifications
    buy_now buy_now_items delivery_way db = (inr (Some n), db') ->
  (buy_now = true -> cart db' = cart db) /\
  (buy_now = false ->
   forall c, In c (cart db') <->
             In c (cart db) /\ ~ (c_user_id c = user_id /\ c_selected c = 1)).
Proof.
  intros Hc.
  destruct (create_succeeds _ _ _ _ _ _ _ _ _ _ Hc)
    as (items & sh & _ & _ & _ & _ & ->).
  rewrite placed_cart. split; intros ->; [reflexivity|].
  intros c. rewrite filter_In. split; intros [Hin Hk]; (split; [exact Hin|]).
  - intros [Hu Hs]. rewrite Hu, Hs, !Z.eqb_refl in Hk. discriminate.
  - destruct (c_user_id c =? user_id) eqn:Eu; [|reflexivity].
    destruct (c_selected c =? 1) eqn:Es; [|reflexivity].
    exfalso. apply Hk. split; apply Z.eqb_eq; assumption.
Qed.

Lemma create_clears_only_selected_entries_witness :
  sample_checkout = (inr (Some "202311142213201482913"), snd sample_checkout) /\
  forall c, In c (cart (snd sample_checkout)) <->
            In c (cart sample_db) /\ ~ (c_user_id c = 1 /\ c_selected c = 1).
Proof.
  assert (Hc : sample_checkout
               = (inr (Some "202311142213201482913"), snd sample_checkout))
    by (vm_compute; reflexivity).
  split; [exact Hc|].
  exact (proj2 (@create_clears_only_selected_entries sample_config sample_env 1
                  None None (Some "{}") false None "platform" sample_db
                  (snd sample_checkout) "202311142213201482913" Hc) eq_refl).
Defined.








(** X4. When the SKU table has no stock column the stock check reads 0
    for every product: an order-creation attempt with any line of
    positive quantity fails and changes nothing, and the exception is the
    400 InsufficientStock one, reporting a stock of 0, whenever the
    request passes step 1 with a free order number. *)
Theorem create_without_stock_column_rejects
  cfg env user_id address_id custom_addr specifications buy_now buy_now_items
  delivery_way (db : DB) :
  skus_have_stock db = false ->
  Exists (fun i => 0 < i_quantity i)
         (requested_items user_id buy_now buy_now_items db) ->
  exists e,
    OrderManager.create cfg env user_id address_id custom_addr specifications
      buy_now buy_now_items delivery_way db = (inl e, db) /\
    (passes_validation custom_addr buy_now buy_now_items db = true ->
     order_number_taken (order_number env) db = false ->
     exists p q, e = HTTPException 400 (InsufficientStock p 0 q) /\ 0 < q).
Proof.
  intros Hno Hex.
  assert (Hzero : forall p, read_stock p db = 0).
  { intros p. unfold read_stock. rewrite Hno.
    destruct (find _ (product_skus db)); reflexivity. }
  assert (Hne : requested_items user_id buy_now buy_now_items db <> []).
  { intros E. rewrite E in Hex. inversion Hex. }
  rewrite create_cases.
  destruct (@assemble_requested user_id custom_addr buy_now buy_now_items
              {| committed := db; working := db |} Hne)
    as [[e [Ha Hv]] | [sh Ha]]; rewrite Ha; cbn [working] in *.
  - exists e. split; [reflexivity|]. congruence.
  - destruct (order_number_taken (order_number env) db).
    + exists IntegrityError. split; [reflexivity|]. discriminate.
    + assert (Hex' : Exists (fun i => short db i = true)
                       (requested_items user_id buy_now buy_now_items db)).
      { eapply Exists_impl; [|exact Hex]. intros i Hi.
        unfold short. rewrite Hzero. apply Z.ltb_lt. exact Hi. }
      destruct (find_of_Exists _ Hex') as [i [Hf Hi]].
      rewrite Hf. eexists. split; [reflexivity|].
      intros _ _. exists (i_product_id i), (i_quantity i).
      rewrite Hzero. split; [reflexivity|].
      unfold short in Hi. rewrite Hzero in Hi. apply Z.ltb_lt. exact Hi.
Qed.

Lemma create_without_stock_column_rejects_witness :
  skus_have_stock sample_db_no_stock_column = false /\
  Exists (fun i => 0 < i_quantity i)
         (requested_items 1 false None sample_db_no_stock_column) /\
  exists e,
    OrderManager.create sample_config sample_env 1 None None None false None
      "platform" sample_db_no_stock_column
    = (inl e, sample_db_no_stock_column) /\
    exists p q, e = HTTPException 400 (InsufficientStock p 0 q) /\ 0 < q.
Proof.
  assert (Hex : Exists (fun i => 0 < i_quantity i)
            (requested_items 1 false None sample_db_no_stock_column)).
  { apply Exists_cons_hd. vm_compute. reflexivity. }
  split; [reflexivity|]. split; [exact Hex|].
  destruct (@create_without_stock_column_rejects sample_config sample_env 1
              None None None false None "platform" sample_db_no_stock_column
              eq_refl Hex) as (e & Hc & Hk).
  exists e. split; [exact Hc|]. exact (Hk eq_refl eq_refl).
Defined.

(** ** The [POST /create] route *)

Lemma select_cart_items_none (user_id : Z) (db : DB) :
  (forall c, In c (cart db) -> c_user_id c = user_id -> c_selected c <> 1) ->
  select_cart_items user_id db = [].
Proof.
  unfold select_cart_items. induction (cart db) as [|c l IH]; intros H;
    simpl; [reflexivity|].
  rewrite IH by (intros c' Hc'; apply H; right; exact Hc').
  destruct (c_user_id c =? user_id) eqn:Eu; [|reflexivity].
  destruct (c_selected c =? 1) eqn:Es; [|reflexivity].
  exfalso. apply Z.eqb_eq in Eu, Es. exact (H c (or_introl eq_refl) Eu Es).
Qed.

(** X5. A cart checkout of a user who has no selected cart entry creates
    nothing: [create] returns None without writing and the route answers
    with the 422 exception; entries that are not selected, and other
    users' entries, do not count. *)
Theorem create_order_empty_cart
  cfg env user_id address_id custom_address specifications buy_now_items
  delivery_way (db : DB) :
  (forall c, In c (cart db) -> c_user_id c = user_id -> c_selected c <> 1) ->
  OrderManager.create cfg env user_id address_id custom_address specifications
    false buy_now_items delivery_way db = (inr None, db) /\
  create_order cfg env user_id address_id custom_address specifications
    false buy_now_items delivery_way db
  = (inl (HTTPException 422 CartEmptyOrAddressMissing), db).
Proof.
  intros Hsel.
  assert (Hc : OrderManager.create cfg env user_id address_id custom_address
                 specifications false buy_now_items delivery_way db
               = (inr None, db)).
  { rewrite create_cases. unfold OrderManager.assemble, bind, query.
    cbn [working]. rewrite (@select_cart_items_none user_id db Hsel). reflexivity. }
  split; [exact Hc|]. unfold create_order. rewrite Hc. reflexivity.
Qed.

Lemma create_order_empty_cart_witness :
  (forall c, In c (cart sample_db_nothing_selected) ->
             c_user_id c = 1 -> c_selected c <> 1) /\
  create_order sample_config sample_env 1 None None None false None "platform"
    sample_db_nothing_selected
  = (inl (HTTPException 422 CartEmptyOrAddressMissing),
     sample_db_nothing_selected).
Proof.
  assert (H : forall c, In c (cart sample_db_nothing_selected) ->
                        c_user_id c = 1 -> c_selected c <> 1).
  { intros c [<-|[<-|[]]]; simpl; intros Hu; discriminate. }
  split; [exact H|].
  exact (proj2 (@create_order_empty_cart sample_config sample_env 1 None None
                  None None "platform" sample_db_nothing_selected H)).
Defined.

(** ** The order a successful [create] stores *)

(** X6. A successful [create] appends exactly one order to the orders
    table and leaves the stored orders as they were.  The new order has
    an id no stored order has, the returned order number, status
    'pending_pay', payment method 'wechat', the auto-receive deadline
    seven days (604800 seconds) after the creation time, the
    specification blob in refund_reason, and the premium flag set exactly
    when some requested line's product is a member product. *)
Theorem create_appends_pending_order
  cfg env user_id address_id custom_addr specifications buy_now buy_now_items
  delivery_way (db db' : DB) (n : string) :
  OrderManager.create cfg env user_id address_id custom_addr specifications
    buy_now buy_now_items delivery_way db = (inr (Some n), db') ->
  exists o,
    orders db' = orders db ++ [o] /\
    (forall o', In o' (orders db) -> o_id o' <> o_id o) /\
    o_order_number o = Some n /\
    o_user_id o = user_id /\
    o_status o = "pending_pay" /\
    o_pay_way o = "wechat" /\
    o_auto_recv_time o = now env + 604800 /\
    o_created_at o = now env /\
    o_refund_reason o = specifications /\
    o_is_vip_item o =
      existsb i_is_vip (requested_items user_id buy_now buy_now_items db).
Proof.
  intros Hc.
  destruct (create_succeeds_requested _ _ _ _ _ _ _ _ _ _ Hc)
    as (-> & _ & _ & ->).
  eexists. split; [apply placed_orders|].
  split; [|repeat split].
  intros o' Hin. pose proof (next_order_id_fresh _ _ Hin) as Hlt.
  cbn [the_order OrderManager.new_order o_id]. lia.
Qed.

Lemma create_appends_pending_order_witness :
  sample_checkout = (inr (Some "202311142213201482913"), snd sample_checkout) /\
  exists o,
    orders (snd sample_checkout) = orders sample_db ++ [o] /\
    o_status o = "pending_pay" /\
    o_auto_recv_time o = 1700000000 + 604800.
Proof.
  assert (Hc : sample_checkout
               = (inr (Some "202311142213201482913"), snd sample_checkout))
    by (vm_compute; reflexivity).
  split; [exact Hc|].
  destruct (@create_appends_pending_order sample_config sample_env 1 None None
              (Some "{}") false None "platform" sample_db
              (snd sample_checkout) "202311142213201482913" Hc)
    as (o & Ho & _ & _ & _ & Hs & _ & Ht & _).
  exists o. split; [exact Ho|]. split; [exact Hs | exact Ht].
Defined.

(** ** [detail] after [create] *)

Lemma cart_items_have_products (user_id : Z) (db : DB) (i : Item) :
  In i (select_cart_items user_id db) ->
  exists p, In p (products db) /\ p_id p = i_product_id i.
Proof.
  unfold select_cart_items. intros H.
  apply in_flat_map in H. destruct H as [c [_ H]].
  destruct ((c_user_id c =? user_id) && (c_selected c =? 1)); [|contradiction].
  apply in_flat_map in H. destruct H as [s [_ H]].
  destruct (s_id s =? c_sku_id c); [|contradiction].
  apply in_flat_map in H. destruct H as [p [Hp H]].
  destruct (p_id p =? c_product_id c) eqn:E; [|contradiction].
  destruct H as [<-|[]]. exists p. split; [exact Hp|].
  apply Z.eqb_eq in E. exact E.
Qed.

Lemma select_product_some (pid : Z) (db : DB) (p : Product) :
  select_product pid db = Some p -> In p (products db) /\ p_id p = pid.
Proof.
  unfold select_product. intros H. apply find_some in H.
  destruct H as [Hin He]. apply Z.eqb_eq in He. auto.
Qed.

Lemma created_items_have_products
  cfg env user_id address_id custom_addr specifications buy_now buy_now_items
  delivery_way (db db' : DB) (n : string) :
  OrderManager.create cfg env user_id address_id custom_addr specifications
    buy_now buy_now_items delivery_way db = (inr (Some n), db') ->
  forall i, In i (requested_items user_id buy_now buy_now_items db) ->
  exists p, In p (products db) /\ p_id p = i_product_id i.
Proof.
  intros Hc i Hi.
  destruct (create_succeeds _ _ _ _ _ _ _ _ _ _ Hc)
    as (items & sh & Ha & _).
  revert Ha Hi. unfold OrderManager.assemble, requested_items.
  destruct buy_now.
  - destruct buy_now_items as [[|it l]|]; try (unfold raise; congruence).
    unfold bind. rewrite map_tx_buy_now_line. cbn [working].
    destruct (find _ (it :: l)) eqn:Hf; [congruence|].
    intros _ Hi. apply in_map_iff in Hi. destruct Hi as [x [<- Hx]].
    pose proof (find_none _ _ Hf x Hx) as Hex.
    apply negb_false_iff in Hex. unfold product_exists in Hex.
    destruct (select_product (bn_product_id x) db) as [p|] eqn:Ep;
      [|discriminate].
    exists p. exact (select_product_some _ _ Ep).
  - intros _ Hi. exact (cart_items_have_products _ _ _ Hi).
Qed.

Lemma join_unique_product (A : Type) (g : Product -> A) (ps : list Product)
  (p : Product) :
  NoDup (map p_id ps) -> In p ps ->
  flat_map (fun p' => if p_id p' =? p_id p then [g p'] else []) ps = [g p].
Proof.
  induction ps as [|q ps IH]; intros Hnd Hin; [contradiction|].
  simpl in Hnd. apply NoDup_cons_iff in Hnd. destruct Hnd as [Hq Hnd].
  simpl. destruct Hin as [->|Hin].
  - rewrite Z.eqb_refl. simpl. f_equal.
    clear IH Hnd. induction ps as [|r ps IH]; [reflexivity|].
    simpl. destruct (p_id r =? p_id p) eqn:E.
    + exfalso. apply Hq. apply Z.eqb_eq in E. left. exact E.
    + apply IH. intros H. apply Hq. right. exact H.
  - destruct (p_id q =? p_id p) eqn:E.
    + exfalso. apply Hq. apply Z.eqb_eq in E. rewrite E.
      apply in_map. exact Hin.
    + simpl. apply IH; assumption.
Qed.

Lemma split_order_funds_products cfg n total has_vip (db : DB) :
  products (split_order_funds cfg n total has_vip db) = products db.
Proof. unfold split_order_funds. apply fold_left_frame. reflexivity. Qed.

Lemma placed_products cfg env user_id specifications buy_now delivery_way
  items sh (db : DB) :
  products (placed cfg env user_id specifications buy_now delivery_way items sh db)
  = products db.
Proof.
  unfold placed. rewrite split_order_funds_products.
  unfold with_cart_cleared, with_stock_taken, with_lines.
  destruct buy_now, (skus_have_stock db); cbn [products set_cart];
    repeat (rewrite (fold_left_frame products) by reflexivity); reflexivity.
Qed.

Lemma select_lines_old (oid : Z) (ps : list Product) (old : list OrderItem) :
  (forall l, In l old -> oi_order_id l <> oid) ->
  flat_map (fun oi =>
    if oi_order_id oi =? oid then
      flat_map (fun p =>
        if p_id p =? oi_product_id oi then [(oi, p_name p)] else []) ps
    else []) old = [].
Proof.
  induction old as [|l old IH]; intros H; simpl; [reflexivity|].
  rewrite IH by (intros l' Hl'; apply H; right; exact Hl').
  destruct (oi_order_id l =? oid) eqn:E; [|reflexivity].
  apply Z.eqb_eq in E. exfalso. exact (H l (or_introl eq_refl) E).
Qed.

Lemma select_lines_new (oid : Z) (ps : list Product) (items : list Item) :
  NoDup (map p_id ps) ->
  (forall i, In i items -> exists p, In p ps /\ p_id p = i_product_id i) ->
  map fst
    (flat_map (fun oi =>
       if oi_order_id oi =? oid then
         flat_map (fun p =>
           if p_id p =? oi_product_id oi then [(oi, p_name p)] else []) ps
       else []) (map (line_of oid) items))
  = map (line_of oid) items.
Proof.
  intros Hnd. induction items as [|i items IH]; intros Hp; [reflexivity|].
  cbn [map flat_map]. rewrite map_app.
  rewrite IH by (intros i' Hi'; apply Hp; right; exact Hi').
  cbn [line_of oi_order_id oi_product_id]. rewrite Z.eqb_refl.
  destruct (Hp i (or_introl eq_refl)) as [p [Hin Hid]].
  rewrite <- Hid.
  rewrite (join_unique_product
             (fun p' => (line_of oid i, p_name p')) ps p Hnd Hin).
  rewrite ?Hid. reflexivity.
Qed.

(** X7. The detail of an order that [create] has just stored: it is
    found under the returned order number, in status 'pending_pay', with
    the specification blob as given, and with exactly the order's lines,
    each once and in order (product ids are unique and stored lines
    belong to stored orders); after a cart checkout it has no address.
    The route returns the same detail. *)
Theorem detail_after_create
  cfg env user_id address_id custom_addr specifications buy_now buy_now_items
  delivery_way (db db' : DB) (n : string) :
  NoDup (map p_id (products db)) ->
  lines_reference_orders db ->
  OrderManager.create cfg env user_id address_id custom_addr specifications
    buy_now buy_now_items delivery_way db = (inr (Some n), db') ->
  exists d,
    OrderManager.detail n db' = (inr (Some d), db') /\
    order_detail n db' = (inr d, db') /\
    o_order_number (OrderManager.order_info d) = Some n /\
    o_status (OrderManager.order_info d) = "pending_pay" /\
    OrderManager.specifications d = specifications /\
    map fst (OrderManager.items d)
      = lines_of (o_id (OrderManager.order_info d)) db' /\
    List.length (OrderManager.items d)
      = List.length (requested_items user_id buy_now buy_now_items db) /\
    (buy_now = false -> OrderManager.address d = None).
Proof.
  intros Hnd Href Hc.
  pose proof (created_items_have_products _ _ _ _ _ _ _ _ _ _ Hc) as Hprod.
  destruct (create_succeeds_requested _ _ _ _ _ _ _ _ _ _ Hc)
    as (-> & Ht & _ & ->).
  set (items := requested_items user_id buy_now buy_now_items db) in *.
  set (sh := if buy_now then _ else no_shipping).
  set (db1 := placed cfg env user_id specifications buy_now delivery_way
                items sh db).
  set (o := the_order env user_id specifications delivery_way items sh db).
  assert (Hfind : find_order (order_number env) db1 = Some o)
    by (apply placed_find_order; exact Ht).
  assert (Hd : OrderManager.detail (order_number env) db1
           = (inr (Some {| OrderManager.order_info := o;
                           OrderManager.address := OrderManager.address_of o;
                           OrderManager.items :=
                             OrderManager.select_lines (o_id o) db1;
                           OrderManager.specifications := o_refund_reason o |}),
              db1))
    by (rewrite detail_cases, Hfind; reflexivity).
  eexists. split; [exact Hd|].
  split; [unfold order_detail; rewrite Hd; reflexivity|].
  cbn [OrderManager.order_info OrderManager.specifications OrderManager.items
       OrderManager.address].
  assert (Hlines : map fst (OrderManager.select_lines (o_id o) db1)
                   = map (line_of (next_order_id db)) items).
  { unfold OrderManager.select_lines, db1.
    rewrite placed_lines, placed_products, flat_map_app, map_app.
    rewrite select_lines_old, select_lines_new; [reflexivity|exact Hnd| |].
    - exact Hprod.
    - intros l Hl. destruct (Href l Hl) as [o' [Ho' <-]].
      pose proof (next_order_id_fresh _ _ Ho'). simpl. lia. }
  split; [reflexivity|]. split; [reflexivity|]. split; [reflexivity|].
  split; [|split].
  - rewrite Hlines. symmetry.
    apply (@placed_lines_of cfg env user_id specifications buy_now
             delivery_way items sh db Href).
  - rewrite <- (length_map fst), Hlines, length_map. reflexivity.
  - intros Hb. unfold o, the_order, sh. rewrite Hb. reflexivity.
Qed.

Lemma detail_after_create_witness :
  NoDup (map p_id (products sample_db)) /\
  lines_reference_orders sample_db /\
  sample_checkout = (inr (Some "202311142213201482913"), snd sample_checkout) /\
  exists d,
    order_detail "202311142213201482913" (snd sample_checkout)
      = (inr d, snd sample_checkout) /\
    List.length (OrderManager.items d) = 2%nat /\
    OrderManager.address d = None.
Proof.
  assert (Hnd : NoDup (map p_id (products sample_db))).
  { simpl. repeat constructor; simpl; intuition discriminate. }
  assert (Href : lines_reference_orders sample_db) by (intros l []).
  assert (Hc : sample_checkout
               = (inr (Some "202311142213201482913"), snd sample_checkout))
    by (vm_compute; reflexivity).
  split; [exact Hnd|]. split; [exact Href|]. split; [exact Hc|].
  destruct (@detail_after_create sample_config sample_env 1 None None
              (Some "{}") false None "platform" sample_db
              (snd sample_checkout) "202311142213201482913" Hnd Href Hc)
    as (d & _ & Hr & _ & _ & _ & _ & Hlen & Haddr).
  exists d. split; [exact Hr|]. split; [exact Hlen | exact (Haddr eq_refl)].
Defined.

(** ** [list_by_user] *)

Lemma insert_desc_perm (o : Order) (l : list Order) :
  Permutation (OrderManager.insert_desc o l) (o :: l).
Proof.
  induction l as [|x l IH]; simpl; [apply Permutation_refl|].
  destruct (o_created_at x <? o_created_at o); [apply Permutation_refl|].
  apply (Permutation_trans (perm_skip x IH)). apply perm_swap.
Qed.

Lemma newest_first_perm (l : list Order) :
  Permutation (OrderManager.newest_first l) l.
Proof.
  induction l as [|o l IH]; simpl; [apply perm_nil|].
  apply (Permutation_trans (insert_desc_perm o _)). apply perm_skip. exact IH.
Qed.

Lemma insert_desc_sorted (o : Order) (l : list Order) :
  StronglySorted not_older l ->
  StronglySorted not_older (OrderManager.insert_desc o l).
Proof.
  induction l as [|x l IH]; intros Hs; simpl.
  - constructor; constructor.
  - apply StronglySorted_inv in Hs. destruct Hs as [Hl Hx].
    destruct (o_created_at x <? o_created_at o) eqn:E.
    + apply Z.ltb_lt in E. constructor.
      * constructor; assumption.
      * constructor; [unfold not_older; lia|].
        eapply Forall_impl; [|exact Hx].
        intros a Ha. unfold not_older in *. lia.
    + apply Z.ltb_ge in E. constructor; [exact (IH Hl)|].
      apply Forall_forall. intros a Ha.
      apply insert_desc_In in Ha. destruct Ha as [->|Ha].
      * exact E.
      * rewrite Forall_forall in Hx. exact (Hx a Ha).
Qed.

Lemma newest_first_sorted (l : list Order) :
  StronglySorted not_older (OrderManager.newest_first l).
Proof.
  induction l as [|o l IH]; simpl; [constructor|].
  apply insert_desc_sorted. exact IH.
Qed.

(** X8. [list_by_user] always answers, changes nothing, and returns the
    user's orders (only those in the given status when a non-empty status
    is given; [None] and the empty string do not filter), each exactly
    once and newest first.  Every entry carries the order's refund_reason
    as its specifications and the first joined order line as its first
    product. *)
Theorem list_by_user_newest_first
  (user_id : Z) (status : option string) (db : DB) :
  exists l,
    OrderManager.list_by_user user_id status db = (inr l, db) /\
    Permutation (map OrderManager.summary_order l)
                (filter (listed user_id status) (orders db)) /\
    StronglySorted not_older (map OrderManager.summary_order l) /\
    Forall (fun s =>
              OrderManager.summary_specifications s
                = o_refund_reason (OrderManager.summary_order s) /\
              OrderManager.first_product s
                = hd_error (OrderManager.select_lines
                              (o_id (OrderManager.summary_order s)) db)) l.
Proof.
  unfold OrderManager.list_by_user, get_conn.
  unfold bind at 1. unfold query at 1. cbn [working].
  rewrite map_tx_summaries. cbn [working committed].
  eexists. split; [reflexivity|].
  rewrite map_map. cbn [OrderManager.summary_order]. rewrite map_id.
  split; [apply newest_first_perm|]. split; [apply newest_first_sorted|].
  apply Forall_forall. intros s Hs. apply in_map_iff in Hs.
  destruct Hs as [o [<- _]]. split; reflexivity.
Qed.

(** ** [update_status] and [order_pay], further *)

Lemma opt_string_eqb_eq (a b : option string) :
  opt_string_eqb a b = true <-> a = b.
Proof.
  destruct a as [x|], b as [y|]; simpl; try (split; congruence).
  rewrite String.eqb_eq. split; congruence.
Qed.

Lemma set_status_and_reason_twice (n s : string) (reason : option string)
  (o : Order) :
  OrderManager.set_status_and_reason n s reason
    (OrderManager.set_status_and_reason n s reason o)
  = OrderManager.set_status_and_reason n s reason o.
Proof.
  unfold OrderManager.set_status_and_reason.
  destruct (opt_is (o_order_number o) n) eqn:E; simpl; rewrite E; reflexivity.
Qed.

Lemma set_status_and_reason_settled (n s : string) (reason : option string)
  (o : Order) :
  let o' := OrderManager.set_status_and_reason n s reason o in
  opt_is (o_order_number o') n &&
  negb (String.eqb (o_status o') s && opt_string_eqb (o_refund_reason o') reason)
  = false.
Proof.
  cbv zeta. unfold OrderManager.set_status_and_reason.
  destruct (opt_is (o_order_number o) n) eqn:E; simpl; rewrite E;
    [|reflexivity].
  rewrite String.eqb_refl, (proj2 (opt_string_eqb_eq reason reason) eq_refl).
  reflexivity.
Qed.

(** X9. [update_status] reports whether it changed a row: it returns
    true exactly when some order with the given number differs from the
    requested status or reason, so an unknown order number gives false.
    It is idempotent: the same call once more changes nothing and
    returns false. *)
Theorem update_status_twice (n s : string) (reason : option string) (db : DB) :
  exists ok db1,
    OrderManager.update_status n s reason db = (inr ok, db1) /\
    (ok = true <->
     exists o, In o (orders db) /\ o_order_number o = Some n /\
               (o_status o <> s \/ o_refund_reason o <> reason)) /\
    OrderManager.update_status n s reason db1 = (inr false, db1).
Proof.
  rewrite update_status_cases. eexists. eexists. split; [reflexivity|]. split.
  - unfold OrderManager.changed_rows. rewrite Z.ltb_lt. split.
    + intros Hpos.
      destruct (filter _ (orders db)) as [|o l] eqn:Ef; [simpl in Hpos; lia|].
      assert (Hin : In o (filter (fun o =>
                 opt_is (o_order_number o) n &&
                 negb (String.eqb (o_status o) s &&
                       opt_string_eqb (o_refund_reason o) reason)) (orders db)))
        by (rewrite Ef; left; reflexivity).
      apply filter_In in Hin. destruct Hin as [Hin Hc].
      apply andb_true_iff in Hc. destruct Hc as [Hn Hd].
      exists o. split; [exact Hin|]. split; [apply opt_is_true; exact Hn|].
      apply negb_true_iff, andb_false_iff in Hd. destruct Hd as [Hd|Hd].
      * left. intros E. apply String.eqb_eq in E. congruence.
      * right. intros E. apply opt_string_eqb_eq in E. congruence.
    + intros (o & Hin & Hn & Hd).
      assert (Hf : In o (filter (fun o =>
                 opt_is (o_order_number o) n &&
                 negb (String.eqb (o_status o) s &&
                       opt_string_eqb (o_refund_reason o) reason)) (orders db))).
      { apply filter_In. split; [exact Hin|].
        rewrite (proj2 (opt_is_true _ _) Hn). simpl.
        apply negb_true_iff, andb_false_iff. destruct Hd as [Hd|Hd].
        - left. apply String.eqb_neq. exact Hd.
        - right. destruct (opt_string_eqb (o_refund_reason o) reason) eqn:E;
            [|reflexivity].
          apply opt_string_eqb_eq in E. contradiction. }
      destruct (filter _ (orders db)); [contradiction | simpl; lia].
  - rewrite update_status_cases. f_equal.
    + f_equal. unfold OrderManager.changed_rows. cbn [orders set_orders].
      rewrite filter_none; [reflexivity|].
      intros o Hin. apply in_map_iff in Hin. destruct Hin as [o0 [<- _]].
      apply set_status_and_reason_settled.
    + unfold set_orders. cbn [orders users products product_skus
        skus_have_stock cart order_items order_split finance_accounts
        account_flow refunds].
      rewrite map_map. f_equal. apply map_ext. intros o.
      apply set_status_and_reason_twice.
Qed.

Lemma set_status_and_reason_keeps (n s : string) (reason : option string)
  (o : Order) :
  let o' := OrderManager.set_status_and_reason n s reason o in
  o_id o' = o_id o /\ o_order_number o' = o_order_number o /\
  o_user_id o' = o_user_id o /\ o_total_amount o' = o_total_amount o /\
  o_pay_way o' = o_pay_way o /\ o_auto_recv_time o' = o_auto_recv_time o.
Proof.
  cbv zeta. unfold OrderManager.set_status_and_reason.
  destruct (opt_is (o_order_number o) n); repeat split.
Qed.

(** X10. [order_pay] never stores the payment method it is given: after
    it, whatever the method (allowed or not), every order has the payment
    method, id, number, owner, total and deadline it had before, and no
    order is added or removed. *)
Theorem order_pay_never_stores_pay_way
  (VALID_PAY_WAYS : list string) (n pay_way : string) (db : DB) :
  let db' := snd (order_pay VALID_PAY_WAYS n pay_way db) in
  map o_pay_way (orders db') = map o_pay_way (orders db) /\
  map o_id (orders db') = map o_id (orders db) /\
  map o_order_number (orders db') = map o_order_number (orders db) /\
  map o_user_id (orders db') = map o_user_id (orders db) /\
  map o_total_amount (orders db') = map o_total_amount (orders db) /\
  map o_auto_recv_time (orders db') = map o_auto_recv_time (orders db).
Proof.
  cbv zeta. unfold order_pay.
  destruct (existsb (String.eqb pay_way) VALID_PAY_WAYS);
    [|repeat split; reflexivity].
  rewrite update_status_cases. cbn [snd orders set_orders].
  rewrite !map_map.
  repeat split; apply map_ext; intros o;
    apply (set_status_and_reason_keeps n "pending_ship" None o).
Qed.

(** ** The refund workflow, further *)

Lemma progress_cases (n : string) (db : DB) :
  RefundManager.progress n db = (inr (RefundManager.select_refund n db), db).
Proof. reflexivity. Qed.

Lemma audited_orders (n : string) (approve : bool) (rr : option string) (db : DB) :
  orders (audited n approve rr db)
  = if approve then map (RefundManager.mark_refunded n) (orders db)
    else orders db.
Proof.
  unfold audited. destruct approve; [|reflexivity].
  unfold reverse_split_on_refund.
  rewrite (fold_left_frame orders) by reflexivity. reflexivity.
Qed.

(** X11. The refund row can be read back: after an application for an
    order number that had none, [progress] returns the row as applied
    (type and reason as given, status 'applied', no reject reason); after
    an audit of that application it returns the same row with status
    'success' or 'rejected' and the reject reason given to the audit. *)
Theorem progress_follows_workflow
  (n t r : string) (approve : bool) (rr : option string) (db : DB) :
  RefundManager.select_refund n db = None ->
  let db1 := snd (RefundManager.apply n t r db) in
  let db2 := snd (RefundManager.audit n approve rr db1) in
  RefundManager.progress n db1
    = (inr (Some {| r_order_number := n; r_refund_type := t; r_reason := r;
                    r_status := "applied"; r_reject_reason := None |}), db1) /\
  RefundManager.progress n db2
    = (inr (Some {| r_order_number := n; r_refund_type := t; r_reason := r;
                    r_status := if approve then "success" else "rejected";
                    r_reject_reason := rr |}), db2).
Proof.
  intros Hnone. cbv zeta. rewrite apply_cases, Hnone. cbn [snd].
  rewrite audit_cases. cbn [snd]. rewrite !progress_cases.
  set (row := {| r_order_number := n; r_refund_type := t; r_reason := r;
                 r_status := "applied"; r_reject_reason := None |}).
  assert (H1 : RefundManager.select_refund n
                 (set_refunds (fun l => l ++ [row]) db) = Some row).
  { unfold RefundManager.select_refund. cbn [refunds set_refunds].
    apply find_snoc.
    - unfold RefundManager.select_refund in Hnone.
      destruct (existsb _ (refunds db)) eqn:E; [|reflexivity].
      apply existsb_exists in E. destruct E as [x [Hin Hx]].
      rewrite (find_none _ _ Hnone x Hin) in Hx. discriminate.
    - simpl. apply String.eqb_refl. }
  split; [rewrite H1; reflexivity|].
  f_equal. unfold RefundManager.select_refund.
  rewrite audited_refunds.
  rewrite find_map_same_key
    by (intros x; rewrite set_refund_status_number; reflexivity).
  fold (RefundManager.select_refund n (set_refunds (fun l => l ++ [row]) db)).
  rewrite H1. simpl. unfold RefundManager.set_refund_status. simpl.
  rewrite String.eqb_refl. reflexivity.
Qed.

Lemma progress_follows_workflow_witness :
  RefundManager.select_refund "A1" sample_shipped = None /\
  RefundManager.progress "A1"
    (snd (RefundManager.audit "A1" false (Some "used")
            (snd (RefundManager.apply "A1" "return" "damaged" sample_shipped))))
  = (inr (Some {| r_order_number := "A1"; r_refund_type := "return";
                  r_reason := "damaged"; r_status := "rejected";
                  r_reject_reason := Some "used" |}),
     snd (RefundManager.audit "A1" false (Some "used")
            (snd (RefundManager.apply "A1" "return" "damaged" sample_shipped)))).
Proof.
  split; [reflexivity|].
  exact (proj2 (@progress_follows_workflow "A1" "return" "damaged" false
                  (Some "used") sample_shipped eq_refl)).
Defined.

(** X12. [audit] does not look for an application: approving a refund
    for an order number that has no refund row still returns true, moves
    the order to status 'refund', and stores no refund row, so [progress]
    keeps returning nothing for that order. *)
Theorem audit_without_application
  (n : string) (rr : option string) (db : DB) :
  RefundManager.select_refund n db = None ->
  exists db',
    RefundManager.audit n true rr db = (inr true, db') /\
    refunds db' = refunds db /\
    RefundManager.progress n db' = (inr None, db') /\
    (forall o, In o (orders db) -> o_order_number o = Some n ->
       exists o', In o' (orders db') /\ o_id o' = o_id o /\
                  o_status o' = "refund").
Proof.
  intros Hnone. exists (audited n true rr db).
  split; [apply audit_cases|].
  assert (Hr : refunds (audited n true rr db) = refunds db).
  { rewrite audited_refunds. rewrite <- (map_id (refunds db)) at 2.
    apply map_ext_in. intros x Hin.
    unfold RefundManager.set_refund_status.
    unfold RefundManager.select_refund in Hnone.
    rewrite (find_none _ _ Hnone x Hin). reflexivity. }
  split; [exact Hr|]. split.
  - rewrite progress_cases. unfold RefundManager.select_refund. rewrite Hr.
    fold (RefundManager.select_refund n db). rewrite Hnone. reflexivity.
  - intros o Hin Hn. exists (RefundManager.mark_refunded n o).
    rewrite audited_orders. split; [apply in_map; exact Hin|].
    unfold RefundManager.mark_refunded.
    rewrite (proj2 (opt_is_true _ _) Hn). simpl. auto.
Qed.

Lemma audit_without_application_witness :
  RefundManager.select_refund "A1" sample_shipped = None /\
  exists db',
    RefundManager.audit "A1" true None sample_shipped = (inr true, db') /\
    refunds db' = [] /\
    map o_status (orders db') = ["refund"; "pending_recv"; "pending_recv"].
Proof.
  split; [reflexivity|].
  destruct (@audit_without_application "A1" None sample_shipped eq_refl)
    as (db' & Ha & Hr & _).
  exists db'. split; [exact Ha|]. split; [exact Hr|].
  rewrite audit_cases in Ha. injection Ha as <-. vm_compute. reflexivity.
Defined.

(** X13. A rejection does not undo an approval: when a refund is audited
    with approve true and then again with approve false, the second audit
    leaves orders and ledger exactly as the first left them, so the order
    stays in status 'refund' and the reversal stays booked, while the
    refund rows of the order now read 'rejected'. *)
Theorem reject_after_approve
  (n : string) (rr1 rr2 : option string) (db : DB) :
  let db1 := snd (RefundManager.audit n true rr1 db) in
  let db2 := snd (RefundManager.audit n false rr2 db1) in
  orders db2 = orders db1 /\
  account_flow db2 = account_flow db1 /\
  finance_accounts db2 = finance_accounts db1 /\
  (forall o, In o (orders db2) -> o_order_number o = Some n ->
             o_status o = "refund") /\
  Forall (fun r => r_status r = "rejected" /\ r_reject_reason r = rr2)
         (refunds_of n db2).
Proof.
  cbv zeta. rewrite !audit_cases. cbn [snd].
  split; [reflexivity|]. split; [reflexivity|]. split; [reflexivity|]. split.
  - intros o Hin Hn. change (orders (audited n false rr2 (audited n true rr1 db)))
      with (orders (audited n true rr1 db)) in Hin.
    rewrite audited_orders in Hin. apply in_map_iff in Hin.
    destruct Hin as [o0 [<- _]]. apply mark_refunded_status. exact Hn.
  - unfold refunds_of. rewrite audited_refunds, filter_map_commute
      by (intros x; rewrite set_refund_status_number; reflexivity).
    apply Forall_forall. intros r Hr.
    apply in_map_iff in Hr. destruct Hr as [r0 [<- Hr0]].
    apply filter_In in Hr0. destruct Hr0 as [_ Hm].
    unfold RefundManager.set_refund_status. rewrite Hm. split; reflexivity.
Qed.

(** ** The scheduler, further *)

Lemma completed_all_map (done : list Order) :
  forall l, completed_all done l = map (mark_all done) l.
Proof.
  unfold completed_all, mark_all.
  induction done as [|r done IH]; intros l; simpl.
  - symmetry. apply map_id.
  - rewrite IH, map_map. reflexivity.
Qed.

Lemma mark_completed_same (o : Order) :
  mark_completed (o_id o) (mark_completed (o_id o) o) = mark_completed (o_id o) o.
Proof. unfold mark_completed. rewrite Z.eqb_refl. simpl. rewrite Z.eqb_refl. reflexivity. Qed.

Lemma mark_completed_again (i : Z) (o : Order) :
  mark_completed i (mark_completed (o_id o) o) = mark_completed (o_id o) o.
Proof.
  unfold mark_completed at 1.
  replace (o_id (mark_completed (o_id o) o)) with (o_id o)
    by (unfold mark_completed; rewrite Z.eqb_refl; reflexivity).
  destruct (o_id o =? i) eqn:E; [|reflexivity].
  apply Z.eqb_eq in E. subst i.
  unfold mark_completed. rewrite Z.eqb_refl. reflexivity.
Qed.

Lemma mark_all_completed (done : list Order) (o : Order) :
  mark_all done (mark_completed (o_id o) o) = mark_completed (o_id o) o.
Proof.
  unfold mark_all. induction done as [|r done IH]; simpl; [reflexivity|].
  rewrite mark_completed_again. exact IH.
Qed.

Lemma mark_all_cases (done : list Order) (o : Order) :
  mark_all done o
  = if id_among done o then mark_completed (o_id o) o else o.
Proof.
  unfold id_among. revert o. induction done as [|r done IH]; intros o;
    [reflexivity|].
  change (mark_all (r :: done) o)
    with (mark_all done (mark_completed (o_id r) o)).
  cbn [existsb]. destruct (o_id r =? o_id o) eqn:E.
  - apply Z.eqb_eq in E. rewrite E. simpl. apply mark_all_completed.
  - simpl. unfold mark_completed at 1. rewrite Z.eqb_sym, E. apply IH.
Qed.

Lemma due_after_mark (now : Z) (done : list Order) (o : Order) :
  (String.eqb (o_status o) "pending_recv" && (o_auto_recv_time o <=? now)
     = true -> id_among done o = true) ->
  String.eqb (o_status (mark_all done o)) "pending_recv"
    && (o_auto_recv_time (mark_all done o) <=? now) = false.
Proof.
  intros H. rewrite mark_all_cases.
  destruct (id_among done o) eqn:E.
  - unfold mark_completed. rewrite Z.eqb_refl. reflexivity.
  - destruct (String.eqb (o_status o) "pending_recv"
              && (o_auto_recv_time o <=? now)); [|reflexivity].
    specialize (H eq_refl). discriminate.
Qed.

Lemma id_among_self (done : list Order) (o : Order) :
  In o done -> id_among done o = true.
Proof.
  intros H. unfold id_among. apply existsb_exists.
  exists o. split; [exact H | apply Z.eqb_refl].
Qed.

Section TickMore.

Variable settle_to_merchant : Z -> DB -> Exception + DB.

Hypothesis settle_keeps_orders :
  forall amount db db',
    settle_to_merchant amount db = inr db' -> orders db' = orders db.

Lemma tick_cases (now : Z) (db : DB) :
  exists done rest res db',
    due_orders now db = done ++ rest /\
    auto_receive_tick settle_to_merchant now db = (res, db') /\
    orders db' = map (mark_all done) (orders db) /\
    (res = None -> rest = []).
Proof.
  destruct (receive_loop settle_to_merchant settle_keeps_orders
              (due_orders now db) db)
    as (done & rest & r & c & Hrows & Hrun & Ho & Hok & _).
  exists done, rest, (match r with inl e => Some e | inr _ => None end),
    (committed c).
  split; [exact Hrows|]. split; [|split].
  - unfold auto_receive_tick, get_conn. unfold bind at 1. unfold query at 1.
    cbn [working]. rewrite Hrun. destruct r; reflexivity.
  - rewrite Ho. apply completed_all_map.
  - destruct r as [e|u]; [discriminate|]. intros _. exact (Hok u eq_refl).
Qed.

Lemma nothing_due_tick (now : Z) (db : DB) :
  due_orders now db = [] ->
  auto_receive_tick settle_to_merchant now db = (None, db).
Proof.
  intros H. unfold auto_receive_tick, get_conn. unfold bind at 1.
  unfold query at 1. cbn [working]. rewrite H. reflexivity.
Qed.

(** X14. No order is settled twice: after a tick in which no settlement
    failed, no order is due any more at that time, and running the tick
    again calls no settlement and leaves the database as it is. *)
Theorem second_tick_does_nothing (now : Z) (db db' : DB) :
  auto_receive_tick settle_to_merchant now db = (None, db') ->
  due_orders now db' = [] /\
  auto_receive_tick settle_to_merchant now db' = (None, db').
Proof.
  intros Ht.
  destruct (tick_cases now db) as (done & rest & res & db1 & Hrows & Hrun & Ho & Hn).
  rewrite Hrun in Ht. injection Ht as -> ->.
  rewrite (Hn eq_refl), app_nil_r in Hrows.
  assert (Hdue : due_orders now db' = []).
  { unfold due_orders. rewrite Ho. apply filter_none.
    intros o' Hin. apply in_map_iff in Hin. destruct Hin as [o [<- Hin]].
    apply due_after_mark. intros Hd. apply id_among_self.
    rewrite <- Hrows. unfold due_orders. apply filter_In. auto. }
  split; [exact Hdue | exact (nothing_due_tick now db' Hdue)].
Qed.

(** X15. A tick neither adds nor removes an order and changes nothing of
    an order but its status: the columns of ids, order numbers, owners,
    totals and deadlines are as before, every order after the tick is
    'completed' or is an order as stored before, and an order whose id is
    not the id of a due order is left exactly as it was. *)
Theorem tick_changes_only_statuses (now : Z) (db : DB) :
  let db' := snd (auto_receive_tick settle_to_merchant now db) in
  map o_id (orders db') = map o_id (orders db) /\
  map o_order_number (orders db') = map o_order_number (orders db) /\
  map o_user_id (orders db') = map o_user_id (orders db) /\
  map o_total_amount (orders db') = map o_total_amount (orders db) /\
  map o_auto_recv_time (orders db') = map o_auto_recv_time (orders db) /\
  Forall (fun o' => o_status o' = "completed" \/ In o' (orders db))
         (orders db') /\
  (forall o, In o (orders db) ->
     (forall r, In r (due_orders now db) -> o_id r <> o_id o) ->
     In o (orders db')).
Proof.
  cbv zeta.
  destruct (tick_cases now db) as (done & rest & res & db1 & Hrows & Hrun & Ho & _).
  rewrite Hrun. cbn [snd]. rewrite Ho, !map_map.
  assert (Hk : forall o,
            o_id (mark_all done o) = o_id o /\
            o_order_number (mark_all done o) = o_order_number o /\
            o_user_id (mark_all done o) = o_user_id o /\
            o_total_amount (mark_all done o) = o_total_amount o /\
            o_auto_recv_time (mark_all done o) = o_auto_recv_time o).
  { intros o. rewrite mark_all_cases. unfold mark_completed.
    rewrite Z.eqb_refl. destruct (id_among done o); repeat split. }
  repeat split; try (apply map_ext; intros o; apply Hk).
  - apply Forall_forall. intros o' Hin. apply in_map_iff in Hin.
    destruct Hin as [o [<- Hin]]. rewrite mark_all_cases.
    destruct (id_among done o).
    + left. unfold mark_completed. rewrite Z.eqb_refl. reflexivity.
    + right. exact Hin.
  - intros o Hin Hfree.
    replace o with (mark_all done o) at 1; [apply in_map; exact Hin|].
    rewrite mark_all_cases. destruct (id_among done o) eqn:E; [|reflexivity].
    unfold id_among in E. apply existsb_exists in E.
    destruct E as [r [Hr Hid]]. apply Z.eqb_eq in Hid. exfalso.
    apply (Hfree r); [|exact Hid].
    rewrite Hrows. apply in_or_app. left. exact Hr.
Qed.

End TickMore.

Lemma second_tick_does_nothing_witness :
  auto_receive_tick (fun amount db => inr db) 1000 sample_shipped
  = (None, snd (auto_receive_tick (fun amount db => inr db) 1000 sample_shipped)) /\
  due_orders 1000
    (snd (auto_receive_tick (fun amount db => inr db) 1000 sample_shipped)) = [].
Proof.
  assert (H : auto_receive_tick (fun amount db => inr db) 1000 sample_shipped
    = (None, snd (auto_receive_tick (fun amount db => inr db) 1000 sample_shipped)))
    by (vm_compute; reflexivity).
  split; [exact H|].
  exact (proj1 (@second_tick_does_nothing (fun amount db => inr db)
                  (fun amount db db' (E : inr db = inr db') =>
                     f_equal orders
                       (eq_sym (f_equal (fun x => match x with
                                                  | inr d => d
                                                  | inl _ => db
                                                  end) E)))
                  1000 sample_shipped _ H)).
Defined.

Lemma tick_changes_only_statuses_witness :
  map o_total_amount
      (orders (snd (auto_receive_tick sample_settle 1000 sample_shipped)))
  = [500; 1300; 20000].
Proof.
  rewrite (proj1 (proj2 (proj2 (proj2
            (@tick_changes_only_statuses sample_settle
               sample_settle_keeps_orders 1000 sample_shipped))))).
  reflexivity.
Defined.

(** ** The loop of [database_setup.auto_receive_task] *)

Lemma setup_receive_loop (rows : list Order) :
  forall db : DB,
  for_each DatabaseSetup.receive_one rows {| committed := db; working := db |}
  = let db' := fold_left (fun d r =>
                 set_orders (map (mark_completed (o_id r))) d) rows db in
    (inr tt, {| committed := db'; working := db' |}).
Proof.
  induction rows as [|r rows IH]; intros db; simpl; [reflexivity|].
  unfold bind at 1. unfold DatabaseSetup.receive_one at 1.
  unfold bind at 1. unfold execute at 1. unfold commit at 1.
  cbn [working committed]. apply IH.
Qed.

(** X16. The copy of the auto-receive loop in [database_setup.py] has no
    settlement call: one pass of it never reports an exception, marks
    every due order completed so that none is due afterwards, and leaves
    the ledger (account flows and account balances) and every table but
    orders untouched. *)
Theorem setup_tick_completes_without_settlement (now : Z) (db : DB) :
  exists db',
    DatabaseSetup.auto_receive_tick now db = (None, db') /\
    orders db' = map (mark_all (due_orders now db)) (orders db) /\
    due_orders now db' = [] /\
    account_flow db' = account_flow db /\
    finance_accounts db' = finance_accounts db /\
    order_split db' = order_split db /\
    order_items db' = order_items db /\
    refunds db' = refunds db.
Proof.
  unfold DatabaseSetup.auto_receive_tick, get_conn.
  unfold bind at 1. unfold query at 1. cbn [working].
  rewrite setup_receive_loop. cbv zeta. cbn [committed].
  set (rows := due_orders now db).
  eexists. split; [reflexivity|].
  assert (Ho : orders (fold_left (fun d r =>
                  set_orders (map (mark_completed (o_id r))) d) rows db)
               = map (mark_all rows) (orders db)).
  { rewrite <- completed_all_map. unfold completed_all.
    generalize db. induction rows as [|r l IH]; intros d; [reflexivity|].
    simpl. rewrite IH. reflexivity. }
  split; [exact Ho|]. split.
  - unfold due_orders at 1. rewrite Ho. apply filter_none.
    intros o' Hin. apply in_map_iff in Hin. destruct Hin as [o [<- Hin]].
    apply due_after_mark. intros Hd. apply id_among_self.
    unfold rows, due_orders. apply filter_In. auto.
  - repeat split;
      match goal with
      | |- ?g (fold_left _ _ _) = _ => apply (fold_left_frame g); reflexivity
      end.
Qed.

(** ** [CartManager] *)

Lemma cart_add_cases (json_dumps : list (string * string) -> string)
  (u p q : Z) (spec : option (list (string * string))) (db : DB) :
  CartManager.add json_dumps u p q spec db =
  if negb (existsb (Z.eqb u) (users db))
  then (inl (CartHTTPException 404 (UsersRowMissing u)), db)
  else match select_product p db with
       | None => (inl (CartHTTPException 404 (ProductsRowMissing p)), db)
       | Some _ =>
           match find (fun s => s_product_id s =? p) (product_skus db) with
           | None => (inl (CartHTTPException 404 (SkuRowMissing p)), db)
           | Some sku =>
               (inr true,
                match find (CartManager.entry_of u p) (cart db) with
                | Some _ =>
                    set_cart (map (CartManager.add_quantity u p q
                                     (stored_spec json_dumps spec))) db
                | None =>
                    set_cart (fun l => l ++
                      [ {| c_user_id := u; c_product_id := p;
                           c_sku_id := s_id sku; c_quantity := q;
                           c_selected := 1;
                           c_specifications := stored_spec json_dumps spec |} ])
                      db
                end)
           end
       end.
Proof.
  unfold CartManager.add, Raising.get_conn.
  unfold Raising.bind at 1. unfold Raising.query at 1. cbn [working].
  destruct (existsb (Z.eqb u) (users db)); [|reflexivity]. cbn [negb].
  unfold Raising.bind at 1. unfold Raising.query at 1. cbn [working].
  destruct (select_product p db); [|reflexivity].
  unfold Raising.bind at 1. unfold Raising.query at 1. cbn [working].
  destruct (find _ (product_skus db)) as [sku|]; [|reflexivity].
  cbv zeta.
  unfold Raising.bind at 1. unfold Raising.query at 1. cbn [working].
  destruct (find _ (cart db)); reflexivity.
Qed.

(** X17. [CartManager.add] validates what it references, in this order:
    the user, the product, and a SKU row of the product.  When one is
    missing it raises the 404 exception naming the table and writes
    nothing; when all three are there it returns true. *)
Theorem cart_add_validates (json_dumps : list (string * string) -> string)
  (u p q : Z) (spec : option (list (string * string))) (db : DB) :
  let user_ok := existsb (Z.eqb u) (users db) in
  let product_ok := existsb (fun x => p_id x =? p) (products db) in
  let sku_ok := existsb (fun s => s_product_id s =? p) (product_skus db) in
  (user_ok = false ->
   CartManager.add json_dumps u p q spec db
   = (inl (CartHTTPException 404 (UsersRowMissing u)), db)) /\
  (user_ok = true -> product_ok = false ->
   CartManager.add json_dumps u p q spec db
   = (inl (CartHTTPException 404 (ProductsRowMissing p)), db)) /\
  (user_ok = true -> product_ok = true -> sku_ok = false ->
   CartManager.add json_dumps u p q spec db
   = (inl (CartHTTPException 404 (SkuRowMissing p)), db)) /\
  (user_ok = true -> product_ok = true -> sku_ok = true ->
   exists db', CartManager.add json_dumps u p q spec db = (inr true, db')).
Proof.
  cbv zeta. rewrite cart_add_cases.
  assert (Hp : existsb (fun x => p_id x =? p) (products db) = false ->
               select_product p db = None).
  { intros H. unfold select_product.
    destruct (find _ (products db)) as [x|] eqn:E; [|reflexivity].
    apply find_some in E. destruct E as [Hin Hx].
    assert (Hex : existsb (fun x => p_id x =? p) (products db) = true)
      by (apply existsb_exists; eauto).
    congruence. }
  assert (Hp' : existsb (fun x => p_id x =? p) (products db) = true ->
                exists x, select_product p db = Some x).
  { intros H. unfold select_product. apply existsb_exists in H.
    destruct H as [x [Hin Hx]].
    destruct (find _ (products db)) as [y|] eqn:E; [eauto|].
    rewrite (find_none _ _ E x Hin) in Hx. discriminate. }
  assert (Hs : existsb (fun s => s_product_id s =? p) (product_skus db) = false ->
               find (fun s => s_product_id s =? p) (product_skus db) = None).
  { intros H. destruct (find _ (product_skus db)) as [x|] eqn:E; [|reflexivity].
    apply find_some in E. destruct E as [Hin Hx].
    assert (Hex : existsb (fun s => s_product_id s =? p) (product_skus db) = true)
      by (apply existsb_exists; eauto).
    congruence. }
  assert (Hs' : existsb (fun s => s_product_id s =? p) (product_skus db) = true ->
                exists x, find (fun s => s_product_id s =? p) (product_skus db)
                          = Some x).
  { intros H. apply existsb_exists in H. destruct H as [x [Hin Hx]].
    destruct (find _ (product_skus db)) as [y|] eqn:E; [eauto|].
    rewrite (find_none _ _ E x Hin) in Hx. discriminate. }
  split; [|split; [|split]].
  - intros ->. reflexivity.
  - intros -> H. rewrite (Hp H). reflexivity.
  - intros -> H1 H2. destruct (Hp' H1) as [x ->]. rewrite (Hs H2). reflexivity.
  - intros -> H1 H2. destruct (Hp' H1) as [x ->]. destruct (Hs' H2) as [y ->].
    eexists. reflexivity.
Qed.

Lemma cart_add_validates_witness :
  existsb (Z.eqb 7) (users sample_db) = false /\
  CartManager.add sample_dumps 7 10 1 None sample_db
   = (inl (CartHTTPException 404 (UsersRowMissing 7)), sample_db) /\
  CartManager.add sample_dumps 1 12 1 None sample_db
   = (inl (CartHTTPException 404 (ProductsRowMissing 12)), sample_db) /\
  exists db', CartManager.add sample_dumps 1 10 1 None sample_db = (inr true, db').
Proof.
  pose proof (cart_add_validates sample_dumps 7 10 1 None sample_db) as H7.
  pose proof (cart_add_validates sample_dumps 1 12 1 None sample_db) as H12.
  pose proof (cart_add_validates sample_dumps 1 10 1 None sample_db) as H10.
  cbv zeta in H7, H12, H10.
  split; [reflexivity|]. split; [exact (proj1 H7 eq_refl)|].
  split; [exact (proj1 (proj2 H12) eq_refl eq_refl)|].
  exact (proj2 (proj2 (proj2 H10)) eq_refl eq_refl eq_refl).
Defined.

Lemma entry_of_key (u p : Z) (c : CartEntry) :
  CartManager.entry_of u p c = true <-> cart_key c = (u, p).
Proof.
  unfold CartManager.entry_of, cart_key. rewrite andb_true_iff, !Z.eqb_eq.
  split; [intros [-> ->]; reflexivity | intros H; inversion H; auto].
Qed.

Lemma add_quantity_key (u p q : Z) (spec : option string) (c : CartEntry) :
  cart_key (CartManager.add_quantity u p q spec c) = cart_key c.
Proof.
  unfold CartManager.add_quantity.
  destruct (CartManager.entry_of u p c); reflexivity.
Qed.

Lemma add_quantity_other (u p q : Z) (spec : option string) (c : CartEntry) :
  cart_key c <> (u, p) -> CartManager.add_quantity u p q spec c = c.
Proof.
  intros H. unfold CartManager.add_quantity.
  destruct (CartManager.entry_of u p c) eqn:E; [|reflexivity].
  apply entry_of_key in E. contradiction.
Qed.

Lemma unique_key_one_entry (u p : Z) (l : list CartEntry) :
  NoDup (map cart_key l) ->
  filter (CartManager.entry_of u p) l = [] \/
  exists c, filter (CartManager.entry_of u p) l = [c].
Proof.
  induction l as [|c l IH]; intros Hnd; [left; reflexivity|].
  simpl in Hnd. apply NoDup_cons_iff in Hnd. destruct Hnd as [Hc Hnd].
  simpl. destruct (CartManager.entry_of u p c) eqn:E.
  - right. exists c. f_equal. apply filter_none. intros x Hx.
    destruct (CartManager.entry_of u p x) eqn:Ex; [|reflexivity].
    exfalso. apply Hc. apply entry_of_key in E, Ex.
    rewrite E, <- Ex. apply in_map. exact Hx.
  - exact (IH Hnd).
Qed.

Lemma NoDup_snoc {A} (l : list A) (x : A) :
  NoDup l -> ~ In x l -> NoDup (l ++ [x]).
Proof.
  induction l as [|y l IH]; intros Hnd Hx; simpl.
  - constructor; [intros []|constructor].
  - apply NoDup_cons_iff in Hnd. destruct Hnd as [Hy Hnd].
    constructor.
    + intros Hin. apply in_app_or in Hin. destruct Hin as [Hin|[->|[]]].
      * exact (Hy Hin).
      * apply Hx. left. reflexivity.
    + apply IH; [exact Hnd|]. intros H. apply Hx. right. exact H.
Qed.

(** X18. [CartManager.add] keeps one cart entry per user and product and
    accumulates into it.  On a cart with one entry per pair at most, a
    successful add leaves one entry per pair at most and exactly one for
    the user and product added; that entry's quantity is what the pair
    had before plus the quantity added, and its specifications are the
    ones given with this add (none when none are given, whatever was
    stored before); a first add stores the id of the product's first SKU
    row and selects the entry; entries of other pairs are untouched. *)
Theorem cart_add_accumulates (json_dumps : list (string * string) -> string)
  (u p q : Z) (spec : option (list (string * string))) (db db' : DB)
  (ok : bool) :
  NoDup (map cart_key (cart db)) ->
  CartManager.add json_dumps u p q spec db = (inr ok, db') ->
  NoDup (map cart_key (cart db')) /\
  (exists c, entries_of u p db' = [c] /\
             c_specifications c = stored_spec json_dumps spec /\
             (entries_of u p db = [] ->
              c_selected c = 1 /\
              exists sku, find (fun s => s_product_id s =? p) (product_skus db)
                          = Some sku /\ c_sku_id c = s_id sku)) /\
  quantity_in_cart u p db' = quantity_in_cart u p db + q /\
  (forall u' p', (u', p') <> (u, p) ->
     entries_of u' p' db' = entries_of u' p' db).
Proof.
  intros Hnd. rewrite cart_add_cases.
  destruct (negb (existsb (Z.eqb u) (users db))); [discriminate|].
  destruct (select_product p db); [|discriminate].
  destruct (find _ (product_skus db)) as [sku|] eqn:Esku; [|discriminate].
  intros H. injection H as _ <-.
  unfold quantity_in_cart, entries_of.
  destruct (find (CartManager.entry_of u p) (cart db)) as [c0|] eqn:Ef;
    cbn [cart set_cart].
  - (* the pair has an entry *)
    assert (Hone : exists c, filter (CartManager.entry_of u p) (cart db) = [c]).
    { destruct (unique_key_one_entry u p (cart db) Hnd) as [He|Hc]; [|exact Hc].
      apply find_none_filter in He. congruence. }
    destruct Hone as [c Hc].
    assert (Hcm : CartManager.entry_of u p c = true).
    { assert (Hin : In c (filter (CartManager.entry_of u p) (cart db)))
        by (rewrite Hc; left; reflexivity).
      apply filter_In in Hin. tauto. }
    assert (Hfm : forall u' p',
              filter (CartManager.entry_of u' p')
                (map (CartManager.add_quantity u p q (stored_spec json_dumps spec))
                     (cart db))
              = map (CartManager.add_quantity u p q (stored_spec json_dumps spec))
                    (filter (CartManager.entry_of u' p') (cart db))).
    { intros u' p'. apply filter_map_commute. intros x.
      unfold CartManager.add_quantity.
      destruct (CartManager.entry_of u p x); reflexivity. }
    split; [|split; [|split]].
    + rewrite map_map.
      rewrite (map_ext _ cart_key
                 (fun x => add_quantity_key u p q (stored_spec json_dumps spec) x)).
      exact Hnd.
    + rewrite Hfm, Hc. eexists. split; [reflexivity|].
      unfold CartManager.add_quantity. rewrite Hcm.
      split; [reflexivity|]. intros E. discriminate.
    + rewrite Hfm, Hc. simpl. unfold CartManager.add_quantity. rewrite Hcm.
      simpl. lia.
    + intros u' p' Hne. rewrite Hfm.
      rewrite <- (map_id (filter (CartManager.entry_of u' p') (cart db))) at 2.
      apply map_ext_in. intros x Hx. apply filter_In in Hx.
      destruct Hx as [_ Hx]. apply entry_of_key in Hx.
      apply add_quantity_other. congruence.
  - (* the pair has no entry *)
    assert (He : filter (CartManager.entry_of u p) (cart db) = [])
      by (apply find_none_filter; exact Ef).
    assert (Hrow : CartManager.entry_of u p
              {| c_user_id := u; c_product_id := p; c_sku_id := s_id sku;
                 c_quantity := q; c_selected := 1;
                 c_specifications := stored_spec json_dumps spec |} = true)
      by (unfold CartManager.entry_of; simpl; rewrite !Z.eqb_refl; reflexivity).
    split; [|split; [|split]].
    + rewrite map_app. apply NoDup_snoc; [exact Hnd|].
      simpl. intros Hin. apply in_map_iff in Hin.
      destruct Hin as [x [Hk Hx]].
      pose proof (find_none _ _ Ef x Hx) as Hn.
      apply (proj2 (entry_of_key u p x)) in Hk. congruence.
    + rewrite filter_app, He. cbn [filter app]. rewrite Hrow.
      eexists. split; [reflexivity|]. split; [reflexivity|].
      intros _. split; [reflexivity|]. exists sku. split; reflexivity.
    + rewrite filter_app, He. cbn [filter app]. rewrite Hrow. simpl. lia.
    + intros u' p' Hne. rewrite filter_app. cbn [filter].
      destruct (CartManager.entry_of u' p' _) eqn:E.
      * apply entry_of_key in E. unfold cart_key in E. simpl in E. congruence.
      * apply app_nil_r.
Qed.

Lemma cart_add_accumulates_witness :
  NoDup (map cart_key (cart sample_db)) /\
  exists db',
    CartManager.add sample_dumps 1 11 3 None sample_db = (inr true, db') /\
    quantity_in_cart 1 11 db' = quantity_in_cart 1 11 sample_db + 3 /\
    NoDup (map cart_key (cart db')).
Proof.
  assert (Hnd : NoDup (map cart_key (cart sample_db))).
  { simpl. repeat constructor; simpl; intuition discriminate. }
  split; [exact Hnd|]. eexists. split; [vm_compute; reflexivity|].
  destruct (@cart_add_accumulates sample_dumps 1 11 3 None sample_db _ true
              Hnd eq_refl) as (H1 & _ & H3 & _).
  split; [exact H3 | exact H1].
Defined.

Lemma cart_remove_cases (u p : Z) (db : DB) :
  CartManager.remove u p db
  = (inr true,
     set_cart (filter (fun c => negb (CartManager.entry_of u p c))) db).
Proof. reflexivity. Qed.

Lemma filter_twice {A} (f : A -> bool) (l : list A) :
  filter f (filter f l) = filter f l.
Proof.
  apply filter_all. intros x Hx. apply filter_In in Hx. tauto.
Qed.

(** X19. [CartManager.remove] always returns true, also when there is
    nothing to remove.  Afterwards the user has no entry for the product,
    an entry is in the cart exactly when it was there before and belongs
    to another user or product, and removing once more changes
    nothing. *)
Theorem cart_remove_effect (u p : Z) (db : DB) :
  exists db',
    CartManager.remove u p db = (inr true, db') /\
    entries_of u p db' = [] /\
    (forall c, In c (cart db') <-> In c (cart db) /\ cart_key c <> (u, p)) /\
    CartManager.remove u p db' = (inr true, db').
Proof.
  rewrite cart_remove_cases. eexists. split; [reflexivity|].
  unfold entries_of. cbn [cart set_cart]. split; [|split].
  - apply filter_none. intros c Hc. apply filter_In in Hc.
    destruct Hc as [_ Hc]. apply negb_true_iff in Hc. exact Hc.
  - intros c. rewrite filter_In. split; intros [Hin Hk]; (split; [exact Hin|]).
    + intros E. apply (proj2 (entry_of_key u p c)) in E.
      rewrite E in Hk. discriminate.
    + destruct (CartManager.entry_of u p c) eqn:E; [|reflexivity].
      apply entry_of_key in E. contradiction.
  - rewrite cart_remove_cases. f_equal. unfold set_cart.
    cbn [cart users products product_skus skus_have_stock orders order_items
         order_split finance_accounts account_flow refunds].
    rewrite filter_twice. reflexivity.
Qed.

(** X20. Adding a product the user has no entry for and removing it
    again gives back the cart as it was. *)
Theorem cart_add_then_remove (json_dumps : list (string * string) -> string)
  (u p q : Z) (spec : option (list (string * string))) (db db1 : DB)
  (ok : bool) :
  entries_of u p db = [] ->
  CartManager.add json_dumps u p q spec db = (inr ok, db1) ->
  cart (snd (CartManager.remove u p db1)) = cart db.
Proof.
  intros He. rewrite cart_add_cases.
  destruct (negb (existsb (Z.eqb u) (users db))); [discriminate|].
  destruct (select_product p db); [|discriminate].
  destruct (find _ (product_skus db)) as [sku|]; [|discriminate].
  unfold entries_of in He.
  rewrite (proj2 (find_none_filter _ _) He).
  intros H. injection H as _ <-.
  rewrite cart_remove_cases. cbn [snd cart set_cart].
  rewrite filter_app. cbn [filter].
  unfold CartManager.entry_of at 2. cbn [c_user_id c_product_id].
  rewrite !Z.eqb_refl. cbn [andb negb]. rewrite app_nil_r.
  apply filter_all. intros c Hc.
  apply negb_true_iff.
  destruct (CartManager.entry_of u p c) eqn:E; [|reflexivity].
  assert (Hin : In c (filter (CartManager.entry_of u p) (cart db)))
    by (apply filter_In; auto).
  rewrite He in Hin. contradiction.
Qed.

Lemma cart_add_then_remove_witness :
  entries_of 1 11 sample_db_nothing_selected = [] /\
  fst (CartManager.add sample_dumps 1 11 4 None sample_db_nothing_selected)
    = inr true /\
  cart (snd (CartManager.remove 1 11
               (snd (CartManager.add sample_dumps 1 11 4 None
                       sample_db_nothing_selected))))
  = cart sample_db_nothing_selected.
Proof.
  split; [reflexivity|]. split; [reflexivity|].
  apply (@cart_add_then_remove sample_dumps 1 11 4 None
           sample_db_nothing_selected
           (snd (CartManager.add sample_dumps 1 11 4 None
                   sample_db_nothing_selected)) true).
  - reflexivity.
  - vm_compute. reflexivity.
Defined.

(** ** From the cart to the order *)





(** ** [core/table_access.py] *)

Import TableAccess.

Section TableFacts.

Variable upper : string -> string.

Lemma dict_lookup_set {V} (d : list (string * V)) (k : string) (v : V) :
  dict_lookup (dict_set d k v) k = Some v.
Proof.
  induction d as [|[k' v'] d IH]; simpl.
  - rewrite String.eqb_refl. reflexivity.
  - destruct (String.eqb k' k) eqn:E; simpl.
    + rewrite String.eqb_refl. reflexivity.
    + rewrite E. exact IH.
Qed.

Lemma dict_lookup_set_other {V} (d : list (string * V)) (k k2 : string) (v : V) :
  k <> k2 -> dict_lookup (dict_set d k v) k2 = dict_lookup d k2.
Proof.
  intros Hne. induction d as [|[k' v'] d IH]; simpl.
  - destruct (String.eqb k k2) eqn:E; [|reflexivity].
    apply String.eqb_eq in E. contradiction.
  - destruct (String.eqb k' k) eqn:E; simpl.
    + apply String.eqb_eq in E. subst k'.
      destruct (String.eqb k k2) eqn:E2; [|reflexivity].
      apply String.eqb_eq in E2. contradiction.
    + destruct (String.eqb k' k2); [reflexivity | exact IH].
Qed.

Lemma dict_lookup_pop {V} (d : list (string * V)) (k : string) :
  dict_lookup (dict_pop d k) k = None.
Proof.
  unfold dict_pop. induction d as [|[k' v'] d IH]; simpl; [reflexivity|].
  destruct (String.eqb k' k) eqn:E; simpl; [exact IH|].
  rewrite E. exact IH.
Qed.

Lemma cleared_lookup (name : option string) (t : string) (cache : Cache) :
  name = None \/ name = Some t ->
  dict_lookup (clear_table_cache name cache) t = None.
Proof.
  intros [->| ->]; unfold clear_table_cache; [reflexivity|].
  destruct (truthy (Some t)); [apply dict_lookup_pop | reflexivity].
Qed.

(** X22. The structure cache of [get_table_structure].  Once a table's
    structure has been returned with the cache on, every later call with
    the cache on returns that same structure without asking the database,
    whatever the table's columns have become.  A call with the cache off
    reads the database and leaves the cache as it is.  After
    [clear_table_cache] for that table, or for no table, the next call
    reads the database again. *)
Theorem table_structure_cache
  (show1 show2 : string -> option (list Column)) (t : string)
  (cache cache1 : Cache) (s : Structure) :
  get_table_structure upper show1 t true cache = (Some s, cache1) ->
  get_table_structure upper show2 t true cache1 = (Some s, cache1) /\
  get_table_structure upper show2 t false cache1
    = (option_map (structure_of upper) (show2 t), cache1) /\
  (forall name, name = None \/ name = Some t ->
     fst (get_table_structure upper show2 t true (clear_table_cache name cache1))
     = option_map (structure_of upper) (show2 t)).
Proof.
  intros H.
  assert (Hhit : dict_lookup cache1 t = Some s).
  { revert H. unfold get_table_structure.
    destruct (dict_lookup cache t) as [c|] eqn:E.
    - intros H. injection H as <- <-. exact E.
    - destruct (show1 t); [|discriminate].
      intros H. injection H as <- <-. apply dict_lookup_set. }
  split; [|split].
  - unfold get_table_structure. rewrite Hhit. reflexivity.
  - unfold get_table_structure. destruct (show2 t); reflexivity.
  - intros name Hname. unfold get_table_structure.
    rewrite (@cleared_lookup name t cache1 Hname).
    destruct (show2 t); reflexivity.
Qed.

Lemma fold_add_column_fields (columns : list Column) :
  forall acc,
  fields (fold_left (add_column upper) columns acc) = fields acc ++ map Field columns /\
  asset_fields (fold_left (add_column upper) columns acc)
  = asset_fields acc ++
    map Field (filter (fun c => is_numeric (upper (Type_ c))) columns).
Proof.
  induction columns as [|c columns IH]; intros acc; simpl.
  - rewrite !app_nil_r. auto.
  - destruct (IH (add_column upper acc c)) as [Hf Ha]. rewrite Hf, Ha.
    unfold add_column. cbn [fields asset_fields].
    destruct (is_numeric (upper (Type_ c))); simpl;
      rewrite <- ?app_assoc; auto.
Qed.

Lemma fold_add_column_types_other (columns : list Column) (k : string) :
  ~ In k (map Field columns) ->
  forall acc,
  dict_lookup (field_types (fold_left (add_column upper) columns acc)) k
  = dict_lookup (field_types acc) k.
Proof.
  induction columns as [|c columns IH]; intros Hk acc; simpl; [reflexivity|].
  rewrite IH by (intros H; apply Hk; right; exact H).
  unfold add_column. cbn [field_types].
  apply dict_lookup_set_other. intros E. apply Hk. left. exact E.
Qed.

(** X23. What [get_table_structure] computes from the columns: the
    fields are the column names in order; the asset fields are, in the
    same order, the names of the columns whose upper-cased type is
    numeric, so every asset field is a field; and, column names being
    unique, every column's type is recorded upper-cased under its
    name. *)
Theorem structure_of_columns (columns : list Column) :
  fields (structure_of upper columns) = map Field columns /\
  asset_fields (structure_of upper columns)
    = map Field (filter (fun c => is_numeric (upper (Type_ c))) columns) /\
  incl (asset_fields (structure_of upper columns)) (fields (structure_of upper columns)) /\
  (NoDup (map Field columns) ->
   forall c, In c columns ->
     dict_lookup (field_types (structure_of upper columns)) (Field c)
     = Some (upper (Type_ c))).
Proof.
  unfold structure_of.
  destruct (fold_add_column_fields columns
              {| fields := []; asset_fields := []; field_types := [] |})
    as [Hf Ha].
  cbn [fields asset_fields app] in Hf, Ha.
  split; [exact Hf|]. split; [exact Ha|]. split.
  - rewrite Hf, Ha. intros x Hx. apply in_map_iff in Hx.
    destruct Hx as [c [<- Hc]]. apply filter_In in Hc.
    apply in_map. tauto.
  - generalize {| fields := []; asset_fields := []; field_types := [] |}.
    clear Hf Ha. induction columns as [|c0 columns IH];
      intros acc Hnd c Hin; [contradiction|].
    simpl in Hnd. apply NoDup_cons_iff in Hnd. destruct Hnd as [Hc0 Hnd].
    simpl. destruct Hin as [->|Hin].
    + rewrite fold_add_column_types_other by exact Hc0.
      unfold add_column. cbn [field_types]. apply dict_lookup_set.
    + apply IH; assumption.
Qed.

Lemma structure_of_lists (columns : list Column) :
  fields (structure_of upper columns) = map Field columns /\
  asset_fields (structure_of upper columns)
  = map Field (filter (fun c => is_numeric (upper (Type_ c))) columns).
Proof.
  unfold structure_of.
  destruct (fold_add_column_fields columns
              {| fields := []; asset_fields := []; field_types := [] |})
    as [Hf Ha].
  split; assumption.
Qed.

Lemma mem_In (x : string) (l : list string) : mem x l = true <-> In x l.
Proof.
  unfold mem. rewrite existsb_exists. split.
  - intros [y [Hy E]]. apply String.eqb_eq in E. subst y. exact Hy.
  - intros H. exists x. split; [exact H | apply String.eqb_refl].
Qed.

Lemma mem_not_In (x : string) (l : list string) :
  ~ In x l -> mem x l = false.
Proof.
  intros H. destruct (mem x l) eqn:E; [|reflexivity].
  apply mem_In in E. contradiction.
Qed.

Lemma same_name_same_column (columns : list Column) :
  NoDup (map Field columns) ->
  forall c d, In c columns -> In d columns -> Field c = Field d -> c = d.
Proof.
  induction columns as [|c0 columns IH]; intros Hnd c d Hc Hd E;
    [contradiction|].
  simpl in Hnd. apply NoDup_cons_iff in Hnd. destruct Hnd as [Hc0 Hnd].
  destruct Hc as [<-|Hc], Hd as [<-|Hd].
  - reflexivity.
  - exfalso. apply Hc0. rewrite E. apply in_map. exact Hd.
  - exfalso. apply Hc0. rewrite <- E. apply in_map. exact Hc.
  - apply IH; assumption.
Qed.

(** X24. The select list that [build_select_sql] builds from the
    structure of a table with unique column names.  A requested field
    that is not a number literal and not a column of the table is
    replaced by a default: 0 when its lower-cased name contains points,
    balance or amount, NULL otherwise (the test against the asset fields
    never decides, since asset fields are columns).  A column that is
    not named like a number is wrapped in COALESCE(.., 0) exactly when
    its type is numeric, and is selected as it is otherwise; so, with no
    fields requested and no clause given, the statement selects every
    column of the table once, in order.  [build_dynamic_select] on a
    table that is not cached yet builds its statement from the columns
    the database reports and caches their structure. *)
Theorem select_part_of_table
  (isdigit : string -> bool) (lower : string -> string)
  (columns : list Column) :
  NoDup (map Field columns) ->
  let part := fun c : Column =>
    if is_numeric (upper (Type_ c))
    then ("COALESCE(" ++ Field c ++ ", 0) AS " ++ Field c)%string
    else Field c in
  (forall field, isdigit field = false ->
   ~ In field (map Field columns) ->
   select_part isdigit lower (structure_of upper columns) field
   = if existsb (fun w => contains w (lower field))
                ["points"; "balance"; "amount"]
     then ("0 AS " ++ field)%string else ("NULL AS " ++ field)%string) /\
  (forall c, In c columns -> isdigit (Field c) = false ->
   select_part isdigit lower (structure_of upper columns) (Field c) = part c) /\
  ((forall c, In c columns -> isdigit (Field c) = false) ->
   forall table_name,
   build_select_sql isdigit lower table_name (structure_of upper columns)
     None None None None
   = ("SELECT " ++ join ", " (map part columns) ++ " FROM " ++ table_name)
     %string) /\
  (forall show_columns table_name cache w o l fs,
   show_columns table_name = Some columns ->
   dict_lookup cache table_name = None ->
   build_dynamic_select isdigit lower upper show_columns table_name w o l fs cache
   = (Some (build_select_sql isdigit lower table_name
              (structure_of upper columns) w o l fs),
      dict_set cache table_name (structure_of upper columns))).
Proof.
  intros Hnd part. destruct (structure_of_lists columns) as [Hf Ha].
  assert (Hcol : forall c, In c columns -> isdigit (Field c) = false ->
            select_part isdigit lower (structure_of upper columns) (Field c)
            = part c).
  { intros c Hc Hd. unfold select_part. rewrite Hd, Hf, Ha.
    assert (Hm : mem (Field c) (map Field columns) = true).
    { apply mem_In. apply in_map. exact Hc. }
    rewrite Hm. cbn [negb]. unfold part.
    destruct (is_numeric (upper (Type_ c))) eqn:En.
    + assert (Hm2 : mem (Field c)
                      (map Field
                         (filter (fun c => is_numeric (upper (Type_ c)))
                            columns)) = true).
      { apply mem_In. apply in_map. apply filter_In. tauto. }
      rewrite Hm2. reflexivity.
    + rewrite mem_not_In; [reflexivity|].
      intros Hin. apply in_map_iff in Hin.
      destruct Hin as [d [Ed Hdin]]. apply filter_In in Hdin.
      destruct Hdin as [Hdin Hnum].
      assert (d = c).
      { apply (@same_name_same_column columns Hnd); assumption. }
      subst d. congruence. }
  split; [|split; [exact Hcol|split]].
  - intros field Hd Hnot. unfold select_part. rewrite Hd, Hf, Ha.
    rewrite (@mem_not_In _ _ Hnot). cbn [negb].
    rewrite mem_not_In; [reflexivity|].
    intros Hin. apply Hnot. apply in_map_iff in Hin.
    destruct Hin as [c [E Hc]]. apply filter_In in Hc.
    rewrite <- E. apply in_map. tauto.
  - intros Hall table_name. unfold build_select_sql. rewrite Hf.
    rewrite map_map.
    rewrite (@map_ext_in _ _
               (fun c => select_part isdigit lower (structure_of upper columns)
                           (Field c)) part columns);
      [reflexivity|].
    intros c Hc. apply Hcol; [exact Hc | apply Hall; exact Hc].
  - intros show_columns table_name cache w o l fs Hshow Hmiss.
    unfold build_dynamic_select, get_table_structure.
    rewrite Hmiss, Hshow. reflexivity.
Qed.

End TableFacts.

Lemma table_structure_cache_witness :
  let old := fun _ : string => Some [mkColumn "id" "bigint"] in
  let new := fun _ : string =>
               Some [mkColumn "id" "bigint"; mkColumn "stock" "int"] in
  get_table_structure ascii_upper old "product_skus" true []
    = (Some (structure_of ascii_upper [mkColumn "id" "bigint"]),
       [("product_skus", structure_of ascii_upper [mkColumn "id" "bigint"])]) /\
  fst (get_table_structure ascii_upper new "product_skus" true
         [("product_skus", structure_of ascii_upper [mkColumn "id" "bigint"])])
    = Some (structure_of ascii_upper [mkColumn "id" "bigint"]).
Proof.
  cbv zeta.
  assert (H : get_table_structure ascii_upper
                (fun _ : string => Some [mkColumn "id" "bigint"])
                "product_skus" true []
              = (Some (structure_of ascii_upper [mkColumn "id" "bigint"]),
                 [("product_skus", structure_of ascii_upper [mkColumn "id" "bigint"])]))
    by reflexivity.
  split; [exact H|].
  rewrite (proj1 (@table_structure_cache ascii_upper _
             (fun _ : string =>
                Some [mkColumn "id" "bigint"; mkColumn "stock" "int"])
             _ _ _ _ H)).
  reflexivity.
Defined.

Lemma structure_of_columns_witness :
  NoDup (map Field [mkColumn "id" "bigint(20)"; mkColumn "name" "varchar(64)";
                    mkColumn "stock" "int(11)"]) /\
  asset_fields (structure_of ascii_upper [mkColumn "id" "bigint(20)";
                              mkColumn "name" "varchar(64)";
                              mkColumn "stock" "int(11)"])
  = ["id"; "stock"] /\
  dict_lookup (field_types (structure_of ascii_upper [mkColumn "id" "bigint(20)";
                                          mkColumn "name" "varchar(64)";
                                          mkColumn "stock" "int(11)"]))
              "stock" = Some "INT(11)".
Proof.
  assert (Hnd : NoDup (map Field [mkColumn "id" "bigint(20)";
                                  mkColumn "name" "varchar(64)";
                                  mkColumn "stock" "int(11)"])).
  { simpl. repeat constructor; simpl; intuition discriminate. }
  split; [exact Hnd|].
  destruct (structure_of_columns ascii_upper [mkColumn "id" "bigint(20)";
                                  mkColumn "name" "varchar(64)";
                                  mkColumn "stock" "int(11)"])
    as (_ & Ha & _ & Ht).
  split; [rewrite Ha; reflexivity|].
  exact (Ht Hnd (mkColumn "stock" "int(11)")
            (or_intror (or_intror (or_introl eq_refl)))).
Defined.

Lemma select_part_of_table_witness :
  let columns := [mkColumn "id" "bigint(20)"; mkColumn "name" "varchar(64)"] in
  NoDup (map Field columns) /\
  select_part ascii_isdigit ascii_lower (structure_of ascii_upper columns) "member_points"
  = "0 AS member_points" /\
  build_select_sql ascii_isdigit ascii_lower "users" (structure_of ascii_upper columns)
    None None None None
  = "SELECT COALESCE(id, 0) AS id, name FROM users" /\
  build_select_sql ascii_isdigit ascii_lower "users" (structure_of ascii_upper columns)
    (Some "id = %s") None None (Some ["id"; "name"; "member_points"; "avatar"])
  = "SELECT COALESCE(id, 0) AS id, name, 0 AS member_points, NULL AS avatar FROM users WHERE id = %s".
Proof.
  cbv zeta.
  assert (Hnd : NoDup (map Field [mkColumn "id" "bigint(20)";
                                  mkColumn "name" "varchar(64)"])).
  { simpl. repeat constructor; simpl; intuition discriminate. }
  split; [exact Hnd|].
  destruct (@select_part_of_table ascii_upper ascii_isdigit ascii_lower _ Hnd)
    as (Hmissing & _ & Hall & _).
  split; [|split; [|reflexivity]].
  - rewrite Hmissing; [reflexivity | reflexivity |].
    simpl. intuition discriminate.
  - rewrite Hall; [reflexivity|].
    intros c [<-|[<-|[]]]; reflexivity.
Defined.

(** ** [core/db_adapter.py] *)

Lemma fetchone_first_load (Row : Type) (rows : list Row) :
  ResultProxy.fetchone None rows = ResultProxy.fetchone (Some rows) [].
Proof. reflexivity. Qed.

Lemma fetchone_times_loaded (Row : Type) (k : nat) :
  forall (rows : list Row) (cur : ResultProxy.Cursor Row),
  ResultProxy.fetchone_times k (Some rows) cur
  = (map (nth_error rows) (seq 0 k), Some (skipn k rows), cur).
Proof.
  induction k as [|k IH]; intros rows cur; [reflexivity|].
  cbn [ResultProxy.fetchone_times]. unfold ResultProxy.fetchone.
  cbn [ResultProxy.load]. cbn [seq map]. rewrite <- seq_shift, map_map.
  destruct rows as [|row rest].
  - rewrite IH, skipn_nil.
    assert (E : map (nth_error (@nil Row)) (seq 0 k)
                = map (fun x => nth_error (@nil Row) (S x)) (seq 0 k))
      by (apply map_ext; intros [|i]; reflexivity).
    rewrite E. reflexivity.
  - rewrite IH. reflexivity.
Qed.

(** X25. Reading a result through [ResultProxy].  On a fresh result
    whose statement produced [rows], [k] calls of [fetchone] return the
    first [k] rows in order, and None for every call past the last row.
    [fetchall] then returns the rows not yet handed out by [fetchone];
    it consumes nothing: called again it returns the same rows, and a
    [fetchone] after it returns the next row all the same. *)
Theorem result_proxy_reads_in_order (Row : Type) (rows : list Row) (k : nat) :
  let '(got, p, cur) := ResultProxy.fetchone_times k None rows in
  got = map (nth_error rows) (seq 0 k) /\
  let '(rest, p1, cur1) := ResultProxy.fetchall p cur in
  rest = skipn k rows /\
  ResultProxy.fetchall p1 cur1 = (rest, p1, cur1) /\
  fst (fst (ResultProxy.fetchone p1 cur1)) = nth_error rows k.
Proof.
  assert (Hnext : forall l : list Row,
            fst (fst (ResultProxy.fetchone (Some (skipn k l)) []))
            = nth_error l k).
  { clear rows. induction k as [|k IH]; intros l.
    - destruct l; reflexivity.
    - destruct l as [|x l]; [reflexivity|]. cbn [skipn nth_error]. apply IH. }
  destruct k as [|k].
  - cbn [ResultProxy.fetchone_times seq map]. split; [reflexivity|].
    cbn. split; [reflexivity|]. split; [reflexivity|].
    destruct rows; reflexivity.
  - cbn [ResultProxy.fetchone_times]. rewrite fetchone_first_load.
    change (let '(got, p, cur) :=
              ResultProxy.fetchone_times (S k) (Some rows) [] in
            got = map (nth_error rows) (seq 0 (S k)) /\
            (let '(rest, p1, cur1) := ResultProxy.fetchall p cur in
             rest = skipn (S k) rows /\
             ResultProxy.fetchall p1 cur1 = (rest, p1, cur1) /\
             fst (fst (ResultProxy.fetchone p1 cur1))
             = nth_error rows (S k))).
    rewrite fetchone_times_loaded. split; [reflexivity|].
    cbn [ResultProxy.fetchall ResultProxy.load].
    split; [reflexivity|]. split; [reflexivity|]. apply Hnext.
Qed.

(** X26. All results of one adapter read from the same cursor.  When a
    second statement is executed before anything was fetched from the
    first result, the first result hands out the rows of the second
    statement and the second result is left with none.  A result that
    was fetched from before the second statement ran keeps its own
    rows. *)
Theorem results_share_the_cursor (Row : Type)
  (rows1 rows2 : list Row) (cur0 : ResultProxy.Cursor Row) :
  (let '(r1, cur) := PyMySQLAdapter.execute rows1 cur0 in
   let '(r2, cur) := PyMySQLAdapter.execute rows2 cur in
   let '(got1, r1, cur) := ResultProxy.fetchall r1 cur in
   let '(got2, r2, cur) := ResultProxy.fetchall r2 cur in
   got1 = rows2 /\ got2 = []) /\
  (let '(r1, cur) := PyMySQLAdapter.execute rows1 cur0 in
   let '(got1, r1, cur) := ResultProxy.fetchall r1 cur in
   let '(r2, cur) := PyMySQLAdapter.execute rows2 cur in
   let '(again1, r1, cur) := ResultProxy.fetchall r1 cur in
   let '(got2, r2, cur) := ResultProxy.fetchall r2 cur in
   got1 = rows1 /\ again1 = rows1 /\ got2 = rows2).
Proof.
  split; cbn; auto.
Qed.

Section ConvertFacts.

Import PyMySQLAdapter.

Lemma prefix_cons (c d : Ascii.ascii) (a s : string) :
  String.prefix (String c a) (String d s)
  = if Ascii.ascii_dec c d then String.prefix a s else false.
Proof. reflexivity. Qed.

Lemma prefix_self_app (a s : string) : String.prefix a (a ++ s) = true.
Proof.
  induction a as [|c a IH].
  - destruct s; reflexivity.
  - change (String c a ++ s)%string with (String c (a ++ s)).
    rewrite prefix_cons.
    destruct (Ascii.ascii_dec c c); [exact IH | contradiction].
Qed.

Lemma drop_own_length (a s : string) : drop (String.length a) (a ++ s) = s.
Proof.
  induction a as [|c a IH]; simpl; [destruct s; reflexivity | exact IH].
Qed.

Lemma replace_first_here (old new post : string) :
  replace_first old new (old ++ post) = (new ++ post)%string.
Proof.
  destruct old as [|c old].
  - destruct post; reflexivity.
  - change (replace_first (String c old) new (String c old ++ post))
      with (if String.prefix (String c old) (String c old ++ post)
            then (new ++ drop (String.length (String c old))
                           (String c old ++ post))%string
            else String c (replace_first (String c old) new (old ++ post))).
    rewrite prefix_self_app, drop_own_length. reflexivity.
Qed.

Lemma replace_first_skip (key new pre s : string) :
  colon_free pre = true ->
  replace_first (String colon key) new (pre ++ s)
  = (pre ++ replace_first (String colon key) new s)%string.
Proof.
  induction pre as [|c pre IH]; intros Hfree; [reflexivity|].
  simpl in Hfree. apply andb_true_iff in Hfree. destruct Hfree as [Hc Hfree].
  change (String c pre ++ s)%string with (String c (pre ++ s)).
  change (replace_first (String colon key) new (String c (pre ++ s)))
    with (if String.prefix (String colon key) (String c (pre ++ s))
          then (new ++ drop (String.length (String colon key))
                         (String c (pre ++ s)))%string
          else String c (replace_first (String colon key) new (pre ++ s))).
  assert (Hp : String.prefix (String colon key) (String c (pre ++ s)) = false).
  { rewrite prefix_cons.
    destruct (Ascii.ascii_dec colon c) as [E|E]; [|reflexivity].
    subst c. rewrite Ascii.eqb_refl in Hc. discriminate. }
  rewrite Hp, IH by exact Hfree. reflexivity.
Qed.

Lemma replace_first_pass (key new rest : string) :
  String.prefix key rest = false ->
  replace_first (String colon key) new (String colon rest)
  = String colon (replace_first (String colon key) new rest).
Proof.
  intros Hp.
  change (replace_first (String colon key) new (String colon rest))
    with (if String.prefix (String colon key) (String colon rest)
          then (new ++ drop (String.length (String colon key))
                         (String colon rest))%string
          else String colon (replace_first (String colon key) new rest)).
  assert (Hq : String.prefix (String colon key) (String colon rest) = false).
  { rewrite prefix_cons.
    destruct (Ascii.ascii_dec colon colon); [exact Hp | reflexivity]. }
  rewrite Hq. reflexivity.
Qed.

Lemma append_parts (a b c : string) :
  (a ++ b ++ c)%string = ((a ++ b) ++ c)%string.
Proof.
  induction a as [|x a IH]; [reflexivity|]. simpl. rewrite IH. reflexivity.
Qed.

Lemma colon_free_app (a b : string) :
  colon_free a = true -> colon_free b = true ->
  colon_free (a ++ b)%string = true.
Proof.
  intros Ha Hb. induction a as [|c a IH]; [exact Hb|].
  simpl in *. apply andb_true_iff in Ha. destruct Ha as [Hc Ha].
  rewrite Hc. exact (IH Ha).
Qed.

Lemma convert_values (Value : Type) (params : list (string * Value)) :
  forall (sql : string) (acc : list Value),
  snd (fold_left (@convert_step Value) params (sql, acc))
  = acc ++ map snd params.
Proof.
  induction params as [|[key value] params IH]; intros sql acc; simpl.
  - rewrite app_nil_r. reflexivity.
  - rewrite IH, <- app_assoc. reflexivity.
Qed.

(** X27. [_convert_sql_params] binds by the order of the dictionary, not
    by the place of the markers.  The values it returns are the values
    of the dictionary in the dictionary's order, one for every key,
    whatever the statement says ([execute] passes them on when the
    dictionary is not empty, and passes no values otherwise).  So for a
    statement that names [:a] before [:b] (no other colon before them,
    no colon in [a], and [b] not the start of what follows the first
    colon) and a dictionary that lists [b] before [a], both markers
    become %s and the first %s, which stood for [a], is bound to the
    value of [b]. *)
Theorem convert_binds_in_dict_order (Value : Type)
  (pre a mid b post : string) (va vb : Value) :
  (forall sql (params : list (string * Value)),
     snd (_convert_sql_params sql params) = map snd params) /\
  (forall sql (params : option (list (string * Value))),
     snd (execute_arguments sql params)
     = match params with
       | Some (item :: items) => Some (map snd (item :: items))
       | _ => None
       end) /\
  (colon_free pre = true -> colon_free a = true -> colon_free mid = true ->
   String.prefix b (a ++ mid ++ String colon b ++ post) = false ->
   _convert_sql_params
     (pre ++ String colon a ++ mid ++ String colon b ++ post)%string
     [(b, vb); (a, va)]
   = ((pre ++ "%s" ++ mid ++ "%s" ++ post)%string, [vb; va])).
Proof.
  assert (Hvalues : forall sql (params : list (string * Value)),
            snd (_convert_sql_params sql params) = map snd params).
  { intros sql params. unfold _convert_sql_params.
    rewrite convert_values. reflexivity. }
  split; [exact Hvalues|]. split.
  - intros sql [[|item items]|]; try reflexivity.
    unfold execute_arguments.
    specialize (Hvalues sql (item :: items)).
    destruct (_convert_sql_params sql (item :: items)) as [s vs].
    cbn [snd] in *. rewrite Hvalues. reflexivity.
  - intros Hpre Ha Hmid Hb.
    unfold _convert_sql_params. cbn [fold_left convert_step app].
    f_equal.
    rewrite (@replace_first_skip b "%s" pre _ Hpre).
    change (String colon a ++ mid ++ String colon b ++ post)%string
      with (String colon (a ++ mid ++ String colon b ++ post)%string).
    rewrite (@replace_first_pass b "%s" _ Hb).
    rewrite (append_parts a mid).
    rewrite (@replace_first_skip b "%s" (a ++ mid)%string _
               (@colon_free_app a mid Ha Hmid)).
    rewrite (replace_first_here (String colon b) "%s" post).
    rewrite (@replace_first_skip a "%s" pre _ Hpre).
    rewrite <- (append_parts a mid).
    change (String colon ((a ++ mid ++ "%s" ++ post)%string))
      with (String colon a ++ (mid ++ "%s" ++ post))%string.
    rewrite (replace_first_here (String colon a) "%s"
               (mid ++ "%s" ++ post)%string).
    reflexivity.
Qed.

Lemma convert_binds_in_dict_order_witness :
  _convert_sql_params "UPDATE t SET x = :x WHERE id = :id"
    [("id", 7); ("x", 1)]
  = ("UPDATE t SET x = %s WHERE id = %s", [7; 1]).
Proof.
  apply (proj2 (proj2 (@convert_binds_in_dict_order Z "UPDATE t SET x = "
                         "x" " WHERE id = " "id" "" 1 7))); reflexivity.
Defined.

End ConvertFacts.

(** ** [product/fix_pinyin.py] *)

Section FixPinyinFacts.

Import FixPinyin.

Variable to_pinyin : string -> string.

Lemma filled_id (r : ProductRow) : id (filled to_pinyin r) = id r.
Proof. unfold filled. destruct (truthy (pinyin r)); reflexivity. Qed.

Lemma filled_twice (r : ProductRow) :
  filled to_pinyin (filled to_pinyin r) = filled to_pinyin r.
Proof.
  unfold filled.
  destruct (truthy (pinyin r)) eqn:E; cbn [pinyin name id];
    [rewrite E; reflexivity|].
  destruct (truthy (Some (to_pinyin (name r)))); reflexivity.
Qed.

Lemma update_pinyin_other (py : string) (i : Z) (rows : list ProductRow) :
  ~ In i (map id rows) -> update_pinyin py i rows = rows.
Proof.
  intros Hi. unfold update_pinyin. induction rows as [|r rows IH];
    [reflexivity|].
  cbn [map]. rewrite IH by (intros H; apply Hi; right; exact H).
  destruct (id r =? i) eqn:E; [|reflexivity].
  apply Z.eqb_eq in E. exfalso. apply Hi. left. exact E.
Qed.

Lemma update_pinyin_app (py : string) (i : Z) (a b : list ProductRow) :
  update_pinyin py i (a ++ b) = update_pinyin py i a ++ update_pinyin py i b.
Proof. apply map_app. Qed.

Lemma update_pinyin_hit (py : string) (r : ProductRow)
  (rows : list ProductRow) :
  update_pinyin py (id r) (r :: rows)
  = {| id := id r; name := name r; pinyin := Some py |}
    :: update_pinyin py (id r) rows.
Proof. unfold update_pinyin. cbn [map]. rewrite Z.eqb_refl. reflexivity. Qed.

Lemma fix_loop (todo : list ProductRow) :
  forall (done : list ProductRow) (n : nat),
  NoDup (map id (done ++ todo)) ->
  fold_left (fix_step to_pinyin) todo (n, map (filled to_pinyin) done ++ todo)
  = ((n + List.length (filter unfilled todo))%nat,
     map (filled to_pinyin) (done ++ todo)).
Proof.
  induction todo as [|p todo IH]; intros done n Hnd.
  - cbn. rewrite !app_nil_r, Nat.add_0_r. reflexivity.
  - assert (Hsplit : done ++ p :: todo = (done ++ [p]) ++ todo)
      by (rewrite <- app_assoc; reflexivity).
    assert (Hnd' := Hnd). rewrite Hsplit in Hnd'.
    rewrite map_app in Hnd. cbn [map] in Hnd.
    assert (Hp1 : ~ In (id p) (map id done)).
    { intros H. apply NoDup_remove_2 in Hnd. apply Hnd.
      apply in_or_app. left. exact H. }
    assert (Hp2 : ~ In (id p) (map id todo)).
    { intros H. apply NoDup_remove_2 in Hnd. apply Hnd.
      apply in_or_app. right. exact H. }
    cbn [fold_left filter]. unfold fix_step at 2, unfilled at 1.
    cbn [fst snd].
    destruct (truthy (pinyin p)) eqn:E; cbn [negb].
    + replace (map (filled to_pinyin) done ++ p :: todo)
        with (map (filled to_pinyin) (done ++ [p]) ++ todo).
      * rewrite (IH (done ++ [p]) n Hnd'). rewrite Hsplit. reflexivity.
      * rewrite map_app, <- app_assoc. cbn [map app].
        unfold filled at 2. rewrite E. reflexivity.
    + replace (update_pinyin (to_pinyin (name p)) (id p)
                 (map (filled to_pinyin) done ++ p :: todo))
        with (map (filled to_pinyin) (done ++ [p]) ++ todo).
      * rewrite (IH (done ++ [p]) (S n) Hnd'). rewrite Hsplit.
        cbn [List.length]. rewrite Nat.add_succ_r. reflexivity.
      * rewrite update_pinyin_app, update_pinyin_hit.
        rewrite (@update_pinyin_other _ _ todo Hp2).
        rewrite update_pinyin_other.
        -- rewrite map_app, <- app_assoc. cbn [map app].
           unfold filled at 2. rewrite E. reflexivity.
        -- rewrite map_map.
           rewrite (map_ext _ id filled_id). exact Hp1.
Qed.

Lemma fix_all_result (table : list ProductRow) :
  NoDup (map id table) ->
  fix_all to_pinyin table
  = (List.length (filter unfilled table), map (filled to_pinyin) table).
Proof.
  intros Hnd. unfold fix_all.
  exact (@fix_loop table [] O Hnd).
Qed.

End FixPinyinFacts.

(** X28. [fix_all] (and its copy [_fix_pinyin]) on a products table with
    unique ids: every row whose pinyin is NULL or empty gets the pinyin
    of its name, every other row is left as it is, and the count is the
    number of rows that had none.  The script can be repeated: a second
    run leaves the table as the first left it, and updates no row at all
    when no name has an empty pinyin. *)
Theorem fix_all_repeatable (to_pinyin : string -> string)
  (table : list FixPinyin.ProductRow) :
  NoDup (map FixPinyin.id table) ->
  let '(updated_count, table1) := FixPinyin.fix_all to_pinyin table in
  table1 = map (FixPinyin.filled to_pinyin) table /\
  updated_count
  = List.length (filter (fun r => negb (truthy (FixPinyin.pinyin r))) table) /\
  snd (FixPinyin.fix_all to_pinyin table1) = table1 /\
  ((forall r, In r table -> to_pinyin (FixPinyin.name r) <> "") ->
   fst (FixPinyin.fix_all to_pinyin table1) = O).
Proof.
  intros Hnd. rewrite (@fix_all_result to_pinyin table Hnd).
  split; [reflexivity|]. split; [reflexivity|].
  assert (Hnd1 : NoDup (map FixPinyin.id
                          (map (FixPinyin.filled to_pinyin) table))).
  { rewrite map_map.
    rewrite (map_ext _ FixPinyin.id (filled_id to_pinyin)). exact Hnd. }
  rewrite (@fix_all_result to_pinyin _ Hnd1). cbn [fst snd]. split.
  - rewrite map_map. apply map_ext. apply filled_twice.
  - intros Hne. rewrite filter_none; [reflexivity|].
    intros r Hr. apply in_map_iff in Hr. destruct Hr as [r0 [<- Hr0]].
    unfold FixPinyin.unfilled, FixPinyin.filled.
    destruct (truthy (FixPinyin.pinyin r0)) eqn:E.
    + rewrite E. reflexivity.
    + cbn [FixPinyin.pinyin truthy].
      destruct (String.eqb (to_pinyin (FixPinyin.name r0)) "") eqn:E0;
        [|reflexivity].
      apply String.eqb_eq in E0. exfalso. exact (Hne r0 Hr0 E0).
Qed.

Lemma fix_all_repeatable_witness :
  let to_pinyin := fun name : string => TableAccess.ascii_upper name in
  let table := [FixPinyin.mkProductRow 1 "cha" None;
                FixPinyin.mkProductRow 2 "mi" (Some "MI");
                FixPinyin.mkProductRow 3 "you" (Some "")] in
  NoDup (map FixPinyin.id table) /\
  FixPinyin.fix_all to_pinyin table
  = (2%nat, [FixPinyin.mkProductRow 1 "cha" (Some "CHA");
             FixPinyin.mkProductRow 2 "mi" (Some "MI");
             FixPinyin.mkProductRow 3 "you" (Some "YOU")]) /\
  snd (FixPinyin.fix_all to_pinyin
         [FixPinyin.mkProductRow 1 "cha" (Some "CHA");
          FixPinyin.mkProductRow 2 "mi" (Some "MI");
          FixPinyin.mkProductRow 3 "you" (Some "YOU")])
  = [FixPinyin.mkProductRow 1 "cha" (Some "CHA");
     FixPinyin.mkProductRow 2 "mi" (Some "MI");
     FixPinyin.mkProductRow 3 "you" (Some "YOU")].
Proof.
  cbv zeta.
  assert (Hnd : NoDup (map FixPinyin.id
                         [FixPinyin.mkProductRow 1 "cha" None;
                          FixPinyin.mkProductRow 2 "mi" (Some "MI");
                          FixPinyin.mkProductRow 3 "you" (Some "")])).
  { simpl. repeat constructor; simpl; intuition discriminate. }
  split; [exact Hnd|]. split; [reflexivity|].
  exact (proj1 (proj2 (proj2
           (@fix_all_repeatable (fun name : string => TableAccess.ascii_upper name)
              _ Hnd)))).
Defined.

(** ** [api/wechat_pay/routes.py] *)

Section NotifyFacts.

Import WechatPay.

Variable ENVIRONMENT : string.
Variable TEST_NOTIFY_TOKEN : option string.
Variable verify_signature :
  string -> string -> string -> string -> string + bool.

Lemma empty_body_test (body : string) :
  String.eqb body "" || Nat.eqb (String.length (strip body)) 0 = true
  <-> strip body = "".
Proof.
  split.
  - intros H. apply orb_true_iff in H. destruct H as [H|H].
    + apply String.eqb_eq in H. subst body. reflexivity.
    + apply Nat.eqb_eq in H. destruct (strip body); [reflexivity|discriminate].
  - intros H. rewrite H. apply orb_true_r.
Qed.

Lemma nonempty_body_test (body : string) :
  strip body <> "" ->
  String.eqb body "" || Nat.eqb (String.length (strip body)) 0 = false.
Proof.
  intros H.
  destruct (String.eqb body "" || Nat.eqb (String.length (strip body)) 0)
    eqn:E; [|reflexivity].
  apply empty_body_test in E. contradiction.
Qed.

Lemma checks_verified (body : string) (headers : string -> option string) :
  strip body <> "" ->
  (truthy (por (headers "X-DEV-BYPASS-VERIFY") (headers "X-DEV-BYPASS"))
   && negb (String.eqb ENVIRONMENT "production"))
  || (truthy (headers "X-DEV-TEST-TOKEN") && truthy TEST_NOTIFY_TOKEN
      && opt_string_eqb (headers "X-DEV-TEST-TOKEN") TEST_NOTIFY_TOKEN)
  = false ->
  wechat_pay_notify_checks ENVIRONMENT TEST_NOTIFY_TOKEN verify_signature
    body headers = Continue ->
  exists sg ts nc sr,
    headers "Wechatpay-Signature" = Some sg /\
    headers "Wechatpay-Timestamp" = Some ts /\
    headers "Wechatpay-Nonce" = Some nc /\
    headers "Wechatpay-Serial" = Some sr /\
    sg <> "" /\ ts <> "" /\ nc <> "" /\ sr <> "" /\
    verify_signature sg ts nc body = inr true.
Proof.
  intros Hbody Hby. unfold wechat_pay_notify_checks.
  rewrite (@nonempty_body_test body Hbody). cbv zeta. rewrite Hby.
  destruct (forallb truthy
              [headers "Wechatpay-Signature"; headers "Wechatpay-Timestamp";
               headers "Wechatpay-Nonce"; headers "Wechatpay-Serial"])
    eqn:Hall; cbn [negb]; [|discriminate].
  cbn [forallb] in Hall. rewrite !andb_true_iff in Hall.
  destruct Hall as (H1 & H2 & H3 & H4 & _).
  destruct (headers "Wechatpay-Signature") as [sg|]; [|discriminate].
  destruct (headers "Wechatpay-Timestamp") as [ts|]; [|discriminate].
  destruct (headers "Wechatpay-Nonce") as [nc|]; [|discriminate].
  destruct (headers "Wechatpay-Serial") as [sr|]; [|discriminate].
  destruct (verify_signature sg ts nc body) as [e|[|]] eqn:Hv;
    try discriminate.
  intros _. exists sg, ts, nc, sr.
  cbn [truthy] in H1, H2, H3, H4.
  repeat split; try reflexivity; try exact Hv; intros ->; discriminate.
Qed.

End NotifyFacts.

(** X29. What lets a payment notification past the signature check of
    [wechat_pay_notify].  A body that is empty or white space only is
    answered with FAIL.  Otherwise: a request whose X-DEV-TEST-TOKEN
    header equals a non-empty TEST_NOTIFY_TOKEN passes in every
    environment, production included, whatever the signature check would
    say; a non-empty X-DEV-BYPASS-VERIFY or X-DEV-BYPASS header passes
    outside production; and in production a request without the matching
    token passes only with all four Wechatpay headers non-empty and a
    signature that [verify_signature] accepts. *)
Theorem notify_signature_gate
  (ENVIRONMENT : string) (TEST_NOTIFY_TOKEN : option string)
  (verify_signature : string -> string -> string -> string -> string + bool)
  (body : string) (headers : string -> option string) :
  let checks :=
    WechatPay.wechat_pay_notify_checks ENVIRONMENT TEST_NOTIFY_TOKEN
      verify_signature body headers in
  (WechatPay.strip body = "" ->
   checks = WechatPay.Answer
              (WechatPay._xml_response "FAIL" "Empty request body")) /\
  (WechatPay.strip body <> "" ->
   truthy TEST_NOTIFY_TOKEN = true ->
   headers "X-DEV-TEST-TOKEN" = TEST_NOTIFY_TOKEN ->
   checks = WechatPay.Continue) /\
  (WechatPay.strip body <> "" ->
   ENVIRONMENT <> "production" ->
   truthy (headers "X-DEV-BYPASS-VERIFY") = true \/
   truthy (headers "X-DEV-BYPASS") = true ->
   checks = WechatPay.Continue) /\
  (ENVIRONMENT = "production" ->
   headers "X-DEV-TEST-TOKEN" <> TEST_NOTIFY_TOKEN \/
   truthy TEST_NOTIFY_TOKEN = false ->
   checks = WechatPay.Continue ->
   exists sg ts nc sr,
     headers "Wechatpay-Signature" = Some sg /\
     headers "Wechatpay-Timestamp" = Some ts /\
     headers "Wechatpay-Nonce" = Some nc /\
     headers "Wechatpay-Serial" = Some sr /\
     sg <> "" /\ ts <> "" /\ nc <> "" /\ sr <> "" /\
     verify_signature sg ts nc body = inr true).
Proof.
  cbv zeta. split; [|split; [|split]].
  - intros Hb. unfold WechatPay.wechat_pay_notify_checks.
    rewrite (proj2 (empty_body_test body) Hb). reflexivity.
  - intros Hb Htok Hhdr. unfold WechatPay.wechat_pay_notify_checks.
    rewrite (@nonempty_body_test body Hb). cbv zeta.
    rewrite Hhdr, Htok.
    rewrite (proj2 (opt_string_eqb_eq TEST_NOTIFY_TOKEN TEST_NOTIFY_TOKEN)
               eq_refl).
    cbn [andb]. rewrite orb_true_r. reflexivity.
  - intros Hb Henv Hhdr. unfold WechatPay.wechat_pay_notify_checks.
    rewrite (@nonempty_body_test body Hb). cbv zeta.
    assert (Hpor : truthy (WechatPay.por (headers "X-DEV-BYPASS-VERIFY")
                             (headers "X-DEV-BYPASS")) = true).
    { unfold WechatPay.por.
      destruct (truthy (headers "X-DEV-BYPASS-VERIFY")) eqn:E;
        [exact E | destruct Hhdr as [H|H]; [discriminate | exact H]]. }
    rewrite Hpor.
    assert (Hprod : String.eqb ENVIRONMENT "production" = false).
    { apply String.eqb_neq. exact Henv. }
    rewrite Hprod. reflexivity.
  - intros Henv Htok Hc.
    destruct (WechatPay.strip body) eqn:Hs.
    + exfalso. revert Hc. unfold WechatPay.wechat_pay_notify_checks.
      rewrite (proj2 (empty_body_test body) Hs). discriminate.
    + apply (@checks_verified ENVIRONMENT TEST_NOTIFY_TOKEN verify_signature
               body headers); [rewrite Hs; discriminate | | exact Hc].
      subst ENVIRONMENT. rewrite String.eqb_refl. cbn [negb].
      rewrite andb_false_r. cbn [orb].
      destruct Htok as [Hne|Hf].
      * destruct (opt_string_eqb (headers "X-DEV-TEST-TOKEN")
                    TEST_NOTIFY_TOKEN) eqn:E; [|apply andb_false_r].
        apply opt_string_eqb_eq in E. contradiction.
      * rewrite Hf, andb_false_r. reflexivity.
Qed.

Lemma notify_signature_gate_witness :
  let headers := fun key : string =>
                   if String.eqb key "X-DEV-TEST-TOKEN"
                   then Some "s3cret" else None in
  WechatPay.strip "{}" <> "" /\
  WechatPay.wechat_pay_notify_checks "production" (Some "s3cret")
    (fun _ _ _ _ => inr false) "{}" headers
  = WechatPay.Continue.
Proof.
  cbv zeta.
  assert (Hb : WechatPay.strip "{}" <> "") by (vm_compute; discriminate).
  split; [exact Hb|].
  apply (proj1 (proj2 (@notify_signature_gate "production" (Some "s3cret")
                         (fun _ _ _ _ => inr false) "{}" _)));
    [exact Hb | reflexivity | reflexivity].
Defined.

(** ** [app.py] *)

Lemma replace_tag_defined (tag : string) :
  Forall (fun t => In t OpenApi.defined_tag_names) (OpenApi.replace_tag tag).
Proof.
  unfold OpenApi.replace_tag.
  destruct (mem tag OpenApi.defined_tag_names) eqn:E.
  - constructor; [apply mem_In; exact E | constructor].
  - destruct (contains "订单系统" tag).
    + constructor; [|constructor]. apply mem_In. reflexivity.
    + destruct (contains "商品" tag || contains "商品管理" tag
                || contains "商品扩展" tag).
      * constructor; [|constructor]. apply mem_In. reflexivity.
      * constructor.
Qed.

Lemma filter_operation_tags_defined (tags : list string) :
  OpenApi.filter_operation_tags tags <> [] /\
  Forall (fun t => In t OpenApi.defined_tag_names)
         (OpenApi.filter_operation_tags tags).
Proof.
  assert (H : Forall (fun t => In t OpenApi.defined_tag_names)
                (flat_map OpenApi.replace_tag tags)).
  { induction tags as [|tag tags IH]; [constructor|].
    cbn [flat_map]. apply Forall_app. split;
      [apply replace_tag_defined | exact IH]. }
  unfold OpenApi.filter_operation_tags.
  destruct (flat_map OpenApi.replace_tag tags) as [|t ts].
  - split; [discriminate|].
    constructor; [|constructor]. apply mem_In. reflexivity.
  - split; [discriminate | exact H].
Qed.

Lemma filter_operation_tags_keeps (tags : list string) :
  tags <> [] ->
  Forall (fun t => In t OpenApi.defined_tag_names) tags ->
  OpenApi.filter_operation_tags tags = tags.
Proof.
  intros Hne Hall.
  assert (H : flat_map OpenApi.replace_tag tags = tags).
  { clear Hne. induction Hall as [|tag tags Htag Hall IH]; [reflexivity|].
    cbn [flat_map]. rewrite IH. unfold OpenApi.replace_tag.
    rewrite (proj2 (mem_In tag OpenApi.defined_tag_names) Htag).
    reflexivity. }
  unfold OpenApi.filter_operation_tags. rewrite H.
  destruct tags; [contradiction | reflexivity].
Qed.

Lemma retagged_operations (Other : Type)
  (ps : list (string * list (string * OpenApi.Operation Other))) :
  flat_map (fun kv => map snd (snd kv))
    (map (fun kv => (fst kv, OpenApi.retag_path_item (snd kv))) ps)
  = map (@OpenApi.retag Other) (flat_map (fun kv => map snd (snd kv)) ps).
Proof.
  induction ps as [|[path item] ps IH]; [reflexivity|].
  cbn [map flat_map fst snd]. rewrite IH, map_app. f_equal.
  unfold OpenApi.retag_path_item. rewrite !map_map. reflexivity.
Qed.

(** X30. The schema [custom_openapi] builds when none is stored: its
    operations are those [get_openapi] generated, each retagged; an
    operation without tags (no key, or an empty list) is left as it is;
    an operation with tags ends with a non-empty list of defined tag
    names only, which is its own list when all its tags were defined;
    the schema's tag entries are the generated ones that carry a defined
    name.  The schema is stored, and while it is stored every later call
    returns it, whatever the routes would generate by then. *)
Theorem custom_openapi_tags (Other : Type)
  (generated later : OpenApi.Schema Other) :
  let '(schema, stored) := OpenApi.custom_openapi None generated in
  OpenApi.operations schema
  = map (@OpenApi.retag Other) (OpenApi.operations generated) /\
  (forall op : OpenApi.Operation Other,
     match OpenApi.op_tags op with
     | Some (t :: ts) =>
         exists t' ts',
           OpenApi.op_tags (OpenApi.retag op) = Some (t' :: ts') /\
           Forall (fun tag => In tag OpenApi.defined_tag_names) (t' :: ts') /\
           (Forall (fun tag => In tag OpenApi.defined_tag_names) (t :: ts) ->
            t' :: ts' = t :: ts)
     | _ => OpenApi.retag op = op
     end) /\
  (forall tags, OpenApi.schema_tags schema = Some tags ->
     exists tags0, OpenApi.schema_tags generated = Some tags0 /\
       forall tag, In tag tags <->
         In tag tags0 /\ In (OpenApi.tag_name tag) OpenApi.defined_tag_names) /\
  stored = Some schema /\
  OpenApi.custom_openapi stored later = (schema, stored).
Proof.
  cbn [OpenApi.custom_openapi].
  split; [|split; [|split; [|split]]]; try reflexivity.
  - unfold OpenApi.operations. cbn [OpenApi.paths].
    destruct (OpenApi.paths generated) as [ps|]; [|reflexivity].
    cbn [option_map]. apply retagged_operations.
  - intros op. destruct (OpenApi.op_tags op) as [[|t ts]|] eqn:E.
    + unfold OpenApi.retag. rewrite E. reflexivity.
    + destruct (filter_operation_tags_defined (t :: ts)) as [Hne Hall].
      unfold OpenApi.retag. rewrite E. cbn [OpenApi.op_tags].
      destruct (OpenApi.filter_operation_tags (t :: ts)) as [|t' ts'] eqn:Ef;
        [contradiction|].
      exists t', ts'. split; [reflexivity|]. split; [exact Hall|].
      intros Hdef. rewrite <- Ef.
      apply filter_operation_tags_keeps; [discriminate | exact Hdef].
    + unfold OpenApi.retag. rewrite E. reflexivity.
  - intros tags. cbn [OpenApi.schema_tags].
    destruct (OpenApi.schema_tags generated) as [tags0|]; [|discriminate].
    cbn [option_map]. intros H. injection H as <-.
    exists tags0. split; [reflexivity|]. intros tag.
    split.
    + intros H. apply filter_In in H. destruct H as [H1 H2].
      split; [exact H1|].
      exact (proj1 (mem_In (OpenApi.tag_name tag)
                      OpenApi.defined_tag_names) H2).
    + intros [H1 H2]. apply filter_In. split; [exact H1|].
      exact (proj2 (mem_In (OpenApi.tag_name tag)
                      OpenApi.defined_tag_names) H2).
Qed.
